(** * Admin reporting and export: a shallow embedding of the admin controller

    The development follows the admin controller of the quiz backend
    (dashboard overview, student and session listings, per-student
    performance, spreadsheet export).  Documents are records, the record
    store is its collections as lists, handlers are functions from a
    store and a request to a response.

    Numbers: integer fields are [Z], fractional ones are rationals [Q];
    [NaN] is the [None] of [option Z].  Integers are taken within the
    range where a double is exact (magnitude at most 2^53 - 1).  The
    averages that the controller computes itself, those of the export,
    are computed as the code computes them, with a rounding to the
    nearest double after every operation; the averages that the
    database computes in an aggregation are given by their exact
    value. *)

From Stdlib Require Import List ZArith QArith Qround Qabs Qpower String Ascii.
From Stdlib Require Import Bool Lia Sorted Permutation Lqa.
From Stdlib Require Import DecimalString DecimalPos DecimalN.
Import ListNotations.

Local Open Scope string_scope.
Local Open Scope list_scope.
Local Open Scope Z_scope.

(* ------------------------------------------------------------------ *)
(** ** JavaScript primitives used by the controller *)

Module JS.

(** The outcome of a computation that may throw. *)
Inductive result (A : Type) : Type :=
| Ok (a : A)
| Throw (message : string).
Arguments Ok {A} a.
Arguments Throw {A} message.

Definition bind {A B} (m : result A) (k : A -> result B) : result B :=
  match m with
  | Ok a => k a
  | Throw e => Throw e
  end.

(** A query-string parameter after destructuring with a default: the
    defaults [page = 1] and [limit = 20] are numbers, everything read
    from the query string is a string. *)
Inductive value : Type :=
| VNum (n : Z)
| VStr (s : string).

Definition withDefault (v : option string) (d : value) : value :=
  match v with
  | Some s => VStr s
  | None => d
  end.

(** Truthiness of an optional string: [undefined] and [''] are falsy. *)
Definition truthy (v : option string) : bool :=
  match v with
  | Some s => negb (s =? "")%string
  | None => false
  end.

(** A parameter that passes an [if (v)] test. *)
Definition supplied (v : option string) : option string :=
  if truthy v then v else None.

(** [a || b] where [b] is a string that is always there. *)
Definition orElse (a : option string) (b : string) : string :=
  match a with
  | Some s => if (s =? "")%string then b else s
  | None => b
  end.

(** [a || b] where [b] may be undefined too. *)
Definition orOpt (a b : option string) : option string :=
  if truthy a then a else b.

Definition isWhiteSpace (c : ascii) : bool :=
  match nat_of_ascii c with
  | 9%nat | 10%nat | 11%nat | 12%nat | 13%nat | 32%nat => true
  | _ => false
  end.

Fixpoint trimStart (s : string) : string :=
  match s with
  | String c r => if isWhiteSpace c then trimStart r else s
  | EmptyString => EmptyString
  end.

(** Value of a character as a digit in a radix up to 36. *)
Definition digitValue (c : ascii) : option Z :=
  let n := Z.of_nat (nat_of_ascii c) in
  if (48 <=? n) && (n <=? 57) then Some (n - 48)
  else if (97 <=? n) && (n <=? 122) then Some (n - 87)
  else if (65 <=? n) && (n <=? 90) then Some (n - 55)
  else None.

(** The longest prefix of [s] made of digits of the radix, as a number;
    [acc] is [None] as long as no digit was read. *)
Fixpoint digitsPrefix (radix : Z) (s : string) (acc : option Z) : option Z :=
  match s with
  | String c r =>
      match digitValue c with
      | Some d =>
          if d <? radix
          then digitsPrefix radix r
                 (Some (match acc with Some a => a * radix + d | None => d end))
          else acc
      | None => acc
      end
  | EmptyString => acc
  end.

(** [parseInt(s)] without a radix argument; [None] is [NaN].  Every
    digit counts: this is the number JavaScript gives as long as it is
    a safe integer (of magnitude at most 2^53 - 1); a longer numeral is
    rounded to a double there. *)
Definition parseIntString (s : string) : option Z :=
  let s1 := trimStart s in
  let '(sign, s2) :=
    match s1 with
    | String "-"%char r => (-1, r)
    | String "+"%char r => (1, r)
    | _ => (1, s1)
    end in
  let '(radix, s3) :=
    match s2 with
    | String "0"%char (String "x"%char r) => (16, r)
    | String "0"%char (String "X"%char r) => (16, r)
    | _ => (10, s2)
    end in
  option_map (Z.mul sign) (digitsPrefix radix s3 None).

(** [parseInt] of a number that is an integer gives the number back. *)
Definition parseInt (v : value) : option Z :=
  match v with
  | VNum n => Some n
  | VStr s => parseIntString s
  end.

(** Arithmetic with [NaN]. *)
Definition sub (a b : option Z) : option Z :=
  match a, b with
  | Some x, Some y => Some (x - y)
  | _, _ => None
  end.

Definition mul (a b : option Z) : option Z :=
  match a, b with
  | Some x, Some y => Some (x * y)
  | _, _ => None
  end.

(** A number that may be infinite, as [Math.ceil(total / limit)] can be. *)
Inductive number : Type :=
| Fin (z : Z)
| NaN
| Infinity.

(** [Math.ceil(total / limit)] for a count [total >= 0]. *)
Definition ceilDiv (total : Z) (limit : option Z) : number :=
  match limit with
  | None => NaN
  | Some l =>
      if l =? 0 then (if total =? 0 then NaN else Infinity)
      else Fin (- ((- total) / l))
  end.

(** [Array.prototype.includes] on strings. *)
Definition includes (l : list string) (s : string) : bool :=
  existsb (String.eqb s) l.

(** The decimal digits of a non-negative integer, ["0"] for zero. *)
Definition decimal (n : Z) : string :=
  NilZero.string_of_uint (N.to_uint (Z.to_N n)).

Fixpoint zeros (k : nat) : string :=
  match k with
  | O => ""
  | S k' => String "0"%char (zeros k')
  end.

(** *** IEEE 754 double arithmetic

    The averages of the export are computed on doubles.  A finite
    double is a rational [m * 2^t] with [|m| < 2^53] and
    [-1074 <= t]; [double x] rounds a rational to the nearest such
    value, to the one with the even [m] on a tie.  The exponent is not
    bounded from above here: an operation whose exact result reaches
    [2^1024] gives [Infinity] in JavaScript and is outside the model. *)

(** [m * 2^e] *)
Definition ldexp (m e : Z) : Q :=
  if 0 <=? e then inject_Z (m * 2 ^ e) else m # Z.to_pos (2 ^ (- e)).

(** The integer nearest to [n / d] for [d > 0], the even one on a tie. *)
Definition roundHalfEven (n d : Z) : Z :=
  let q := n / d in
  let r := n mod d in
  if 2 * r <? d then q
  else if d <? 2 * r then q + 1
  else if Z.even q then q else q + 1.

(** [(a / b) / 2^t] is the ratio of [a * numScale t] and
    [b * denScale t]. *)
Definition numScale (t : Z) : Z := 2 ^ Z.max 0 (- t).
Definition denScale (t : Z) : Z := 2 ^ Z.max 0 t.

(** The exponent of the last bit of the significand of [a / b], for
    [a, b > 0]: the [t] with [2^52 <= (a / b) / 2^t < 2^53], and
    [-1074] for the values below the normal range. *)
Definition lastBit (a b : Z) : Z :=
  let t := Z.log2 a - Z.log2 b - 52 in
  let t := if 2 ^ 52 * (b * denScale t) <=? a * numScale t then t else t - 1 in
  Z.max t (-1074).

(** The double nearest to [x]. *)
Definition double (x : Q) : Q :=
  let a := Z.abs (Qnum (Qred x)) in
  let b := Zpos (Qden (Qred x)) in
  if a =? 0 then 0%Q
  else
    let t := lastBit a b in
    let m := roundHalfEven (a * numScale t) (b * denScale t) in
    Qred (ldexp (Z.sgn (Qnum (Qred x)) * m) t).

(** [x + y] and [x / y] on doubles, the divisor not zero. *)
Definition fadd (x y : Q) : Q := double (x + y)%Q.
Definition fdiv (x y : Q) : Q := double (x / y)%Q.

(** [x.toFixed(2)] for a double [x] of magnitude below 10^21, given by
    its exact value: the integer [n] with [n / 100] nearest to [|x|],
    the larger one on a tie, printed with two digits after the point
    and the sign in front. *)
Definition toFixed2 (x : Q) : string :=
  let neg := negb (Qle_bool 0%Q x) in
  let a := if neg then Qopp x else x in
  let n := Qfloor (a * (100 # 1) + (1 # 2))%Q in
  let m := decimal n in
  let k := String.length m in
  let m' := if (k <=? 2)%nat then (zeros (3 - k) ++ m)%string else m in
  let k' := String.length m' in
  ((if neg then "-" else "") ++
     substring 0 (k' - 2) m' ++ "." ++ substring (k' - 2) 2 m')%string.

End JS.

Notation "x <- m ;; k" := (JS.bind m (fun x => k))
  (at level 61, m at next level, right associativity).

(* ------------------------------------------------------------------ *)
(** ** Documents *)

(** Object ids are compared as strings; every id in a request is taken to
    be a well-formed one. *)
Definition ObjectId := string.

Module User.
(** Modelled from the spec: the schema of [models/User.js] is not among
    the sources; the fields are those the controller reads and the data
    model of the specification lists.  A field that may be missing is an
    [option]. *)
Record t : Type := mk {
  _id : ObjectId;
  role : string;
  isActive : bool;
  studentName : option string;
  studentId : option string;
  mobileNumber : option string;
  azureAdEmail : option string;
  azureAdDisplayName : option string;
  createdAt : Z;
  lastLoginAt : option Z
}.

(** The text fields a search looks at, by path. *)
Definition getString (path : string) (u : t) : option string :=
  if (path =? "studentName")%string then studentName u
  else if (path =? "studentId")%string then studentId u
  else if (path =? "mobileNumber")%string then mobileNumber u
  else if (path =? "azureAdEmail")%string then azureAdEmail u
  else None.
End User.

(** What [populate('studentId', 'studentName studentId mobileNumber
    azureAdEmail azureAdDisplayName')] puts in place of the reference. *)
Module Student.
Record t : Type := mk {
  _id : ObjectId;
  studentName : option string;
  studentId : option string;
  mobileNumber : option string;
  azureAdEmail : option string;
  azureAdDisplayName : option string
}.

Definition ofUser (u : User.t) : t :=
  mk (User._id u) (User.studentName u) (User.studentId u)
     (User.mobileNumber u) (User.azureAdEmail u) (User.azureAdDisplayName u).
End Student.

Module Performance.
Record t : Type := mk {
  accuracy : option Q;
  averageTimePerQuestion : option Q
}.
End Performance.

Module GameSession.
(** Modelled from the spec: the schema of [models/GameSession.js] is not
    among the sources; the fields are those the controller reads and the
    data model of the specification lists.  [studentId] is a reference to
    a user, as [populate] and [find({ studentId: student._id })] show. *)
Record t : Type := mk {
  _id : ObjectId;
  studentId : ObjectId;
  studentIdentifier : option string;
  level : Z;
  score : Z;
  totalQuestions : Z;
  percentage : Q;
  timeTakenSeconds : Z;
  startTime : option Z;
  endTime : option Z;
  status : string;
  performance : option Performance.t;
  feedbackText : option string;
  createdAt : Z
}.

(** A stored session holds the id of its student, not the student: the
    paths below [studentId] name nothing in a stored document. *)
Definition getString (path : string) (s : t) : option string :=
  if (path =? "studentIdentifier")%string then studentIdentifier s
  else None.
End GameSession.

Module FinancialItem.
(** Modelled from the spec: the schema of [models/FinancialItem.js] is not
    among the sources; only what the dashboard counts is kept. *)
Record t : Type := mk {
  id : string;
  level : Z;
  isActive : bool
}.
End FinancialItem.

(** A session with its [studentId] populated; [None] when no user has the
    id. *)
Definition PopulatedSession : Type := (GameSession.t * option Student.t)%type.

(* ------------------------------------------------------------------ *)
(** ** The spreadsheet under construction *)

Module Sheet.
Inductive Cell : Type :=
| CEmpty
| CNum (q : Q)
| CStr (s : string).

Record Style : Type := mkStyle {
  bold : bool;
  fill : option string
}.

Record Row : Type := mkRow {
  values : list Cell;
  style : Style
}.

Record Column : Type := mkColumn {
  header : string;
  key : string;
  width : Z
}.

Record Worksheet : Type := mkWorksheet {
  name : string;
  columns : list Column;
  rows : list Row
}.

Definition plain : Style := mkStyle false None.

Definition addWorksheet (n : string) : Worksheet := mkWorksheet n [] [].

(** [worksheet.columns = cols]: the headers become row 1. *)
Definition setColumns (cols : list Column) (ws : Worksheet) : Worksheet :=
  mkWorksheet (name ws) cols [mkRow (map (fun c => CStr (header c)) cols) plain].

Fixpoint lookup (k : string) (obj : list (string * Cell)) : Cell :=
  match obj with
  | [] => CEmpty
  | (k', v) :: r => if (k =? k')%string then v else lookup k r
  end.

(** [worksheet.addRow(obj)] with an object: one cell per column, found
    by the column's key. *)
Definition addRowObject (obj : list (string * Cell)) (ws : Worksheet) : Worksheet :=
  mkWorksheet (name ws) (columns ws)
    (rows ws ++ [mkRow (map (fun c => lookup (key c) obj) (columns ws)) plain]).

(** [worksheet.addRow(arr)] with an array: the cells in order. *)
Definition addRowArray (arr : list Cell) (ws : Worksheet) : Worksheet :=
  mkWorksheet (name ws) (columns ws) (rows ws ++ [mkRow arr plain]).

Definition rowCount (ws : Worksheet) : Z := Z.of_nat (List.length (rows ws)).

Fixpoint updateNth {A} (n : nat) (f : A -> A) (l : list A) : list A :=
  match l, n with
  | [], _ => []
  | x :: r, O => f x :: r
  | x :: r, S n' => x :: updateNth n' f r
  end.

(** [worksheet.getRow(i).font = ...; worksheet.getRow(i).fill = ...] for
    a row number [i >= 1] that exists. *)
Definition styleRow (i : Z) (st : Style) (ws : Worksheet) : Worksheet :=
  if i <? 1 then ws
  else mkWorksheet (name ws) (columns ws)
         (updateNth (Z.to_nat (i - 1)) (fun r => mkRow (values r) st) (rows ws)).
End Sheet.

(* ------------------------------------------------------------------ *)
(** ** What the runtime and the libraries provide *)

(** Behaviour the controller takes from its platform and from code that
    is not among the sources, as parameters: [getSummary] is the method of
    the session model, [parseDate] is [new Date(s)] ([None] for an invalid
    date), [toLocaleString] prints a date, [regexCompile p] is the matcher
    of the pattern [p] under the option [i] ([None] for a pattern that is
    not a regular expression), [xlsxSerialize] is the document the
    spreadsheet library writes for a worksheet, as the chunks it hands to
    the response, [daysBefore now n] is the instant that
    [d.setDate(d.getDate() - n)] makes of the instant [now]: the same
    time of day [n] days earlier in the calendar of the server. *)
Class Runtime : Type := {
  Summary : Type;
  getSummary : GameSession.t -> Summary;
  parseDate : string -> option Z;
  toLocaleString : Z -> string;
  regexCompile : string -> option (string -> bool);
  xlsxSerialize : Sheet.Worksheet -> list string;
  daysBefore : Z -> Z -> Z
}.

(* ------------------------------------------------------------------ *)
(** ** The record store *)

(** A number in a query: [None] is [NaN] (or an invalid date). *)
Definition num : Type := option Z.

(** The collections and the operations of the object-document mapper
    that the controller calls: [find] with [sort], [skip] and [limit],
    [countDocuments], [findById], [populate] and the stages of
    [aggregate].  A store that is not [online] rejects every operation. *)
Module Store.

Record t : Type := mk {
  users : list User.t;
  gameSessions : list GameSession.t;
  financialItems : list FinancialItem.t;
  online : bool
}.

(** [{ $gte: a, $lte: b }], each bound there or not. *)
Record Range : Type := mkRange {
  gte : option num;
  lte : option num
}.

(** [{ path: { $regex: pattern, $options: 'i' } }] *)
Definition RegexCond : Type := (string * string)%type.

Record SessionFilter : Type := mkSessionFilter {
  f_status : option string;
  f_level : option num;
  f_studentId : option ObjectId;
  f_score : option Range;
  f_createdAt : option Range;
  f_or : option (list RegexCond)
}.

Record UserFilter : Type := mkUserFilter {
  u_role : option string;
  u_isActive : option bool;
  u_createdAt : option Range;
  u_or : option (list RegexCond)
}.

(** Values are ordered as the store orders them: a missing field first,
    then numbers, then strings. *)
Inductive SortKey : Type :=
| KNull
| KNum (q : Q)
| KStr (s : string).

Definition keyLeb (a b : SortKey) : bool :=
  match a, b with
  | KNull, _ => true
  | KNum _, KNull => false
  | KNum x, KNum y => Qle_bool x y
  | KNum _, KStr _ => true
  | KStr x, KStr y => String.leb x y
  | KStr _, _ => false
  end.

Definition ofOptString (v : option string) : SortKey :=
  match v with Some s => KStr s | None => KNull end.

Definition ofOptZ (v : option Z) : SortKey :=
  match v with Some z => KNum (inject_Z z) | None => KNull end.

Definition sessionKey (field : string) (s : GameSession.t) : SortKey :=
  if (field =? "createdAt")%string then KNum (inject_Z (GameSession.createdAt s))
  else if (field =? "score")%string then KNum (inject_Z (GameSession.score s))
  else if (field =? "percentage")%string then KNum (GameSession.percentage s)
  else if (field =? "timeTakenSeconds")%string
       then KNum (inject_Z (GameSession.timeTakenSeconds s))
  else if (field =? "level")%string then KNum (inject_Z (GameSession.level s))
  else KNull.

Definition userKey (field : string) (u : User.t) : SortKey :=
  if (field =? "createdAt")%string then KNum (inject_Z (User.createdAt u))
  else if (field =? "studentName")%string then ofOptString (User.studentName u)
  else if (field =? "studentId")%string then ofOptString (User.studentId u)
  else if (field =? "mobileNumber")%string then ofOptString (User.mobileNumber u)
  else if (field =? "lastLoginAt")%string then ofOptZ (User.lastLoginAt u)
  else KNull.

Fixpoint insertBy {A} (leb : A -> A -> bool) (x : A) (l : list A) : list A :=
  match l with
  | [] => [x]
  | y :: r => if leb x y then x :: l else y :: insertBy leb x r
  end.

Definition sortBy {A} (leb : A -> A -> bool) (l : list A) : list A :=
  fold_right (insertBy leb) [] l.

(** [.sort({ [field]: direction })] with direction 1 or -1. *)
Definition sortDocs {A} (key : string -> A -> SortKey)
    (spec : option (string * Z)) (l : list A) : list A :=
  match spec with
  | None => l
  | Some (field, dir) =>
      sortBy (fun a b => if dir =? 1 then keyLeb (key field a) (key field b)
                         else keyLeb (key field b) (key field a)) l
  end.

(** Numbers in a filter are cast before the query runs, and the cast
    rejects [NaN] and invalid dates. *)
Definition castBound (path : string) (b : option num) : JS.result (option Z) :=
  match b with
  | None => JS.Ok None
  | Some (Some z) => JS.Ok (Some z)
  | Some None => JS.Throw ("Cast failed at path " ++ path)%string
  end.

Definition inRange (lo hi : option Z) (x : Z) : bool :=
  match lo with Some a => a <=? x | None => true end
  && match hi with Some b => x <=? b | None => true end.

Definition compileRange (path : string) (r : option Range) : JS.result (Z -> bool) :=
  match r with
  | None => JS.Ok (fun _ => true)
  | Some r =>
      lo <- castBound path (gte r) ;;
      hi <- castBound path (lte r) ;;
      JS.Ok (inRange lo hi)
  end.

Definition compileEq (path : string) (v : option num) : JS.result (Z -> bool) :=
  match v with
  | None => JS.Ok (fun _ => true)
  | Some (Some z) => JS.Ok (Z.eqb z)
  | Some None => JS.Throw ("Cast failed at path " ++ path)%string
  end.

Definition eqOpt {A} (eqb : A -> A -> bool) (v : option A) (x : A) : bool :=
  match v with
  | None => true
  | Some y => eqb y x
  end.

Section WithRuntime.
Context {rt : Runtime}.

Fixpoint compileRegexes {A} (get : string -> A -> option string)
    (cs : list RegexCond) : JS.result (list (A -> bool)) :=
  match cs with
  | [] => JS.Ok []
  | (path, pattern) :: r =>
      match regexCompile pattern with
      | None => JS.Throw "Regular expression is invalid"
      | Some m =>
          ms <- compileRegexes get r ;;
          JS.Ok ((fun d => match get path d with
                           | Some v => m v
                           | None => false
                           end) :: ms)
      end
  end.

(** [$or]: some alternative matches. *)
Definition compileOr {A} (get : string -> A -> option string)
    (cs : option (list RegexCond)) : JS.result (A -> bool) :=
  match cs with
  | None => JS.Ok (fun _ => true)
  | Some cs =>
      ms <- compileRegexes get cs ;;
      JS.Ok (fun d => existsb (fun m => m d) ms)
  end.

Definition compileSessionFilter (f : SessionFilter)
    : JS.result (GameSession.t -> bool) :=
  pLevel <- compileEq "level" (f_level f) ;;
  pScore <- compileRange "score" (f_score f) ;;
  pCreated <- compileRange "createdAt" (f_createdAt f) ;;
  pOr <- compileOr GameSession.getString (f_or f) ;;
  JS.Ok (fun s =>
    eqOpt String.eqb (f_status f) (GameSession.status s)
    && pLevel (GameSession.level s)
    && eqOpt String.eqb (f_studentId f) (GameSession.studentId s)
    && pScore (GameSession.score s)
    && pCreated (GameSession.createdAt s)
    && pOr s).

Definition compileUserFilter (f : UserFilter) : JS.result (User.t -> bool) :=
  pCreated <- compileRange "createdAt" (u_createdAt f) ;;
  pOr <- compileOr User.getString (u_or f) ;;
  JS.Ok (fun u =>
    eqOpt String.eqb (u_role f) (User.role u)
    && eqOpt Bool.eqb (u_isActive f) (User.isActive u)
    && pCreated (User.createdAt u)
    && pOr u).

(** [.skip(n)]: the store refuses a skip that is not a number or is
    negative. *)
Definition applySkip {A} (skip : option num) (l : list A) : JS.result (list A) :=
  match skip with
  | None => JS.Ok l
  | Some None => JS.Throw "skip is not a number"
  | Some (Some k) =>
      if k <? 0 then JS.Throw "skip must be non-negative"
      else JS.Ok (skipn (Z.to_nat k) l)
  end.

(** [.limit(n)]: 0 is no limit, a negative limit is its absolute
    value. *)
Definition applyLimit {A} (limit : option num) (l : list A) : JS.result (list A) :=
  match limit with
  | None => JS.Ok l
  | Some None => JS.Throw "limit is not a number"
  | Some (Some k) =>
      if k =? 0 then JS.Ok l
      else JS.Ok (firstn (Z.to_nat (Z.abs k)) l)
  end.

Definition connected (st : t) : JS.result unit :=
  if online st then JS.Ok tt else JS.Throw "store unavailable".

(** [GameSession.find(f).sort(..).skip(..).limit(..)] *)
Definition findSessions (st : t) (f : SessionFilter)
    (sort : option (string * Z)) (skip limit : option num)
    : JS.result (list GameSession.t) :=
  _ <- connected st ;;
  p <- compileSessionFilter f ;;
  l <- applySkip skip (sortDocs sessionKey sort (filter p (gameSessions st))) ;;
  applyLimit limit l.

Definition countSessions (st : t) (f : SessionFilter) : JS.result Z :=
  _ <- connected st ;;
  p <- compileSessionFilter f ;;
  JS.Ok (Z.of_nat (List.length (filter p (gameSessions st)))).

Definition findUsers (st : t) (f : UserFilter)
    (sort : option (string * Z)) (skip limit : option num)
    : JS.result (list User.t) :=
  _ <- connected st ;;
  p <- compileUserFilter f ;;
  l <- applySkip skip (sortDocs userKey sort (filter p (users st))) ;;
  applyLimit limit l.

Definition countUsers (st : t) (f : UserFilter) : JS.result Z :=
  _ <- connected st ;;
  p <- compileUserFilter f ;;
  JS.Ok (Z.of_nat (List.length (filter p (users st)))).

Definition countItems (st : t) (active : bool) : JS.result Z :=
  _ <- connected st ;;
  JS.Ok (Z.of_nat (List.length
    (filter (fun i => Bool.eqb active (FinancialItem.isActive i))
            (financialItems st)))).

Definition findById (st : t) (id : ObjectId) : JS.result (option User.t) :=
  _ <- connected st ;;
  JS.Ok (find (fun u => (User._id u =? id)%string) (users st)).

(** [.populate('studentId', ...)] *)
Definition populate (st : t) (l : list GameSession.t) : list PopulatedSession :=
  map (fun s =>
         (s, option_map Student.ofUser
               (find (fun u => (User._id u =? GameSession.studentId s)%string)
                     (users st)))) l.

End WithRuntime.

(** *** Aggregation stages *)

Fixpoint addToGroup {A} (k : Z) (d : A) (gs : list (Z * list A)) : list (Z * list A) :=
  match gs with
  | [] => [(k, [d])]
  | (k', ds) :: r =>
      if k =? k' then (k', ds ++ [d]) :: r
      else (k', ds) :: addToGroup k d r
  end.

(** [$group] by a numeric key: one bucket per key value, the documents
    of a bucket in input order. *)
Definition groupBy {A} (key : A -> Z) (l : list A) : list (Z * list A) :=
  fold_left (fun gs d => addToGroup (key d) d gs) l [].

(** [$group] with [_id: null]: a single bucket, and none for no input. *)
Definition groupAll {A} (l : list A) : list (list A) :=
  match l with
  | [] => []
  | _ => [l]
  end.

(** The accumulators. [$sum] and [$avg] keep a running sum (and count),
    [$max] a running maximum. *)
Definition sumZ (l : list Z) : Z := fold_left Z.add l 0.

Definition avgQ (l : list Q) : Q :=
  let '(s, n) := fold_left (fun '(s, n) x => (Qplus s x, n + 1)) l (0%Q, 0) in
  Qdiv s (inject_Z n).

Definition maxZ (l : list Z) : option Z :=
  fold_left (fun m x => match m with
                        | None => Some x
                        | Some y => Some (if y <? x then x else y)
                        end) l None.

Definition maxQ (l : list Q) : option Q :=
  fold_left (fun m x => match m with
                        | None => Some x
                        | Some y => Some (if Qle_bool x y then y else x)
                        end) l None.

End Store.

(* ------------------------------------------------------------------ *)
(** ** Requests and responses *)

Module Req.
(** [req.query]: every parameter is a string or is not there. *)
Record Query : Type := mk {
  page : option string;
  limit : option string;
  search : option string;
  sortBy : option string;
  sortOrder : option string;
  level : option string;
  studentId : option string;
  startDate : option string;
  endDate : option string;
  minScore : option string;
  maxScore : option string;
  includeDetails : option string
}.

Definition empty : Query :=
  mk None None None None None None None None None None None None.

(** The request with other sort parameters. *)
Definition withSort (q : Query) (by_ order : option string) : Query :=
  mk (page q) (limit q) (search q) by_ order (level q) (studentId q)
     (startDate q) (endDate q) (minScore q) (maxScore q) (includeDetails q).
End Req.

(** What a JSON handler sends: [res.json({ success: true, data })], or
    [res.status(status).json({ success: false, message, error })]. *)
Inductive Response (D : Type) : Type :=
| Success (data : D)
| Failure (status : Z) (message : string) (error : option string).
Arguments Success {D} data.
Arguments Failure {D} status message error.

(** The response of a handler that streams: what was set on [res] and
    what went out on the wire. *)
Module Res.
Inductive Chunk : Type :=
| Bytes (b : string)
| Json (success : bool) (message error : string).

Record t : Type := mk {
  statusCode : Z;
  headers : list (string * string);
  wireStatus : option Z;
  wire : list Chunk;
  ended : bool
}.

Definition fresh : t := mk 200 [] None [] false.

Definition headersSent (r : t) : bool :=
  match wireStatus r with Some _ => true | None => false end.

Definition getHeader (k : string) (r : t) : option string :=
  option_map snd (find (fun h => (fst h =? k)%string) (headers r)).

Definition setHeader (k v : string) (r : t) : JS.result t :=
  if headersSent r
  then JS.Throw "Cannot set headers after they are sent to the client"
  else JS.Ok (mk (statusCode r)
                 ((k, v) :: filter (fun h => negb (fst h =? k)%string) (headers r))
                 (wireStatus r) (wire r) (ended r)).

Definition status (c : Z) (r : t) : t :=
  mk c (headers r) (wireStatus r) (wire r) (ended r).

(** The first write sends the status line and the headers. *)
Definition flush (r : t) : t :=
  match wireStatus r with
  | Some _ => r
  | None => mk (statusCode r) (headers r) (Some (statusCode r)) (wire r) (ended r)
  end.

Definition write (c : Chunk) (r : t) : t :=
  let r' := flush r in
  mk (statusCode r') (headers r') (wireStatus r') (wire r' ++ [c]) (ended r').

Definition end_ (r : t) : t :=
  let r' := flush r in
  mk (statusCode r') (headers r') (wireStatus r') (wire r') true.

(** The media type of a content type: what stands before its
    parameters. *)
Fixpoint mediaType (type : string) : string :=
  match type with
  | EmptyString => EmptyString
  | String c r =>
      if Ascii.eqb c ";"%char then EmptyString else String c (mediaType r)
  end.

(** [setCharset(type, 'utf-8')] for a content type that has no parameter
    but, at most, a charset. *)
Definition withCharset (type : string) : string :=
  (mediaType type ++ "; charset=utf-8")%string.

(** [res.json(body)]: [res.set] gives the response the content type of
    JSON, with the charset it adds to it, when the response has none;
    [res.send] then writes the charset into the content type it finds and
    sends the body.  The length and the tag that [res.send] adds to the
    headers are not kept here.  It throws once the headers are out. *)
Definition json (body : Chunk) (r : t) : JS.result t :=
  if headersSent r
  then JS.Throw "Cannot set headers after they are sent to the client"
  else
    r1 <- match getHeader "Content-Type" r with
          | Some _ => JS.Ok r
          | None => setHeader "Content-Type" "application/json; charset=utf-8" r
          end ;;
    r2 <- match getHeader "Content-Type" r1 with
          | Some type => setHeader "Content-Type" (withCharset type) r1
          | None => JS.Ok r1
          end ;;
    JS.Ok (end_ (write body r2)).
End Res.

(** How a run of the spreadsheet writer goes: the writer builds the whole
    archive in memory and hands it to the response when it is done, so it
    either writes the whole document or rejects before it has written
    anything. *)
Inductive WriterRun : Type :=
| Completes
| Fails (error : string).

(* ------------------------------------------------------------------ *)
(** ** The admin controller *)

Module Admin.

Record LevelStat : Type := mkLevelStat {
  ls_id : Z;
  ls_totalSessions : Z;
  ls_averageScore : Q;
  ls_averagePercentage : Q;
  ls_totalQuestions : Z;
  ls_totalCorrectAnswers : Z
}.

Record PerformanceStat : Type := mkPerformanceStat {
  ps_totalSessions : Z;
  ps_totalQuestions : Z;
  ps_totalCorrectAnswers : Z;
  ps_averageScore : Q;
  ps_averagePercentage : Q;
  ps_averageTime : Q;
  ps_bestScore : option Z;
  ps_bestPercentage : option Q
}.

Record Overview : Type := mkOverview {
  totalStudents : Z;
  totalAdmins : Z;
  totalSessions : Z;
  totalQuestions : Z;
  recentSessions : Z;
  newStudents : Z
}.

Record Pagination : Type := mkPagination {
  p_page : num;
  p_limit : num;
  p_total : Z;
  p_pages : JS.number
}.

Definition completed : Store.SessionFilter :=
  Store.mkSessionFilter (Some "completed") None None None None None.

Definition isCompleted (s : GameSession.t) : bool :=
  (GameSession.status s =? "completed")%string.

Definition scoresQ (l : list GameSession.t) : list Q :=
  map (fun s => inject_Z (GameSession.score s)) l.

(** The [$group] stage of the level statistics, for one bucket. *)
Definition levelGroup (g : Z * list GameSession.t) : LevelStat :=
  let '(k, ds) := g in
  mkLevelStat k
    (Store.sumZ (map (fun _ => 1) ds))
    (Store.avgQ (scoresQ ds))
    (Store.avgQ (map GameSession.percentage ds))
    (Store.sumZ (map GameSession.totalQuestions ds))
    (Store.sumZ (map GameSession.score ds)).

(** The [$group] stage of a student's performance, for the one bucket. *)
Definition performanceGroup (ds : list GameSession.t) : PerformanceStat :=
  mkPerformanceStat
    (Store.sumZ (map (fun _ => 1) ds))
    (Store.sumZ (map GameSession.totalQuestions ds))
    (Store.sumZ (map GameSession.score ds))
    (Store.avgQ (scoresQ ds))
    (Store.avgQ (map GameSession.percentage ds))
    (Store.avgQ (map (fun s => inject_Z (GameSession.timeTakenSeconds s)) ds))
    (Store.maxZ (map GameSession.score ds))
    (Store.maxQ (map GameSession.percentage ds)).

(** [$match { status: 'completed' }], [$group { _id: '$level', .. }],
    [$sort { _id: 1 }] *)
Definition levelStatsPipeline (docs : list GameSession.t) : list LevelStat :=
  Store.sortBy (fun a b => ls_id a <=? ls_id b)
    (map levelGroup (Store.groupBy GameSession.level (filter isCompleted docs))).

(** [$match { studentId, status: 'completed' }], [$group { _id: null, .. }] *)
Definition performancePipeline (student : ObjectId) (docs : list GameSession.t)
    : list PerformanceStat :=
  map performanceGroup
    (Store.groupAll
       (filter (fun s => (student =? GameSession.studentId s)%string && isCompleted s)
               docs)).

Definition studentSortFields : list string :=
  ["createdAt"; "studentName"; "studentId"; "mobileNumber"; "lastLoginAt"].

Definition sessionSortFields : list string :=
  ["createdAt"; "score"; "percentage"; "timeTakenSeconds"; "level"].

Definition orDefault (v : option string) (d : string) : string :=
  match v with Some s => s | None => d end.

(** [allowedSortFields.includes(sortBy) ? sortBy : 'createdAt'] *)
Definition sortField (allowed : list string) (q : Req.Query) : string :=
  let sortBy := orDefault (Req.sortBy q) "createdAt" in
  if JS.includes allowed sortBy then sortBy else "createdAt".

(** [sortOrder === 'asc' ? 1 : -1] *)
Definition sortDirection (q : Req.Query) : Z :=
  if (orDefault (Req.sortOrder q) "desc" =? "asc")%string then 1 else -1.

Definition pageOf (q : Req.Query) : num :=
  JS.parseInt (JS.withDefault (Req.page q) (JS.VNum 1)).

Definition limitOf (q : Req.Query) : num :=
  JS.parseInt (JS.withDefault (Req.limit q) (JS.VNum 20)).

(** [(parseInt(page) - 1) * parseInt(limit)], the product of JavaScript
    as long as it is a safe integer. *)
Definition skipOf (q : Req.Query) : num :=
  JS.mul (JS.sub (pageOf q) (Some 1)) (limitOf q).

Definition pagination (q : Req.Query) (total : Z) : Pagination :=
  mkPagination (pageOf q) (limitOf q) total (JS.ceilDiv total (limitOf q)).

Definition regexes (paths : list string) (search : string) : list Store.RegexCond :=
  map (fun p => (p, search)) paths.

Definition studentQuery (q : Req.Query) : Store.UserFilter :=
  let search := orDefault (Req.search q) "" in
  Store.mkUserFilter (Some "student") (Some true) None
    (if JS.truthy (Some search)
     then Some (regexes ["studentName"; "studentId"; "mobileNumber"; "azureAdEmail"]
                        search)
     else None).

Section WithRuntime.
Context {rt : Runtime}.

(** [query.score] after the two assignments
    [if (minScore) ..] and [if (maxScore) ..]. *)
Definition scoreCond (q : Req.Query) : option Store.Range :=
  let s1 := option_map
              (fun s => Store.mkRange (Some (JS.parseInt (JS.VStr s))) None)
              (JS.supplied (Req.minScore q)) in
  match JS.supplied (Req.maxScore q) with
  | Some s =>
      Some (Store.mkRange
              (match s1 with Some r => Store.gte r | None => None end)
              (Some (JS.parseInt (JS.VStr s))))
  | None => s1
  end.

(** [query.createdAt] when [startDate || endDate]. *)
Definition createdAtCond (q : Req.Query) : option Store.Range :=
  if JS.truthy (Req.startDate q) || JS.truthy (Req.endDate q)
  then Some (Store.mkRange
               (option_map parseDate (JS.supplied (Req.startDate q)))
               (option_map parseDate (JS.supplied (Req.endDate q))))
  else None.

Definition levelCond (q : Req.Query) : option num :=
  option_map (fun s => JS.parseInt (JS.VStr s)) (JS.supplied (Req.level q)).

(** The filter of [getAllGameSessions] before the search is added. *)
Definition sessionQuery (q : Req.Query) : Store.SessionFilter :=
  Store.mkSessionFilter (Some "completed")
    (levelCond q)
    (JS.supplied (Req.studentId q))
    (scoreCond q)
    (createdAtCond q)
    None.

(** The filter of [exportStudentPerformance]: no [studentId]. *)
Definition exportQuery (q : Req.Query) : Store.SessionFilter :=
  Store.mkSessionFilter (Some "completed")
    (levelCond q) None (scoreCond q) (createdAtCond q) None.

(** [{ ...query, $or: [..] }] *)
Definition withSearch (f : Store.SessionFilter) (search : string)
    : Store.SessionFilter :=
  Store.mkSessionFilter (Store.f_status f) (Store.f_level f)
    (Store.f_studentId f) (Store.f_score f) (Store.f_createdAt f)
    (Some (regexes ["studentIdentifier"; "studentId.studentName";
                    "studentId.studentId"; "studentId.mobileNumber"] search)).

(** The filter the sessions of the page are fetched with. *)
Definition effectiveSessionQuery (q : Req.Query) : Store.SessionFilter :=
  let search := orDefault (Req.search q) "" in
  if JS.truthy (Some search) then withSearch (sessionQuery q) search
  else sessionQuery q.

Definition catch {D} (message : string) (r : JS.result (Response D)) : Response D :=
  match r with
  | JS.Ok resp => resp
  | JS.Throw e => Failure 500 message (Some e)
  end.

Definition getDashboardOverview (st : Store.t) (now : Z)
    : Response (Overview * list LevelStat) :=
  catch "Failed to get dashboard overview" (
    totalStudents <- Store.countUsers st
      (Store.mkUserFilter (Some "student") (Some true) None None) ;;
    totalAdmins <- Store.countUsers st
      (Store.mkUserFilter (Some "admin") (Some true) None None) ;;
    totalSessions <- Store.countSessions st completed ;;
    totalQuestions <- Store.countItems st true ;;
    let sevenDaysAgo := daysBefore now 7 in
    recentSessions <- Store.countSessions st
      (Store.mkSessionFilter (Some "completed") None None None
         (Some (Store.mkRange (Some (Some sevenDaysAgo)) None)) None) ;;
    newStudents <- Store.countUsers st
      (Store.mkUserFilter (Some "student") None
         (Some (Store.mkRange (Some (Some sevenDaysAgo)) None)) None) ;;
    _ <- Store.connected st ;;
    let levelStats := levelStatsPipeline (Store.gameSessions st) in
    JS.Ok (Success
      (mkOverview totalStudents totalAdmins totalSessions totalQuestions
         recentSessions newStudents, levelStats))).

Definition getAllStudents (st : Store.t) (q : Req.Query)
    : Response (list User.t * Pagination) :=
  catch "Failed to get students" (
    let skip := skipOf q in
    let query := studentQuery q in
    let field := sortField studentSortFields q in
    let direction := sortDirection q in
    students <- Store.findUsers st query (Some (field, direction))
                  (Some skip) (Some (limitOf q)) ;;
    total <- Store.countUsers st query ;;
    JS.Ok (Success (students, pagination q total))).

Definition getStudentDetails (st : Store.t) (studentId : ObjectId)
    : Response (User.t * list Summary * option PerformanceStat) :=
  catch "Failed to get student details" (
    student <- Store.findById st studentId ;;
    match student with
    | None => JS.Ok (Failure 404 "Student not found" None)
    | Some student =>
        if negb (User.role student =? "student")%string
        then JS.Ok (Failure 404 "Student not found" None)
        else
          sessions <- Store.findSessions st
            (Store.mkSessionFilter None None (Some (User._id student))
               None None None)
            (Some ("createdAt", -1)) None (Some (Some 10)) ;;
          _ <- Store.connected st ;;
          let performance :=
            performancePipeline (User._id student) (Store.gameSessions st) in
          JS.Ok (Success (student, map getSummary sessions, hd_error performance))
    end).

Definition getAllGameSessions (st : Store.t) (q : Req.Query)
    : Response (list (Summary * option Student.t) * Pagination) :=
  catch "Failed to get game sessions" (
    let skip := skipOf q in
    let query := sessionQuery q in
    let field := sortField sessionSortFields q in
    let direction := sortDirection q in
    sessions <- Store.findSessions st (effectiveSessionQuery q)
                  (Some (field, direction)) (Some skip) (Some (limitOf q)) ;;
    total <- Store.countSessions st query ;;
    JS.Ok (Success
      (map (fun s => (getSummary (fst s), snd s)) (Store.populate st sessions),
       pagination q total))).

End WithRuntime.
End Admin.

(* ------------------------------------------------------------------ *)
(** ** The spreadsheet export *)

Module Exporter.
Import Sheet.

Definition columnDefs : list Column :=
  [ mkColumn "Student Name" "studentName" 20;
    mkColumn "Student ID" "studentId" 15;
    mkColumn "Mobile/Email" "contact" 25;
    mkColumn "Level" "level" 10;
    mkColumn "Score" "score" 10;
    mkColumn "Total Questions" "totalQuestions" 15;
    mkColumn "Percentage" "percentage" 12;
    mkColumn "Time Taken (seconds)" "timeTaken" 18;
    mkColumn "Accuracy (%)" "accuracy" 12;
    mkColumn "Avg Time per Question (s)" "avgTimePerQuestion" 20;
    mkColumn "Start Time" "startTime" 20;
    mkColumn "End Time" "endTime" 20;
    mkColumn "Feedback Provided" "hasFeedback" 15 ].

(** [student?.field] *)
Definition field (get : Student.t -> option string) (student : option Student.t)
    : option string :=
  match student with
  | Some st => get st
  | None => None
  end.

(** [student?.azureAdEmail || student?.mobileNumber || 'N/A'] *)
Definition contactOf (student : option Student.t) : string :=
  JS.orElse (JS.orOpt (field Student.azureAdEmail student)
                      (field Student.mobileNumber student)) "N/A".

(** [student?.azureAdDisplayName || student?.studentName || 'N/A'] *)
Definition studentNameOf (student : option Student.t) : string :=
  JS.orElse (JS.orOpt (field Student.azureAdDisplayName student)
                      (field Student.studentName student)) "N/A".

(** [student?.studentId || 'N/A'] *)
Definition studentIdOf (student : option Student.t) : string :=
  JS.orElse (field Student.studentId student) "N/A".

(** [session.performance?.f || 0] *)
Definition perfOrZero (get : Performance.t -> option Q) (s : GameSession.t) : Q :=
  match GameSession.performance s with
  | Some p => match get p with Some x => x | None => 0%Q end
  | None => 0%Q
  end.

Definition emptyCells (k : nat) : list Cell := repeat (CStr "") k.

Section WithRuntime.
Context {rt : Runtime}.

Definition timeCell (t : option Z) : Cell :=
  match t with
  | Some d => CStr (toLocaleString d)
  | None => CStr "N/A"
  end.

(** The object given to [addRow] for one session. *)
Definition rowObject (ps : PopulatedSession) : list (string * Cell) :=
  let '(session, student) := ps in
  [ ("studentName", CStr (studentNameOf student));
    ("studentId", CStr (studentIdOf student));
    ("contact", CStr (contactOf student));
    ("level", CNum (inject_Z (GameSession.level session)));
    ("score", CNum (inject_Z (GameSession.score session)));
    ("totalQuestions", CNum (inject_Z (GameSession.totalQuestions session)));
    ("percentage", CNum (GameSession.percentage session));
    ("timeTaken", CNum (inject_Z (GameSession.timeTakenSeconds session)));
    ("accuracy", CNum (perfOrZero Performance.accuracy session));
    ("avgTimePerQuestion",
       CNum (perfOrZero Performance.averageTimePerQuestion session));
    ("startTime", timeCell (GameSession.startTime session));
    ("endTime", timeCell (GameSession.endTime session));
    ("hasFeedback",
       CStr (if JS.truthy (GameSession.feedbackText session) then "Yes" else "No")) ].

(** [sessions.forEach(session => worksheet.addRow({..}))] *)
Definition addDataRows (sessions : list PopulatedSession) (ws : Worksheet)
    : Worksheet :=
  fold_left (fun w ps => addRowObject (rowObject ps) w) sessions ws.

Definition headerStyle : Style := mkStyle true (Some "FFE0E0E0").
Definition summaryStyle : Style := mkStyle true (Some "FFF0F0F0").

(** [sessions.reduce((sum, s) => sum + s.f, 0) / totalSessions], in
    double arithmetic: the running sum is rounded after every addition
    and the quotient once more. *)
Definition averageQ (f : GameSession.t -> Q) (sessions : list PopulatedSession) : Q :=
  JS.fdiv (fold_left (fun sum s => JS.fadd sum (f (fst s))) sessions 0%Q)
          (inject_Z (Z.of_nat (List.length sessions))).

Definition averageZ (f : GameSession.t -> Z) (sessions : list PopulatedSession) : Q :=
  averageQ (fun s => inject_Z (f s)) sessions.

(** The body of [if (sessions.length > 0) { .. }]. *)
Definition addSummary (sessions : list PopulatedSession) (ws : Worksheet)
    : Worksheet :=
  let ws := addRowArray [] ws in
  let totalSessions := Z.of_nat (List.length sessions) in
  let avgScore := averageZ GameSession.score sessions in
  let avgPercentage := averageQ GameSession.percentage sessions in
  let avgTime := averageZ GameSession.timeTakenSeconds sessions in
  let ws := addRowArray (CStr "SUMMARY STATISTICS" :: emptyCells 11) ws in
  let ws := addRowArray
              (CStr "Total Sessions" :: CNum (inject_Z totalSessions)
                 :: emptyCells 10) ws in
  let ws := addRowArray
              (CStr "Average Score" :: CStr (JS.toFixed2 avgScore)
                 :: emptyCells 10) ws in
  let ws := addRowArray
              (CStr "Average Percentage"
                 :: CStr (JS.toFixed2 avgPercentage ++ "%")%string
                 :: emptyCells 10) ws in
  let ws := addRowArray
              (CStr "Average Time (seconds)" :: CStr (JS.toFixed2 avgTime)
                 :: emptyCells 10) ws in
  fold_left (fun w i => styleRow i summaryStyle w)
    (map (fun d => rowCount ws - 4 + Z.of_nat d) (seq 0 5)) ws.

(** The workbook's one worksheet as it is when the response headers
    are set. *)
Definition buildWorksheet (sessions : list PopulatedSession) : Worksheet :=
  let ws := addWorksheet "Student Performance" in
  let ws := setColumns columnDefs ws in
  let ws := addDataRows sessions ws in
  let ws := styleRow 1 headerStyle ws in
  if 0 <? Z.of_nat (List.length sessions) then addSummary sessions ws else ws.

(** [await workbook.xlsx.write(res)] for a given run of the writer:
    the chunks that reach the response, and the error if the promise
    rejects. *)
Definition xlsxWrite (run : WriterRun) (ws : Worksheet) (res : Res.t)
    : Res.t * option string :=
  let chunks := map Res.Bytes (xlsxSerialize ws) in
  match run with
  | Completes => (fold_left (fun r c => Res.write c r) chunks res, None)
  | Fails e => (res, Some e)
  end.

Definition dquote : string := String (ascii_of_nat 34) EmptyString.

Definition mimeType : string :=
  "application/vnd.openxmlformats-officedocument.spreadsheetml.sheet".

(** The [try] block: the response as it stands when the block ends,
    and the error if it ended by a throw. *)
Definition exportAttempt (st : Store.t) (run : WriterRun) (today : string)
    (q : Req.Query) : Res.t * option string :=
  let res := Res.fresh in
  match Store.findSessions st (Admin.exportQuery q)
          (Some ("createdAt", -1)) None None with
  | JS.Throw e => (res, Some e)
  | JS.Ok found =>
      let sessions := Store.populate st found in
      let worksheet := buildWorksheet sessions in
      let filename := ("student_performance_" ++ today ++ ".xlsx")%string in
      match (r1 <- Res.setHeader "Content-Type" mimeType res ;;
             Res.setHeader "Content-Disposition"
               ("attachment; filename=" ++ dquote ++ filename ++ dquote)%string
               r1) with
      | JS.Throw e => (res, Some e)
      | JS.Ok r2 =>
          match xlsxWrite run worksheet r2 with
          | (r3, Some e) => (r3, Some e)
          | (r3, None) => (Res.end_ r3, None)
          end
      end
  end.

(** The handler: the [try] block, and the [catch] block when it threw.
    When [res.json] throws inside the [catch] block nothing more is
    written by the handler. *)
Definition exportStudentPerformance (st : Store.t) (run : WriterRun)
    (today : string) (q : Req.Query) : Res.t :=
  match exportAttempt st run today q with
  | (r, None) => r
  | (r, Some e) =>
      let r' := Res.status 500 r in
      match Res.json
              (Res.Json false "Failed to export student performance data" e) r' with
      | JS.Ok r'' => r''
      | JS.Throw _ => r'
      end
  end.

End WithRuntime.
End Exporter.

(* ------------------------------------------------------------------ *)
(** ** The vocabulary of the specification *)

Module Spec.

(** The sum and the arithmetic mean of a list, by recursion on it. *)
Definition total (l : list Z) : Z := fold_right Z.add 0 l.

Definition totalQ (l : list Q) : Q := fold_right Qplus 0%Q l.

Definition arithmeticMean (l : list Q) : Q :=
  Qdiv (totalQ l) (inject_Z (Z.of_nat (List.length l))).

Definition meanZ (l : list Z) : Q := arithmeticMean (map inject_Z l).

(** The sum of the magnitudes. *)
Definition absSum (l : list Z) : Z := fold_right (fun z a => Z.abs z + a) 0 l.

(** [d] is the double nearest to the real [x], the one with the even
    significand on a tie: [2^t] is the distance between the doubles
    around [x], [m] the significand of [d].  The relation is stated for
    the finite range. *)
Definition nearestDouble (x d : Q) : Prop :=
  exists m t : Z,
    -1074 <= t <= 970
    /\ (t = -1074 \/ ((2 # 1) ^ (t + 52) <= Qabs x)%Q)
    /\ (Qabs x < (2 # 1) ^ (t + 53))%Q
    /\ (d == inject_Z m * (2 # 1) ^ t)%Q
    /\ (Qabs (d - x) * (2 # 1) <= (2 # 1) ^ t)%Q
    /\ ((Qabs (d - x) * (2 # 1) == (2 # 1) ^ t)%Q -> Z.even m = true).

(** [r] is the sum of [values] added one after the other to [acc],
    every partial sum rounded to the nearest double. *)
Inductive floatSum : Q -> list Q -> Q -> Prop :=
| floatSum_nil (acc : Q) : floatSum acc [] acc
| floatSum_cons (acc x : Q) (xs : list Q) (next r : Q) :
    nearestDouble (acc + x) next -> floatSum next xs r ->
    floatSum acc (x :: xs) r.

(** [avg] is the mean of [values] as double arithmetic gives it: the
    rounded sum, divided by the count and rounded. *)
Definition floatMean (values : list Q) (avg : Q) : Prop :=
  exists sum,
    floatSum 0 values sum
    /\ nearestDouble (sum / inject_Z (Z.of_nat (List.length values))) avg.

(** The number a text of decimal digits stands for. *)
Definition readDigits (s : string) : option Z :=
  option_map (fun u => Z.of_N (N.of_uint u)) (NilZero.uint_of_string s).

(** The hundredths a text with two decimals stands for: digits, a
    point, two digits. *)
Definition readFixed2 (s : string) : option Z :=
  let k := String.length s in
  if (k <? 4)%nat then None
  else
    match String.get (k - 3) s with
    | Some c =>
        if (c =? ".")%char
        then readDigits (substring 0 (k - 3) s ++ substring (k - 2) 2 s)
        else None
    | None => None
    end.

(** [text] is [v] with two decimals: the hundredths nearest to the
    magnitude of [v], the larger on a tie, written without a zero in
    front of the digits before the point unless it is the only one,
    behind a minus sign when [v] is negative. *)
Definition fixed2 (v : Q) (text : string) : Prop :=
  exists (n : Z) (body : string),
    text = ((if Qle_bool 0 v then "" else "-") ++ body)%string
    /\ readFixed2 body = Some n
    /\ (String.length body = 4%nat \/ String.get 0 body <> Some "0"%char)
    /\ (inject_Z n - (1 # 2) <= Qabs v * (100 # 1))%Q
    /\ (Qabs v * (100 # 1) < inject_Z n + (1 # 2))%Q.

(** A fallback chain: the first candidate that is there and not empty,
    the sentinel when there is none. *)
Fixpoint firstNonEmpty (candidates : list (option string)) (sentinel : string)
    : string :=
  match candidates with
  | [] => sentinel
  | Some s :: r => if (s =? "")%string then firstNonEmpty r sentinel else s
  | None :: r => firstNonEmpty r sentinel
  end.




(** A filter with its condition on [score] taken out. *)
Definition withoutScore (f : Store.SessionFilter) : Store.SessionFilter :=
  Store.mkSessionFilter (Store.f_status f) (Store.f_level f) (Store.f_studentId f)
    None (Store.f_createdAt f) (Store.f_or f).



(** The integers that a number of the language holds exactly, with their
    sums, differences and products as long as these are among them. *)
Definition maxSafeInteger : Z := 2 ^ 53 - 1.

Definition safeInteger (z : Z) : Prop := - maxSafeInteger <= z <= maxSafeInteger.

(** [ceil (a / b)] for [b > 0], as the least [c] with [a <= c * b]. *)
Definition isCeilDiv (a b c : Z) : Prop :=
  a <= c * b /\ (c - 1) * b < a.


(** A structured error on the wire, and a piece of the document on it. *)
Definition isErrorBody (c : Res.Chunk) : bool :=
  match c with
  | Res.Json success _ _ => negb success
  | Res.Bytes _ => false
  end.

Definition isDocumentBytes (c : Res.Chunk) : bool :=
  match c with
  | Res.Bytes _ => true
  | Res.Json _ _ _ => false
  end.

(** The headers of the response once the export has set both. *)
Definition exportHeaders (today : string) : list (string * string) :=
  [ ("Content-Disposition",
     "attachment; filename=" ++ Exporter.dquote ++
       ("student_performance_" ++ today ++ ".xlsx") ++ Exporter.dquote)%string;
    ("Content-Type", Exporter.mimeType) ].

Definition exportError : string := "Failed to export student performance data".

(** The headers of an error that is sent before the export has set any,
    and of one that is sent after it has set both. *)
Definition errorHeaders : list (string * string) :=
  [ ("Content-Type", "application/json; charset=utf-8") ].

Definition lateErrorHeaders (today : string) : list (string * string) :=
  [ ("Content-Type", (Exporter.mimeType ++ "; charset=utf-8")%string);
    ("Content-Disposition",
     "attachment; filename=" ++ Exporter.dquote ++
       ("student_performance_" ++ today ++ ".xlsx") ++ Exporter.dquote)%string ].

Section WithRuntime.
Context {rt : Runtime}.

Definition headerRow : Sheet.Row :=
  Sheet.mkRow (map (fun c => Sheet.CStr (Sheet.header c)) Exporter.columnDefs)
              Exporter.headerStyle.

(** The thirteen cells of a session's row, in column order. *)
Definition dataRow (ps : PopulatedSession) : Sheet.Row :=
  let '(session, student) := ps in
  Sheet.mkRow
    [ Sheet.CStr (firstNonEmpty
                    [Exporter.field Student.azureAdDisplayName student;
                     Exporter.field Student.studentName student] "N/A");
      Sheet.CStr (firstNonEmpty [Exporter.field Student.studentId student] "N/A");
      Sheet.CStr (firstNonEmpty
                    [Exporter.field Student.azureAdEmail student;
                     Exporter.field Student.mobileNumber student] "N/A");
      Sheet.CNum (inject_Z (GameSession.level session));
      Sheet.CNum (inject_Z (GameSession.score session));
      Sheet.CNum (inject_Z (GameSession.totalQuestions session));
      Sheet.CNum (GameSession.percentage session);
      Sheet.CNum (inject_Z (GameSession.timeTakenSeconds session));
      Sheet.CNum (Exporter.perfOrZero Performance.accuracy session);
      Sheet.CNum (Exporter.perfOrZero Performance.averageTimePerQuestion session);
      Exporter.timeCell (GameSession.startTime session);
      Exporter.timeCell (GameSession.endTime session);
      Sheet.CStr (if JS.truthy (GameSession.feedbackText session)
                  then "Yes" else "No") ]
    Sheet.plain.

Definition blankRow : Sheet.Row := Sheet.mkRow [] Sheet.plain.

Definition summaryRow (label : string) (v : Sheet.Cell) : Sheet.Row :=
  Sheet.mkRow (Sheet.CStr label :: v :: Exporter.emptyCells 10)
              Exporter.summaryStyle.

(** The five summary rows of an export of [n] sessions, the three
    averages as the texts given. *)
Definition summaryRows (n : nat) (score percentage time : string)
    : list Sheet.Row :=
  [ Sheet.mkRow (Sheet.CStr "SUMMARY STATISTICS" :: Exporter.emptyCells 11)
                Exporter.summaryStyle;
    summaryRow "Total Sessions" (Sheet.CNum (inject_Z (Z.of_nat n)));
    summaryRow "Average Score" (Sheet.CStr score);
    summaryRow "Average Percentage" (Sheet.CStr (percentage ++ "%")%string);
    summaryRow "Average Time (seconds)" (Sheet.CStr time) ].

(** The sessions an export is made of: those its filter matches, the
    newest first, each with its student. *)
Definition exported (st : Store.t) (p : GameSession.t -> bool)
    : list PopulatedSession :=
  Store.populate st
    (Store.sortDocs Store.sessionKey (Some ("createdAt", -1))
       (filter p (Store.gameSessions st))).

End WithRuntime.
End Spec.

(* ------------------------------------------------------------------ *)
(** ** Concrete data for the scenarios *)

Module Sample.

Definition lower (c : ascii) : ascii :=
  let n := nat_of_ascii c in
  if ((65 <=? n) && (n <=? 90))%nat then ascii_of_nat (n + 32) else c.

Fixpoint lowerString (s : string) : string :=
  match s with
  | EmptyString => EmptyString
  | String c r => String (lower c) (lowerString r)
  end.

(** A matcher for patterns without metacharacters: the pattern occurs
    in the subject, letter case apart. *)
Definition contains (pattern subject : string) : bool :=
  match index 0 (lowerString pattern) (lowerString subject) with
  | Some _ => true
  | None => false
  end.

Definition rowText (r : Sheet.Row) : string :=
  match Sheet.values r with
  | Sheet.CStr s :: _ => s
  | _ => ""
  end.

(** Dates are written as milliseconds, a pattern with a parenthesis is
    refused, the writer hands over one chunk with the first cell of every
    row, and the server keeps a calendar without changes of the clock. *)
Definition runtime : Runtime := {|
  Summary := GameSession.t;
  getSummary := fun s => s;
  parseDate := JS.parseIntString;
  toLocaleString := JS.decimal;
  regexCompile := fun p => if contains "(" p then None else Some (contains p);
  xlsxSerialize := fun ws => [String.concat "|" (map rowText (Sheet.rows ws))];
  daysBefore := fun now n => now - n * (24 * 60 * 60 * 1000)
|}.

Definition session (id student : string) (level score totalQuestions : Z)
    (percentage : Q) : GameSession.t :=
  GameSession.mk id student None level score totalQuestions percentage 60
    None None "completed" None None 0.

Definition user (id name : string) : User.t :=
  User.mk id "student" true (Some name) None None None None 0 None.

(** The two level-1 sessions of the statistics scenario. *)
Definition levelOne : list GameSession.t :=
  [ session "s1" "u1" 1 8 10 (80 # 1); session "s2" "u1" 1 6 10 (60 # 1) ].

(** Sessions with the scores 5, 5 and 6. *)
Definition scores556 : list GameSession.t :=
  [ session "a" "u1" 1 5 10 (50 # 1); session "b" "u1" 1 5 10 (50 # 1);
    session "c" "u1" 1 6 10 (60 # 1) ].

(** Three sessions that carry a student identifier. *)
Definition identified (id identifier : string) : GameSession.t :=
  GameSession.mk id "u1" (Some identifier) 1 5 10 (50 # 1) 60
    None None "completed" None None 0.

Definition roster : list GameSession.t :=
  [ identified "a" "STU-001"; identified "b" "STU-002"; identified "c" "STU-003" ].

Definition store (sessions : list GameSession.t) : Store.t :=
  Store.mk [user "u1" "Asha"] sessions [] true.

Definition pageLimit (page limit : string) : Req.Query :=
  Req.mk (Some page) (Some limit) None None None None None None None None None None.

Definition withScores (minScore maxScore : string) : Req.Query :=
  Req.mk None None None None None None None None None
    (Some minScore) (Some maxScore) None.

Definition withSearch (search : string) : Req.Query :=
  Req.mk None None (Some search) None None None None None None None None None.

End Sample.

(* ------------------------------------------------------------------ *)
(** ** More concrete data *)

Module Demo.

(** A store with a student, an administrator and a deactivated student. *)
Definition people : list User.t :=
  [ Sample.user "u1" "Asha";
    User.mk "u2" "admin" true (Some "Root") None None None None 0 None;
    User.mk "u3" "student" false (Some "Bo") None None None None 0 None ].

Definition campus (sessions : list GameSession.t) : Store.t :=
  Store.mk people sessions [] true.

(** A session by its id, status, level, score and creation time. *)
Definition attempt (id status : string) (level score created : Z) : GameSession.t :=
  GameSession.mk id "u1" None level score 10 (inject_Z (score * 10)) 60
    None None status None None created.

(** Two completed sessions and one abandoned, one per day. *)
Definition week : list GameSession.t :=
  [ attempt "a" "completed" 1 8 1000; attempt "b" "abandoned" 1 3 2000;
    attempt "c" "completed" 2 6 3000 ].

(** A student who signs in with an external identity, and a session of
    theirs. *)
Definition external : User.t :=
  User.mk "u9" "student" true (Some "Chidi") (Some "S-9") (Some "555")
    (Some "chidi@example.org") (Some "Chidi A.") 0 None.

Definition visit : GameSession.t :=
  GameSession.mk "v" "u9" None 1 5 10 (50 # 1) 60 None None "completed" None None 500.

(** The campus with that student enrolled last. *)
Definition school (sessions : list GameSession.t) : Store.t :=
  Store.mk (people ++ [external]) sessions [] true.

End Demo.

(* ------------------------------------------------------------------ *)
(** ** Questions: the rest of the controller *)

(** A quiz question as the handlers below use it: what the dashboard
    counts ([core]) and the fields the handlers read or write. *)
Module Item.
(** Modelled from the spec: the schema of [models/FinancialItem.js] is not
    among the sources; the fields are those the controller names.
    [createdAt] is there when the schema keeps timestamps. *)
Record t : Type := mk {
  core : FinancialItem.t;
  name : option string;
  category : option string;
  multiCategories : list string;
  explanation : option string;
  difficulty : option string;
  tags : list string;
  usageCount : Z;
  correctAnswerRate : Q;
  createdAt : option Z
}.

Definition id (i : t) : string := FinancialItem.id (core i).
Definition level (i : t) : Z := FinancialItem.level (core i).
Definition isActive (i : t) : bool := FinancialItem.isActive (core i).

(** [{ isActive: false }] applied to a document. *)
Definition deactivate (i : t) : t :=
  mk (FinancialItem.mk (id i) (level i) false) (name i) (category i)
     (multiCategories i) (explanation i) (difficulty i) (tags i)
     (usageCount i) (correctAnswerRate i) (createdAt i).

(** [.select('id name level usageCount correctAnswerRate')] *)
Record Stat : Type := mkStat {
  s_id : string;
  s_name : option string;
  s_level : Z;
  s_usageCount : Z;
  s_correctAnswerRate : Q
}.

Definition select (i : t) : Stat :=
  mkStat (id i) (name i) (level i) (usageCount i) (correctAnswerRate i).
End Item.

(** What the schema of the questions decides and the controller does not:
    the defaults of a new document, whether it is stamped with the time
    of its creation, and the validators [save] runs. *)
Class ItemSchema : Type := {
  defaultActive : bool;
  defaultUsage : Z;
  defaultRate : Q;
  timestamps : bool;
  accepts : Item.t -> bool
}.

(** The other method of the session model that the report uses. *)
Class Reporting : Type := {
  Answers : Type;
  getDetailedAnswers : GameSession.t -> Answers
}.

(** The database with the questions in full. *)
Module Db.
Record t : Type := mk {
  users : list User.t;
  gameSessions : list GameSession.t;
  items : list Item.t;
  online : bool
}.

(** The store as the handlers of the listings see it. *)
Definition store (d : t) : Store.t :=
  Store.mk (users d) (gameSessions d) (map Item.core (items d)) (online d).

Definition connected (d : t) : JS.result unit :=
  if online d then JS.Ok tt else JS.Throw "store unavailable".

Definition withItems (d : t) (l : list Item.t) : t :=
  mk (users d) (gameSessions d) l (online d).

(** [FinancialItem.findOne({ id })] *)
Definition findOne (d : t) (id : string) : JS.result (option Item.t) :=
  _ <- connected d ;;
  JS.Ok (find (fun i => (Item.id i =? id)%string) (items d)).

Fixpoint updateFirst {A} (p : A -> bool) (f : A -> A) (l : list A)
    : option (A * list A) :=
  match l with
  | [] => None
  | x :: r =>
      if p x then Some (f x, f x :: r)
      else match updateFirst p f r with
           | Some (y, r') => Some (y, x :: r')
           | None => None
           end
  end.

(** [FinancialItem.findOneAndUpdate({ id }, { isActive: false },
    { new: true })]: the updated document, and the database after. *)
Definition deactivateOne (d : t) (id : string) : JS.result (option Item.t * t) :=
  _ <- connected d ;;
  match updateFirst (fun i => (Item.id i =? id)%string) Item.deactivate (items d) with
  | Some (i, l) => JS.Ok (Some i, withItems d l)
  | None => JS.Ok (None, d)
  end.

(** [item.save()] for a new document. *)
Definition save `{schema : ItemSchema} (d : t) (i : Item.t) : JS.result t :=
  _ <- connected d ;;
  if accepts i then JS.Ok (withItems d (items d ++ [i]))
  else JS.Throw "FinancialItem validation failed".
End Db.

(** A reply with its status. *)
Record Reply (D : Type) : Type := mkReply {
  status : Z;
  success : bool;
  message : string;
  data : option D
}.
Arguments mkReply {D} status success message data.
Arguments status {D} r.
Arguments success {D} r.
Arguments message {D} r.
Arguments data {D} r.

Module Questions.

(** [req.body] of the request that adds a question. *)
Record Body : Type := mkBody {
  b_id : string;
  b_name : option string;
  b_category : option string;
  b_multiCategories : list string;
  b_explanation : option string;
  b_level : Z;
  b_difficulty : option string;
  b_tags : option (list string)
}.

(** [Math.round(x)]: the nearest integer, the larger one on a tie. *)
Definition round (x : Q) : Z := Qfloor (x + (1 # 2))%Q.

(** [Math.round(x * 100) / 100], on the exact value: a double differs
    from it by a rounding in the last place. *)
Definition round2 (x : Q) : Q := (inject_Z (round (x * (100 # 1))) / (100 # 1))%Q.

Record StatsSummary : Type := mkStatsSummary {
  totalQuestions : Z;
  totalUsage : Z;
  averageCorrectRate : Q
}.

Definition byUsage (i : Item.t) : Store.SortKey :=
  Store.KNum (inject_Z (Item.usageCount i)).

(** [.sort({ level: 1, usageCount: -1 })] *)
Definition levelThenUsage (a b : Item.t) : bool :=
  if Item.level a <? Item.level b then true
  else if Item.level a =? Item.level b
       then Item.usageCount b <=? Item.usageCount a
       else false.

Section WithRuntime.
Context {rt : Runtime} {schema : ItemSchema} {reporting : Reporting}.

Definition getQuestionStats (d : Db.t) (level : option string)
    : Response (list Item.Stat * StatsSummary) :=
  Admin.catch "Failed to get question statistics" (
    _ <- Db.connected d ;;
    pLevel <- Store.compileEq "level"
                (option_map (fun s => JS.parseInt (JS.VStr s)) (JS.supplied level)) ;;
    let questions :=
      map Item.select
        (Store.sortDocs (fun _ => byUsage) (Some ("usageCount", -1))
           (filter (fun i => Bool.eqb true (Item.isActive i) && pLevel (Item.level i))
                   (Db.items d))) in
    let totalQuestions := Z.of_nat (List.length questions) in
    let totalUsage :=
      fold_left (fun sum q => sum + Item.s_usageCount q) questions 0 in
    let averageCorrectRate :=
      if 0 <? Z.of_nat (List.length questions)
      then Qdiv (fold_left (fun sum q => Qplus sum (Item.s_correctAnswerRate q))
                           questions 0%Q)
                (inject_Z (Z.of_nat (List.length questions)))
      else 0%Q in
    JS.Ok (Success (questions,
                    mkStatsSummary totalQuestions totalUsage
                      (round2 averageCorrectRate)))).

(** [new FinancialItem({ .., tags: tags || [] })] *)
Definition newItem (now : Z) (b : Body) : Item.t :=
  Item.mk (FinancialItem.mk (b_id b) (b_level b) defaultActive)
    (b_name b) (b_category b) (b_multiCategories b) (b_explanation b)
    (b_difficulty b)
    (match b_tags b with Some l => l | None => [] end)
    defaultUsage defaultRate
    (if timestamps then Some now else None).

(** [errors] is what [validationResult(req)] holds. *)
Definition addFinancialItem (d : Db.t) (now : Z) (errors : list string) (b : Body)
    : Reply Item.t * Db.t :=
  match errors with
  | _ :: _ => (mkReply 400 false "Validation error" None, d)
  | [] =>
      match Db.findOne d (b_id b) with
      | JS.Throw _ => (mkReply 500 false "Failed to add financial item" None, d)
      | JS.Ok (Some _) =>
          (mkReply 400 false "Financial item with this ID already exists" None, d)
      | JS.Ok None =>
          let item := newItem now b in
          match Db.save d item with
          | JS.Throw _ => (mkReply 500 false "Failed to add financial item" None, d)
          | JS.Ok d' =>
              (mkReply 201 true "Financial item added successfully" (Some item), d')
          end
      end
  end.

Definition deleteFinancialItem (d : Db.t) (itemId : string)
    : Reply Item.t * Db.t :=
  match Db.deactivateOne d itemId with
  | JS.Throw _ => (mkReply 500 false "Failed to delete financial item" None, d)
  | JS.Ok (None, _) => (mkReply 404 false "Financial item not found" None, d)
  | JS.Ok (Some _, d') =>
      (mkReply 200 true "Financial item deleted successfully" None, d')
  end.

(** What [exportData] sends as [data]. *)
Inductive Exported : Type :=
| Sessions (l : list PopulatedSession)
| Students (l : list User.t)
| Items (l : list Item.t).

Definition exportedCount (e : Exported) : Z :=
  match e with
  | Sessions l => Z.of_nat (List.length l)
  | Students l => Z.of_nat (List.length l)
  | Items l => Z.of_nat (List.length l)
  end.

(** [.populate('studentId', 'studentName studentId mobileNumber')]: the
    student of a session without the fields of the external identity. *)
Definition basicStudent (d : Db.t) (s : GameSession.t) : option Student.t :=
  option_map
    (fun u => Student.mk (User._id u) (User.studentName u)
                (User.studentId u) (User.mobileNumber u) None None)
    (find (fun u => (User._id u =? GameSession.studentId s)%string) (Db.users d)).

Definition populateBasic (d : Db.t) (l : list GameSession.t) : list PopulatedSession :=
  map (fun s => (s, basicStudent d s)) l.

(** A date range on a field that a document may lack. *)
Definition inOptRange (r : option Store.Range) (p : Z -> bool) (v : option Z) : bool :=
  match r with
  | None => true
  | Some _ => match v with Some x => p x | None => false end
  end.

Definition exportData (d : Db.t) (q : Req.Query) (type : option string)
    : Response (string * Z * Exported) :=
  Admin.catch "Failed to export data" (
    let query := Admin.createdAtCond q in
    let kind := Admin.orDefault type "" in
    if (kind =? "sessions")%string then
      found <- Store.findSessions (Db.store d)
                 (Store.mkSessionFilter None None None None query None)
                 (Some ("createdAt", -1)) None None ;;
      let data := Sessions (populateBasic d found) in
      JS.Ok (Success (kind, exportedCount data, data))
    else if (kind =? "students")%string then
      found <- Store.findUsers (Db.store d)
                 (Store.mkUserFilter (Some "student") None query None)
                 (Some ("createdAt", -1)) None None ;;
      let data := Students found in
      JS.Ok (Success (kind, exportedCount data, data))
    else if (kind =? "questions")%string then
      _ <- Db.connected d ;;
      pCreated <- Store.compileRange "createdAt" query ;;
      let data :=
        Items (Store.sortBy levelThenUsage
                 (filter (fun i => Bool.eqb true (Item.isActive i)
                                   && inOptRange query pCreated (Item.createdAt i))
                         (Db.items d))) in
      JS.Ok (Success (kind, exportedCount data, data))
    else JS.Ok (Failure 400 "Invalid export type" None)).

Definition getAdminSessionReport (d : Db.t) (sessionId : ObjectId)
    : Response (Summary * Answers * option Student.t) :=
  Admin.catch "Failed to get session report" (
    _ <- Db.connected d ;;
    match find (fun s => (GameSession._id s =? sessionId)%string)
               (Db.gameSessions d) with
    | None => JS.Ok (Failure 404 "Session not found" None)
    | Some session =>
        JS.Ok (Success (getSummary session, getDetailedAnswers session,
                        basicStudent d session))
    end).

End WithRuntime.
End Questions.

(* ------------------------------------------------------------------ *)
(** ** The browser side: the admin dashboard *)

Module Web.

Definition digit (d : Z) : ascii := ascii_of_nat (Z.to_nat (48 + d)).

(** The decimal digits of [n >= 0] in front of [acc], the last digit
    first to be produced; [fuel] bounds the number of digits. *)
Fixpoint digits (fuel : nat) (n : Z) (acc : string) : string :=
  match fuel with
  | O => acc
  | S f =>
      let acc' := String (digit (n mod 10)) acc in
      if n <? 10 then acc' else digits f (n / 10) acc'
  end.

(** [n.toString()] for an integer of magnitude below 10^21, which is
    printed with all its digits; from 10^21 on JavaScript prints an
    exponent.  The safe integers are in this range. *)
Definition toString (z : Z) : string :=
  if z <? 0 then String "-"%char (digits (S (Z.to_nat (Z.log2 (- z)))) (- z) "")
  else digits (S (Z.to_nat (Z.log2 z))) z "".

(** A number is truthy when it is neither 0 nor [NaN]. *)
Definition truthyNum (v : option num) : option Z :=
  match v with
  | Some (Some z) => if z =? 0 then None else Some z
  | _ => None
  end.

(** [s.split(sep)] for a separator that is not empty: [skip] characters
    of a separator are still to be passed over, [cur] is the piece read
    so far. *)
Fixpoint splitFrom (sep s : string) (skip : nat) (cur : string) : list string :=
  match s with
  | EmptyString => [cur]
  | String c r =>
      match skip with
      | S k => splitFrom sep r k cur
      | O =>
          if prefix sep s
          then cur :: splitFrom sep r (String.length sep - 1) ""
          else splitFrom sep r 0 (cur ++ String c "")%string
      end
  end.

Definition split (sep s : string) : list string := splitFrom sep s 0 "".

(** [s.replace(q, '')] for the global pattern [q] of the double quote. *)
Fixpoint removeQuotes (s : string) : string :=
  match s with
  | EmptyString => EmptyString
  | String c r =>
      if Ascii.eqb c (ascii_of_nat 34) then removeQuotes r
      else String c (removeQuotes r)
  end.

(** [headers.get(name)]: header names are compared without case. *)
Definition headerGet (name : string) (headers : list (string * string))
    : option string :=
  option_map snd
    (find (fun h => (Sample.lowerString (fst h) =? Sample.lowerString name)%string)
          headers).

(** A date stamp: digits and hyphens. *)
Definition isStampChar (c : ascii) : bool :=
  let n := nat_of_ascii c in
  (((48 <=? n) && (n <=? 57)) || (n =? 45))%nat.

Fixpoint isDateStamp (s : string) : bool :=
  match s with
  | EmptyString => true
  | String c r => isStampChar c && isDateStamp r
  end.

End Web.

Module Dashboard.

Inductive Direction : Type := asc | desc.

Definition directionName (d : Direction) : string :=
  match d with asc => "asc" | desc => "desc" end.

Record SortConfig : Type := mkSortConfig {
  key : string;
  direction : Direction
}.

Record FilterConfig : Type := mkFilterConfig {
  level : option num;
  minScore : option num;
  maxScore : option num;
  startDate : option string;
  endDate : option string;
  search : option string
}.

Definition noFilters : FilterConfig :=
  mkFilterConfig None None None None None None.

(** The state cells of the component that the requests depend on. *)
Record State : Type := mkState {
  sortConfig : SortConfig;
  filters : FilterConfig;
  currentPage : Z;
  totalPages : Z
}.

Definition initial : State :=
  mkState (mkSortConfig "startTime" desc) noFilters 1 1.

(** [handleSort(key)] *)
Definition handleSort (k : string) (s : State) : State :=
  let prev := sortConfig s in
  mkState
    (mkSortConfig k
       (match direction prev with
        | asc => if (key prev =? k)%string then desc else asc
        | desc => asc
        end))
    (filters s) (currentPage s) (totalPages s).

(** The calls of [handleFilterChange(key, value)] that the inputs make. *)
Inductive FilterChange : Type :=
| SetSearch (v : string)
| SetLevel (v : option num)
| SetMinScore (v : option num)
| SetMaxScore (v : option num)
| SetStartDate (v : option string)
| SetEndDate (v : option string).

Definition setFilter (c : FilterChange) (f : FilterConfig) : FilterConfig :=
  match c with
  | SetSearch v =>
      mkFilterConfig (level f) (minScore f) (maxScore f) (startDate f) (endDate f)
        (Some v)
  | SetLevel v =>
      mkFilterConfig v (minScore f) (maxScore f) (startDate f) (endDate f) (search f)
  | SetMinScore v =>
      mkFilterConfig (level f) v (maxScore f) (startDate f) (endDate f) (search f)
  | SetMaxScore v =>
      mkFilterConfig (level f) (minScore f) v (startDate f) (endDate f) (search f)
  | SetStartDate v =>
      mkFilterConfig (level f) (minScore f) (maxScore f) v (endDate f) (search f)
  | SetEndDate v =>
      mkFilterConfig (level f) (minScore f) (maxScore f) (startDate f) v (search f)
  end.

Definition handleFilterChange (c : FilterChange) (s : State) : State :=
  mkState (sortConfig s) (setFilter c (filters s)) 1 (totalPages s).

Definition clearFilters (s : State) : State :=
  mkState (sortConfig s) noFilters 1 (totalPages s).

(** [setCurrentPage(prev => Math.max(1, prev - 1))] *)
Definition previousPage (s : State) : State :=
  mkState (sortConfig s) (filters s) (Z.max 1 (currentPage s - 1)) (totalPages s).

(** [setCurrentPage(prev => Math.min(totalPages, prev + 1))] *)
Definition nextPage (s : State) : State :=
  mkState (sortConfig s) (filters s) (Z.min (totalPages s) (currentPage s + 1))
          (totalPages s).

(** A number in the parameters of a request: there when it is truthy. *)
Definition numParam (v : option num) : option string :=
  option_map Web.toString (Web.truthyNum v).

(** The parameters of the request of [fetchStudentPerformances], as the
    server reads them back from the query string. *)
Definition fetchQuery (s : State) : Req.Query :=
  let f := filters s in
  Req.mk (Some (Web.toString (currentPage s))) (Some "20")
    (JS.supplied (search f))
    (Some (key (sortConfig s)))
    (Some (directionName (direction (sortConfig s))))
    (numParam (level f))
    None
    (JS.supplied (startDate f)) (JS.supplied (endDate f))
    (numParam (minScore f)) (numParam (maxScore f))
    None.

(** The parameters of the request of [exportToExcel]. *)
Definition exportQuery (s : State) : Req.Query :=
  let f := filters s in
  Req.mk None None None None None
    (numParam (level f))
    None
    (JS.supplied (startDate f)) (JS.supplied (endDate f))
    (numParam (minScore f)) (numParam (maxScore f))
    None.

(** [data.data.pagination?.pages || 1], for [pages] as the JSON of the
    response carries it: [NaN] and [Infinity] arrive as [null]. *)
Definition receivedPages (pages : JS.number) : Z :=
  match pages with
  | JS.Fin z => if z =? 0 then 1 else z
  | _ => 1
  end.

(** The state after a successful answer to the request: the server found
    [total] sessions for the filter. *)
Definition loaded (total : nat) (s : State) : State :=
  mkState (sortConfig s) (filters s) (currentPage s)
    (receivedPages
       (Admin.p_pages (Admin.pagination (fetchQuery s) (Z.of_nat total)))).

Inductive Event : Type :=
| ClickSort (k : string)
| ChangeFilter (c : FilterChange)
| ClearFilters
| Previous
| Next
| Loaded (total : nat).

Definition step (s : State) (e : Event) : State :=
  match e with
  | ClickSort k => handleSort k s
  | ChangeFilter c => handleFilterChange c s
  | ClearFilters => clearFilters s
  | Previous => previousPage s
  | Next => nextPage s
  | Loaded total => loaded total s
  end.

Definition run (s : State) (events : list Event) : State :=
  fold_left step events s.

(** A row of the table: the summary fields the cells read, and the
    student the server attached. *)
Record Row : Type := mkRow {
  r_studentName : option string;
  r_studentId : option string;
  r_mobile : option string;
  r_student : option Student.t
}.

(** [performance.studentName || performance.student?.studentName || 'N/A'] *)
Definition nameCell (r : Row) : string :=
  JS.orElse (JS.orOpt (r_studentName r)
                      (Exporter.field Student.studentName (r_student r))) "N/A".

(** [performance.studentId || performance.student?.studentId || 'N/A'] *)
Definition idCell (r : Row) : string :=
  JS.orElse (JS.orOpt (r_studentId r)
                      (Exporter.field Student.studentId (r_student r))) "N/A".

(** [performance.mobile || performance.student?.mobileNumber ||
    performance.student?.azureAdEmail || 'N/A'] *)
Definition contactCell (r : Row) : string :=
  JS.orElse
    (JS.orOpt (r_mobile r)
       (JS.orOpt (Exporter.field Student.mobileNumber (r_student r))
                 (Exporter.field Student.azureAdEmail (r_student r)))) "N/A".

(** [contentDisposition?.split('filename=')[1]?.replace(q, '')
    || 'student_performance.xlsx'], [q] the pattern of the double quote. *)
Definition downloadName (headers : list (string * string)) : string :=
  JS.orElse
    (match Web.headerGet "content-disposition" headers with
     | Some contentDisposition =>
         option_map Web.removeQuotes
           (nth_error (Web.split "filename=" contentDisposition) 1)
     | None => None
     end)
    "student_performance.xlsx".

End Dashboard.

(* ------------------------------------------------------------------ *)
(** ** Walking through the pages *)

Module Paging.

(** The request for another page, the number written as the browser
    writes it. *)
Definition onPage (q : Req.Query) (p : Z) : Req.Query :=
  Req.mk (Some (Web.toString p)) (Req.limit q) (Req.search q) (Req.sortBy q)
    (Req.sortOrder q) (Req.level q) (Req.studentId q) (Req.startDate q)
    (Req.endDate q) (Req.minScore q) (Req.maxScore q) (Req.includeDetails q).

(** The students a response lists. *)
Definition students (r : Response (list User.t * Admin.Pagination)) : list User.t :=
  match r with
  | Success (l, _) => l
  | Failure _ _ _ => []
  end.

(** The pages 1 .. n. *)
Definition pageNumbers (n : Z) : list Z :=
  map (fun k => Z.of_nat k + 1) (seq 0 (Z.to_nat n)).

End Paging.

(* ------------------------------------------------------------------ *)
(** ** Sequences of changes to the questions, and data for them *)

Module Journal.

Inductive Command : Type :=
| Add (now : Z) (errors : list string) (body : Questions.Body)
| Delete (itemId : string).

Section WithRuntime.
Context {rt : Runtime} {schema : ItemSchema} {reporting : Reporting}.

(** The database after a request, whatever the reply. *)
Definition execute (d : Db.t) (c : Command) : Db.t :=
  match c with
  | Add now errors body => snd (Questions.addFinancialItem d now errors body)
  | Delete itemId => snd (Questions.deleteFinancialItem d itemId)
  end.

Definition replay (d : Db.t) (cs : list Command) : Db.t := fold_left execute cs d.

End WithRuntime.
End Journal.

Module Quiz.

(** A schema that activates a new question and refuses an empty id. *)
Definition schema : ItemSchema := {|
  defaultActive := true;
  defaultUsage := 0;
  defaultRate := 0%Q;
  timestamps := true;
  accepts := fun i => negb (Item.id i =? "")%string
|}.

Definition reporting : Reporting := {|
  Answers := list string;
  getDetailedAnswers := fun _ => []
|}.

Definition item (id : string) (level usage : Z) (rate : Q) (active : bool) : Item.t :=
  Item.mk (FinancialItem.mk id level active) (Some id) None [] None None []
    usage rate (Some 0).

(** Two active questions and one that was deleted. *)
Definition bank : Db.t :=
  Db.mk Demo.people Demo.week
    [ item "cash" 1 5 (1 # 2) true; item "bond" 2 9 (3 # 4) true;
      item "old" 1 7 (1 # 1) false ]
    true.

Definition body (id : string) (level : Z) : Questions.Body :=
  Questions.mkBody id (Some id) None [] None level None None.

End Quiz.

(* ------------------------------------------------------------------ *)
(** * Properties *)

Example parseInt_px : JS.parseIntString "12px" = Some 12.
Proof. reflexivity. Qed.
Example parseInt_hex : JS.parseIntString "  -0x1F" = Some (-31).
Proof. reflexivity. Qed.
Example parseInt_abc : JS.parseIntString "abc" = None.
Proof. reflexivity. Qed.
Example toFixed2_a : JS.toFixed2 (7 # 1) = "7.00".
Proof. vm_compute. reflexivity. Qed.
Example toFixed2_b : JS.toFixed2 (200 # 3) = "66.67".
Proof. vm_compute. reflexivity. Qed.
Example toFixed2_c : JS.toFixed2 (1 # 200) = "0.01".
Proof. vm_compute. reflexivity. Qed.
Example toFixed2_d : JS.toFixed2 (-(5 # 4)) = "-1.25".
Proof. vm_compute. reflexivity. Qed.
Example ceilDiv_a : JS.ceilDiv 41 (Some 20) = JS.Fin 3.
Proof. reflexivity. Qed.

(* ------------------------------------------------------------------ *)
(** ** Sort keys *)





(* ------------------------------------------------------------------ *)
(** ** Accumulators *)

Lemma sumZ_acc (l : list Z) (a : Z) : fold_left Z.add l a = a + Spec.total l.
Proof.
  revert a. induction l as [| x l IH]; intros a; simpl.
  - lia.
  - rewrite IH. lia.
Qed.

Lemma sumZ_total (l : list Z) : Store.sumZ l = Spec.total l.
Proof. unfold Store.sumZ. rewrite sumZ_acc. lia. Qed.

Lemma sumZ_count {A} (l : list A) :
  Store.sumZ (map (fun _ => 1) l) = Z.of_nat (List.length l).
Proof.
  rewrite sumZ_total. unfold Spec.total.
  induction l as [| x l IH].
  - reflexivity.
  - change (1 + fold_right Z.add 0 (map (fun _ : A => 1) l)
            = Z.of_nat (S (List.length l))).
    rewrite IH. lia.
Qed.







(* ------------------------------------------------------------------ *)
(** ** Grouping and sorting *)

Lemma groupBy_snoc {A} (key : A -> Z) (l : list A) (d : A) :
  Store.groupBy key (l ++ [d]) = Store.addToGroup (key d) d (Store.groupBy key l).
Proof. unfold Store.groupBy. now rewrite fold_left_app. Qed.







Section SortByKey.
Context {A : Type} (f : A -> Z).

Lemma insertBy_perm (x : A) (l : list A) :
  Permutation (Store.insertBy (fun a b => f a <=? f b) x l) (x :: l).
Proof.
  induction l as [| y l IH]; simpl.
  - apply Permutation_refl.
  - destruct (f x <=? f y).
    + apply Permutation_refl.
    + eapply perm_trans; [apply perm_skip, IH | apply perm_swap].
Qed.

Lemma sortBy_perm (l : list A) : Permutation (Store.sortBy (fun a b => f a <=? f b) l) l.
Proof.
  induction l as [| x l IH]; simpl.
  - constructor.
  - eapply perm_trans; [apply insertBy_perm | now apply perm_skip].
Qed.



End SortByKey.

(* ------------------------------------------------------------------ *)
(** ** Level statistics *)



Lemma levelStats_perm (docs : list GameSession.t) :
  Permutation (Admin.levelStatsPipeline docs)
    (map Admin.levelGroup
       (Store.groupBy GameSession.level (filter Admin.isCompleted docs))).
Proof. unfold Admin.levelStatsPipeline. apply (sortBy_perm Admin.ls_id). Qed.








(* ------------------------------------------------------------------ *)
(** ** Per-student performance *)






(* ------------------------------------------------------------------ *)
(** ** Pagination *)

Lemma skipOf_valid (q : Req.Query) (p l : Z) :
  Admin.pageOf q = Some p -> Admin.limitOf q = Some l ->
  Admin.skipOf q = Some ((p - 1) * l).
Proof. unfold Admin.skipOf. intros -> ->. reflexivity. Qed.

Lemma window_valid `{rt : Runtime} {A} (p l : Z) (xs : list A) :
  1 <= p -> 1 <= l ->
  (ys <- Store.applySkip (Some (Some ((p - 1) * l))) xs ;;
   Store.applyLimit (Some (Some l)) ys)
  = JS.Ok (firstn (Z.to_nat l) (skipn (Z.to_nat ((p - 1) * l)) xs)).
Proof.
  intros Hp Hl. unfold Store.applySkip, Store.applyLimit.
  destruct (Z.ltb_spec ((p - 1) * l) 0) as [Hneg | _]; [nia |].
  cbn [JS.bind].
  destruct (Z.eqb_spec l 0) as [-> | _]; [lia |].
  rewrite Z.abs_eq by lia. reflexivity.
Qed.

Lemma ceilDiv_valid (total l : Z) :
  1 <= l ->
  exists pages,
    JS.ceilDiv total (Some l) = JS.Fin pages /\ Spec.isCeilDiv total l pages.
Proof.
  intros Hl. exists (- ((- total) / l)). split.
  - unfold JS.ceilDiv. destruct (Z.eqb_spec l 0); [lia | reflexivity].
  - unfold Spec.isCeilDiv.
    pose proof (Z.div_mod (- total) l ltac:(lia)) as Hdm.
    pose proof (Z.mod_pos_bound (- total) l ltac:(lia)) as Hb.
    split; nia.
Qed.


Lemma students_valid `{rt : Runtime} (st : Store.t) (q : Req.Query) (p l : Z)
    (matches : User.t -> bool) :
  Admin.pageOf q = Some p -> 1 <= p ->
  Admin.limitOf q = Some l -> 1 <= l ->
  Store.online st = true ->
  Store.compileUserFilter (Admin.studentQuery q) = JS.Ok matches ->
  Admin.getAllStudents st q
  = Success
      (firstn (Z.to_nat l)
         (skipn (Z.to_nat ((p - 1) * l))
            (Store.sortDocs Store.userKey
               (Some (Admin.sortField Admin.studentSortFields q,
                      Admin.sortDirection q))
               (filter matches (Store.users st)))),
       Admin.mkPagination (Some p) (Some l)
         (Z.of_nat (List.length (filter matches (Store.users st))))
         (JS.ceilDiv (Z.of_nat (List.length (filter matches (Store.users st))))
                     (Some l))).
Proof.
  intros Hp Hp1 Hl Hl1 Hon Hc.
  unfold Admin.getAllStudents, Store.findUsers, Store.countUsers,
    Store.connected, Admin.pagination.
  rewrite Hon, (skipOf_valid q p l Hp Hl), Hp, Hl. cbn [JS.bind].
  rewrite Hc. cbn [JS.bind].
  rewrite (window_valid p l _ Hp1 Hl1). reflexivity.
Qed.

Lemma sessions_valid `{rt : Runtime} (st : Store.t) (q : Req.Query) (p l : Z)
    (fetched counted : GameSession.t -> bool) :
  Admin.pageOf q = Some p -> 1 <= p ->
  Admin.limitOf q = Some l -> 1 <= l ->
  Store.online st = true ->
  Store.compileSessionFilter (Admin.effectiveSessionQuery q) = JS.Ok fetched ->
  Store.compileSessionFilter (Admin.sessionQuery q) = JS.Ok counted ->
  Admin.getAllGameSessions st q
  = Success
      (map (fun s => (getSummary (fst s), snd s))
         (Store.populate st
            (firstn (Z.to_nat l)
               (skipn (Z.to_nat ((p - 1) * l))
                  (Store.sortDocs Store.sessionKey
                     (Some (Admin.sortField Admin.sessionSortFields q,
                            Admin.sortDirection q))
                     (filter fetched (Store.gameSessions st)))))),
       Admin.mkPagination (Some p) (Some l)
         (Z.of_nat (List.length (filter counted (Store.gameSessions st))))
         (JS.ceilDiv (Z.of_nat (List.length (filter counted (Store.gameSessions st))))
                     (Some l))).
Proof.
  intros Hp Hp1 Hl Hl1 Hon Hf Hc.
  unfold Admin.getAllGameSessions, Store.findSessions, Store.countSessions,
    Store.connected, Admin.pagination.
  rewrite Hon, (skipOf_valid q p l Hp Hl), Hp, Hl. cbn [JS.bind].
  rewrite Hf, Hc. cbn [JS.bind].
  rewrite (window_valid p l _ Hp1 Hl1). reflexivity.
Qed.




(* ------------------------------------------------------------------ *)
(** ** Score bounds *)

Lemma inRange_spec (lo hi : option Z) (x : Z) :
  Store.inRange lo hi x = true <->
  (forall a, lo = Some a -> a <= x) /\ (forall b, hi = Some b -> x <= b).
Proof.
  unfold Store.inRange. rewrite andb_true_iff.
  destruct lo as [a |], hi as [b |]; rewrite ?Z.leb_le; split.
  all: try (intros [Ha Hb]; split; intros ? E; inversion E; subst; lia).
  all: try (intros [Ha Hb]; split; auto; try discriminate).
  all: try (split; [reflexivity | apply Z.leb_le; auto]).
  all: try (split; [apply Z.leb_le; auto | reflexivity]).
Qed.

Lemma compile_score_factor `{rt : Runtime} (f : Store.SessionFilter)
    (matches : GameSession.t -> bool) (inScore : Z -> bool) :
  Store.compileRange "score" (Store.f_score f) = JS.Ok inScore ->
  Store.compileSessionFilter f = JS.Ok matches ->
  exists others,
    Store.compileSessionFilter (Spec.withoutScore f) = JS.Ok others
    /\ forall s, matches s = others s && inScore (GameSession.score s).
Proof.
  intros Hs. unfold Store.compileSessionFilter. cbn [Spec.withoutScore Store.f_status
    Store.f_level Store.f_studentId Store.f_score Store.f_createdAt Store.f_or].
  rewrite Hs. cbn [Store.compileRange].
  destruct (Store.compileEq "level" (Store.f_level f)) as [pLevel | e];
    cbn [JS.bind]; [| discriminate].
  destruct (Store.compileRange "createdAt" (Store.f_createdAt f)) as [pCreated | e];
    cbn [JS.bind]; [| discriminate].
  destruct (Store.compileOr GameSession.getString (Store.f_or f)) as [pOr | e];
    cbn [JS.bind]; [| discriminate].
  intros E. injection E as <-.
  eexists. split; [reflexivity |].
  intros s. cbv beta.
  destruct (Store.eqOpt String.eqb (Store.f_status f) (GameSession.status s)),
    (pLevel (GameSession.level s)),
    (Store.eqOpt String.eqb (Store.f_studentId f) (GameSession.studentId s)),
    (inScore (GameSession.score s)), (pCreated (GameSession.createdAt s)), (pOr s);
    reflexivity.
Qed.

(** C7: when the bounds that are supplied are numbers, the session
    listing and the export put the same condition on [score]: no
    condition when neither bound is supplied, otherwise one range with
    the supplied bounds only; a session passes it exactly when its score
    is at least [minScore] (if supplied) and at most [maxScore] (if
    supplied), and the rest of the filter is untouched.  On scores 5, 5
    and 6 the bounds 5 and 5 match the two sessions with score 5. *)
Theorem C7_score_bounds `{rt : Runtime} (q : Req.Query) (lo hi : option Z) :
  option_map (fun s => JS.parseInt (JS.VStr s)) (JS.supplied (Req.minScore q))
    = option_map Some lo ->
  option_map (fun s => JS.parseInt (JS.VStr s)) (JS.supplied (Req.maxScore q))
    = option_map Some hi ->
  Store.f_score (Admin.exportQuery q) = Store.f_score (Admin.sessionQuery q)
  /\ Store.f_score (Admin.sessionQuery q)
       = match lo, hi with
         | None, None => None
         | _, _ => Some (Store.mkRange (option_map Some lo) (option_map Some hi))
         end
  /\ exists inScore,
       Store.compileRange "score" (Store.f_score (Admin.sessionQuery q))
         = JS.Ok inScore
       /\ (forall x, inScore x = true <->
             (forall a, lo = Some a -> a <= x) /\ (forall b, hi = Some b -> x <= b))
       /\ (forall matches,
             Store.compileSessionFilter (Admin.sessionQuery q) = JS.Ok matches ->
             exists others,
               Store.compileSessionFilter (Spec.withoutScore (Admin.sessionQuery q))
                 = JS.Ok others
               /\ forall s, matches s = others s && inScore (GameSession.score s))
       /\ (forall matches,
             Store.compileSessionFilter (Admin.exportQuery q) = JS.Ok matches ->
             exists others,
               Store.compileSessionFilter (Spec.withoutScore (Admin.exportQuery q))
                 = JS.Ok others
               /\ forall s, matches s = others s && inScore (GameSession.score s)).
Proof.
  intros Hlo Hhi.
  assert (Hcond : Admin.scoreCond q
                  = match lo, hi with
                    | None, None => None
                    | _, _ => Some (Store.mkRange (option_map Some lo)
                                                  (option_map Some hi))
                    end).
  { unfold Admin.scoreCond.
    destruct (JS.supplied (Req.minScore q)) as [smin |],
             (JS.supplied (Req.maxScore q)) as [smax |];
      destruct lo as [a |], hi as [b |]; simpl in Hlo, Hhi |- *;
      try discriminate; try injection Hlo as Hlo; try injection Hhi as Hhi;
      try rewrite Hlo; try rewrite Hhi; reflexivity. }
  split; [reflexivity |]. split; [exact Hcond |].
  exists (Store.inRange lo hi).
  assert (Hcomp : Store.compileRange "score" (Admin.scoreCond q)
                  = JS.Ok (Store.inRange lo hi)).
  { rewrite Hcond. destruct lo as [a |], hi as [b |]; reflexivity. }
  split; [exact Hcomp |]. split; [intros x; apply inRange_spec |].
  split; intros matches Hm; eapply compile_score_factor; eauto.
Qed.

(** The scenario: scores 5, 5 and 6 with [minScore = 5] and
    [maxScore = 5]. *)
Lemma C7_score_bounds_witness :
  exists pg,
    Admin.getAllGameSessions (rt := Sample.runtime)
      (Sample.store Sample.scores556) (Sample.withScores "5" "5")
    = Success
        (map (fun s => (s, Some (Student.ofUser (Sample.user "u1" "Asha"))))
             [Sample.session "a" "u1" 1 5 10 (50 # 1);
              Sample.session "b" "u1" 1 5 10 (50 # 1)], pg)
    /\ Admin.p_total pg = 2
    /\ exists inScore,
         Store.compileRange "score"
           (Store.f_score (Admin.exportQuery (rt := Sample.runtime)
                             (Sample.withScores "5" "5"))) = JS.Ok inScore
         /\ filter (fun s => inScore (GameSession.score s)) Sample.scores556
            = [Sample.session "a" "u1" 1 5 10 (50 # 1);
               Sample.session "b" "u1" 1 5 10 (50 # 1)].
Proof.
  destruct (C7_score_bounds (rt := Sample.runtime) (Sample.withScores "5" "5")
              (Some 5) (Some 5) eq_refl eq_refl)
    as [Hsame [Hcond [inScore [Hc _]]]].
  eexists. split; [vm_compute; reflexivity |]. split; [reflexivity |].
  exists inScore. split; [rewrite Hsame; exact Hc |].
  rewrite Hcond in Hc. injection Hc as <-. reflexivity.
Defined.

(* ------------------------------------------------------------------ *)
(** ** The rows of the export *)

Lemma orElse_orOpt (a b : option string) (sentinel : string) :
  JS.orElse (JS.orOpt a b) sentinel = Spec.firstNonEmpty [a; b] sentinel.
Proof.
  unfold JS.orOpt, JS.orElse, JS.truthy. simpl.
  destruct a as [s |]; [| reflexivity].
  destruct (s =? "")%string eqn:E; simpl; [reflexivity | now rewrite E].
Qed.

Lemma orElse_single (a : option string) (sentinel : string) :
  JS.orElse a sentinel = Spec.firstNonEmpty [a] sentinel.
Proof. destruct a; reflexivity. Qed.

Lemma toFixed2_comp (x y : Q) : (x == y)%Q -> JS.toFixed2 x = JS.toFixed2 y.
Proof.
  intros E.
  assert (E1 : Qle_bool 0 x = Qle_bool 0 y).
  { destruct (Qle_bool 0 x) eqn:Hx, (Qle_bool 0 y) eqn:Hy; try reflexivity.
    - apply Qle_bool_iff in Hx. rewrite E in Hx. apply Qle_bool_iff in Hx. congruence.
    - apply Qle_bool_iff in Hy. rewrite <- E in Hy. apply Qle_bool_iff in Hy.
      congruence. }
  assert (E2 : Qfloor (x * (100 # 1) + (1 # 2)) = Qfloor (y * (100 # 1) + (1 # 2)))
    by (now rewrite E).
  assert (E3 : Qfloor (- x * (100 # 1) + (1 # 2)) = Qfloor (- y * (100 # 1) + (1 # 2)))
    by (now rewrite E).
  unfold JS.toFixed2. rewrite E1.
  destruct (Qle_bool 0 y); cbn [negb]; [rewrite E2 | rewrite E3]; reflexivity.
Qed.



Lemma inject_total (l : list Z) :
  (inject_Z (Spec.total l) == Spec.totalQ (map inject_Z l))%Q.
Proof.
  induction l as [| x l IH]; simpl.
  - reflexivity.
  - rewrite inject_Z_plus, IH. reflexivity.
Qed.

(* ------------------------------------------------------------------ *)
(** ** Double arithmetic *)

(** The rounded quotient is within a half of the quotient, and even when
    it is a half away. *)
Lemma rhe_near (n d : Z) : 0 < d -> 2 * Z.abs (JS.roundHalfEven n d * d - n) <= d.
Proof.
  intros Hd. unfold JS.roundHalfEven.
  pose proof (Z.div_mod n d ltac:(lia)) as Hdm.
  pose proof (Z.mod_pos_bound n d Hd) as Hb.
  destruct (Z.ltb_spec (2 * (n mod d)) d); [nia |].
  destruct (Z.ltb_spec d (2 * (n mod d))); [nia |].
  destruct (Z.even (n / d)); nia.
Qed.

Lemma rhe_tie (n d : Z) :
  0 < d -> 2 * Z.abs (JS.roundHalfEven n d * d - n) = d ->
  Z.even (JS.roundHalfEven n d) = true.
Proof.
  intros Hd. unfold JS.roundHalfEven.
  pose proof (Z.div_mod n d ltac:(lia)) as Hdm.
  pose proof (Z.mod_pos_bound n d Hd) as Hb.
  destruct (Z.ltb_spec (2 * (n mod d)) d); [nia |].
  destruct (Z.ltb_spec d (2 * (n mod d))); [nia |].
  destruct (Z.even (n / d)) eqn:E; [auto |].
  intros _. rewrite Z.even_add, E. reflexivity.
Qed.

Lemma rhe_bounds (n d lo hi : Z) :
  0 < d -> lo * d <= n -> n <= hi * d ->
  lo <= JS.roundHalfEven n d <= hi.
Proof.
  intros Hd Hlo Hhi. pose proof (rhe_near n d Hd). nia.
Qed.

Lemma numScale_pos t : 0 < JS.numScale t.
Proof. unfold JS.numScale. apply Z.pow_pos_nonneg; lia. Qed.
Lemma denScale_pos t : 0 < JS.denScale t.
Proof. unfold JS.denScale. apply Z.pow_pos_nonneg; lia. Qed.

(** Lowering the exponent by one doubles the scaled ratio. *)
Lemma step_down (t : Z) :
  (JS.numScale (t - 1) = 2 * JS.numScale t /\ JS.denScale (t - 1) = JS.denScale t)
  \/ (JS.numScale (t - 1) = JS.numScale t /\ JS.denScale t = 2 * JS.denScale (t - 1)).
Proof.
  unfold JS.numScale, JS.denScale. destruct (Z.le_gt_cases t 0) as [H | H].
  - left.
    rewrite (Z.max_r 0 (- (t - 1))), (Z.max_r 0 (- t)) by lia.
    rewrite (Z.max_l 0 (t - 1)), (Z.max_l 0 t) by lia.
    split; [| reflexivity].
    replace (- (t - 1)) with (Z.succ (- t)) by lia.
    apply Z.pow_succ_r. lia.
  - right.
    rewrite (Z.max_l 0 (- (t - 1))), (Z.max_l 0 (- t)) by lia.
    rewrite (Z.max_r 0 (t - 1)), (Z.max_r 0 t) by lia.
    split; [reflexivity |].
    replace t with (Z.succ (t - 1)) at 1 by lia.
    apply Z.pow_succ_r. lia.
Qed.

(** The exponent guessed from the lengths of numerator and denominator
    is the right one or one too large. *)
Lemma first_guess (a b : Z) :
  0 < a -> 0 < b ->
  let t := Z.log2 a - Z.log2 b - 52 in
  2 ^ 51 * (b * JS.denScale t) < a * JS.numScale t /\ a * JS.numScale t < 2 ^ 53 * (b * JS.denScale t).
Proof.
  intros Ha Hb t.
  destruct (Z.log2_spec a Ha) as [Ha1 Ha2].
  destruct (Z.log2_spec b Hb) as [Hb1 Hb2].
  pose proof (Z.log2_nonneg a) as Hla. pose proof (Z.log2_nonneg b) as Hlb.
  rewrite Z.pow_succ_r in Ha2, Hb2 by assumption.
  unfold JS.numScale, JS.denScale.
  destruct (Z.le_gt_cases 0 t) as [Ht | Ht].
  - rewrite (Z.max_l 0 (- t)), (Z.max_r 0 t) by lia.
    assert (E : 2 ^ Z.log2 a = 2 ^ t * 2 ^ Z.log2 b * 2 ^ 52).
    { rewrite <- !Z.pow_add_r by lia. f_equal. unfold t. lia. }
    set (T := 2 ^ t) in *. set (P := 2 ^ Z.log2 b) in *.
    assert (0 < T) by (apply Z.pow_pos_nonneg; lia).
    change (2 ^ 0) with 1. nia.
  - rewrite (Z.max_r 0 (- t)), (Z.max_l 0 t) by lia.
    assert (E : 2 ^ Z.log2 a * 2 ^ (- t) = 2 ^ Z.log2 b * 2 ^ 52).
    { rewrite <- !Z.pow_add_r by lia. f_equal. unfold t. lia. }
    set (T := 2 ^ (- t)) in *. set (P := 2 ^ Z.log2 b) in *.
    assert (0 < T) by (apply Z.pow_pos_nonneg; lia).
    change (2 ^ 0) with 1. nia.
Qed.

(** The exponent of the last bit puts the scaled ratio between 2^52 and
    2^53, or is the least exponent. *)
Lemma lastBit_spec (a b : Z) :
  0 < a -> 0 < b ->
  -1074 <= JS.lastBit a b
  /\ (JS.lastBit a b = -1074
      \/ 2 ^ 52 * (b * JS.denScale (JS.lastBit a b)) <= a * JS.numScale (JS.lastBit a b))
  /\ a * JS.numScale (JS.lastBit a b) < 2 ^ 53 * (b * JS.denScale (JS.lastBit a b)).
Proof.
  intros Ha Hb.
  destruct (first_guess a b Ha Hb) as [H1 H2].
  assert (E : JS.lastBit a b =
              Z.max (if 2 ^ 52 * (b * JS.denScale (Z.log2 a - Z.log2 b - 52))
                          <=? a * JS.numScale (Z.log2 a - Z.log2 b - 52)
                     then Z.log2 a - Z.log2 b - 52
                     else Z.log2 a - Z.log2 b - 52 - 1) (-1074)) by reflexivity.
  cbv zeta in H1, H2.
  set (t0 := Z.log2 a - Z.log2 b - 52) in *.
  set (t1 := if 2 ^ 52 * (b * JS.denScale t0) <=? a * JS.numScale t0 then t0 else t0 - 1) in *.
  assert (Ht1 : 2 ^ 52 * (b * JS.denScale t1) <= a * JS.numScale t1
                /\ a * JS.numScale t1 < 2 ^ 53 * (b * JS.denScale t1)).
  { unfold t1. destruct (Z.leb_spec (2 ^ 52 * (b * JS.denScale t0)) (a * JS.numScale t0)) as [H | H].
    - split; assumption.
    - pose proof (numScale_pos t0). pose proof (denScale_pos t0).
      pose proof (numScale_pos (t0 - 1)). pose proof (denScale_pos (t0 - 1)).
      destruct (step_down t0) as [[Eu Ed] | [Eu Ed]].
      + rewrite Eu, Ed. nia.
      + rewrite Eu. rewrite Ed in H, H2. nia. }
  clearbody t1. clear H1 H2. rewrite E. clear E.
  split; [lia |].
  destruct (Z.le_gt_cases (-1074) t1) as [H | H].
  - rewrite Z.max_l by lia. split; [right |]; tauto.
  - rewrite Z.max_r by lia. split; [now left |].
    destruct Ht1 as [_ Hhi].
    unfold JS.numScale, JS.denScale in *.
    rewrite (Z.max_r 0 (- t1)), (Z.max_l 0 t1) in Hhi by lia.
    change (Z.max 0 (- -1074)) with 1074. change (Z.max 0 (-1074)) with 0.
    assert (Hpow : 2 ^ 1074 <= 2 ^ (- t1)) by (apply Z.pow_le_mono_r; lia).
    change (2 ^ 0) with 1 in *.
    set (P := 2 ^ 1074) in *. set (R := 2 ^ (- t1)) in *.
    assert (0 < P) by (subst P; apply Z.pow_pos_nonneg; lia).
    clearbody P R. nia.
Qed.



Lemma pow2_pos (t : Z) : (0 < (2 # 1) ^ t)%Q.
Proof. apply Qpower_0_lt. reflexivity. Qed.

Lemma pow2_Z (t : Z) : 0 <= t -> ((2 # 1) ^ t == inject_Z (2 ^ t))%Q.
Proof. intros H. symmetry. apply (Zpower_Qpower 2 t H). Qed.

Lemma pow2_plus (a b : Z) : ((2 # 1) ^ (a + b) == (2 # 1) ^ a * (2 # 1) ^ b)%Q.
Proof. apply Qpower_plus. discriminate. Qed.

Lemma pow2_scale (t : Z) :
  ((2 # 1) ^ t * inject_Z (JS.numScale t) == inject_Z (JS.denScale t))%Q.
Proof.
  unfold JS.numScale, JS.denScale. destruct (Z.le_gt_cases 0 t) as [H | H].
  - rewrite (Z.max_l 0 (- t)), (Z.max_r 0 t) by lia.
    rewrite (pow2_Z t H). change (inject_Z (2 ^ 0)) with 1%Q. ring.
  - rewrite (Z.max_r 0 (- t)), (Z.max_l 0 t) by lia.
    change (inject_Z (2 ^ 0)) with 1%Q.
    rewrite <- (pow2_Z (- t)) by lia. rewrite <- pow2_plus.
    replace (t + - t) with 0 by lia. reflexivity.
Qed.

Lemma ldexp_pow (m t : Z) : (JS.ldexp m t == inject_Z m * (2 # 1) ^ t)%Q.
Proof.
  unfold JS.ldexp. destruct (Z.leb_spec 0 t) as [H | H].
  - rewrite inject_Z_mult, (pow2_Z t H). reflexivity.
  - assert (Hp : 0 < 2 ^ (- t)) by (apply Z.pow_pos_nonneg; lia).
    rewrite Qmake_Qdiv, Z2Pos.id by exact Hp.
    rewrite <- (pow2_Z (- t)) by lia.
    assert (E : ((2 # 1) ^ t * (2 # 1) ^ (- t) == 1)%Q).
    { rewrite <- pow2_plus. replace (t + - t) with 0 by lia. reflexivity. }
    pose proof (pow2_pos (- t)) as H1. pose proof (pow2_pos t) as H2.
    set (p := ((2 # 1) ^ t)%Q) in *. set (r := ((2 # 1) ^ (- t))%Q) in *.
    clearbody p r.
    assert (Ep : (p == / r)%Q).
    { apply (Qmult_inj_r _ _ r); [lra |]. rewrite E. field. lra. }
    rewrite Ep. field. lra.
Qed.

Lemma Qabs_reduced (x : Q) :
  (Qabs x == inject_Z (Z.abs (Qnum (Qred x))) / inject_Z (Zpos (Qden (Qred x))))%Q.
Proof.
  rewrite <- (Qabs_wd _ _ (Qred_correct x)).
  destruct (Qred x) as [n b]. cbn [Qnum Qden Qabs].
  apply Qmake_Qdiv.
Qed.

Lemma signed_reduced (x : Q) :
  (x == inject_Z (Z.sgn (Qnum (Qred x))) * Qabs x)%Q.
Proof.
  rewrite <- (Qabs_wd _ _ (Qred_correct x)).
  rewrite <- (Qred_correct x) at 1.
  destruct (Qred x) as [n b]. cbn [Qnum Qden Qabs].
  unfold Qeq, Qmult, inject_Z. cbn [Qnum Qden].
  destruct n; cbn; lia.
Qed.

Lemma scaled_abs (x : Q) (t : Z) :
  (Qabs x * inject_Z (Zpos (Qden (Qred x)) * JS.denScale t)
   == inject_Z (Z.abs (Qnum (Qred x)) * JS.numScale t) * (2 # 1) ^ t)%Q.
Proof.
  rewrite (Qabs_reduced x), !inject_Z_mult.
  rewrite <- (pow2_scale t).
  field. discriminate.
Qed.

Lemma scaled_le (X Dq A p c : Q) :
  (0 < Dq -> 0 < p -> X * Dq == A * p -> c * Dq <= A -> c * p <= X)%Q.
Proof. intros. nra. Qed.

Lemma scaled_lt (X Dq A p c : Q) :
  (0 < Dq -> 0 < p -> X * Dq == A * p -> A < c * Dq -> X < c * p)%Q.
Proof. intros. nra. Qed.

Lemma scaled_near (X Dq A p M : Q) :
  (0 < Dq -> 0 < p -> X * Dq == A * p ->
   - Dq <= (2 # 1) * (M * Dq - A) <= Dq ->
   - p <= (2 # 1) * (M * p - X) <= p)%Q.
Proof. intros ? ? ? [? ?]. split; nra. Qed.

Lemma scaled_tie (X Dq A p M : Q) :
  (0 < Dq -> 0 < p -> X * Dq == A * p ->
   Qabs (M * p - X) * (2 # 1) == p ->
   Qabs (M * Dq - A) * (2 # 1) == Dq)%Q.
Proof.
  intros HD Hp E.
  apply (Qabs_case (M * p - X)); apply (Qabs_case (M * Dq - A)); intros; nra.
Qed.

Lemma Qabs_sign (s : Z) (y : Q) :
  s = 1 \/ s = -1 -> (Qabs (inject_Z s * y) == Qabs y)%Q.
Proof.
  intros [-> | ->].
  - apply Qabs_wd. ring.
  - rewrite <- (Qabs_opp y). apply Qabs_wd. ring.
Qed.

(** [double] rounds to the nearest double, to the even one on a tie,
    for every argument in the finite range. *)
Lemma double_nearest (x : Q) :
  (Qabs x < (2 # 1) ^ 1023)%Q -> Spec.nearestDouble x (JS.double x).
Proof.
  intros Hx. unfold JS.double.
  pose proof (Qabs_reduced x) as Eabs.
  pose proof (signed_reduced x) as Esgn.
  pose proof (fun t => scaled_abs x t) as Escaled.
  set (n := Qnum (Qred x)) in *. set (b := Zpos (Qden (Qred x))) in *.
  assert (Hb : 0 < b) by (unfold b; lia). clearbody n b.
  destruct (Z.eqb_spec (Z.abs n) 0) as [Ha | Ha].
  - assert (E0 : (x == 0)%Q).
    { rewrite Esgn, Eabs, Ha. unfold Qdiv. ring. }
    exists 0, (-1074). split; [lia |]. split; [now left |].
    split; [rewrite E0; apply pow2_pos |].
    split; [ring |].
    assert (Ed : (Qabs (0 - x) == 0)%Q) by (rewrite E0; reflexivity).
    split; [rewrite Ed; apply Qlt_le_weak, (pow2_pos (-1074)) |].
    reflexivity.
  - set (a := Z.abs n) in *. assert (Hapos : 0 < a) by (unfold a; lia).
    destruct (lastBit_spec a b Hapos Hb) as (Ht & Hlo & Hhi).
    set (t := JS.lastBit a b) in *. clearbody t.
    fold (JS.numScale t) (JS.denScale t). specialize (Escaled t).
    pose proof (numScale_pos t) as Hup. pose proof (denScale_pos t) as Hdown.
    set (N := a * JS.numScale t) in *. set (D := b * JS.denScale t) in *.
    assert (HD : 0 < D) by (unfold D; nia).
    pose proof (rhe_near N D HD) as Hnear.
    pose proof (rhe_tie N D HD) as Htie.
    set (m := JS.roundHalfEven N D) in *. clearbody m.
    assert (HDq : (0 < inject_Z D)%Q)
      by (change 0%Q with (inject_Z 0); rewrite <- Zlt_Qlt; exact HD).
    pose proof (pow2_pos t) as Hp.
    assert (Hs : Z.sgn n = 1 \/ Z.sgn n = -1) by (unfold a in Ha; lia).
    assert (Hupper : (Qabs x < (2 # 1) ^ (t + 53))%Q).
    { rewrite pow2_plus, Qmult_comm.
      apply (scaled_lt _ (inject_Z D) (inject_Z N)); try assumption.
      rewrite (pow2_Z 53) by lia. rewrite <- inject_Z_mult, <- Zlt_Qlt. lia. }
    assert (Hlower : t = -1074 \/ ((2 # 1) ^ (t + 52) <= Qabs x)%Q).
    { destruct Hlo as [Hlo | Hlo]; [now left | right].
      rewrite pow2_plus, Qmult_comm.
      apply (scaled_le _ (inject_Z D) (inject_Z N)); try assumption.
      rewrite (pow2_Z 52) by lia. rewrite <- inject_Z_mult, <- Zle_Qle. lia. }
    assert (Ediff : (Qabs (Qred (JS.ldexp (Z.sgn n * m) t) - x)
                     == Qabs (inject_Z m * (2 # 1) ^ t - Qabs x))%Q).
    { rewrite Qred_correct, ldexp_pow, inject_Z_mult.
      rewrite <- (Qabs_sign (Z.sgn n) (inject_Z m * (2 # 1) ^ t - Qabs x) Hs).
      apply Qabs_wd. rewrite Esgn at 1. ring. }
    exists (Z.sgn n * m), t.
    split.
    { split; [exact Ht |].
      destruct Hlower as [-> | Hl]; [lia |].
      assert (Hlt : ((2 # 1) ^ (t + 52) < (2 # 1) ^ 1023)%Q)
        by (eapply Qle_lt_trans; eassumption).
      apply Qpower_lt_compat_l_inv in Hlt; [lia | reflexivity]. }
    split; [exact Hlower |]. split; [exact Hupper |].
    split; [rewrite Qred_correct; apply ldexp_pow |].
    assert (HnearQ : (- inject_Z D <= (2 # 1) * (inject_Z m * inject_Z D - inject_Z N)
                      <= inject_Z D)%Q).
    { change (2 # 1)%Q with (inject_Z 2).
      unfold Qminus. rewrite <- !inject_Z_opp, <- !inject_Z_mult, <- inject_Z_plus, <- inject_Z_mult.
      rewrite <- !Zle_Qle. lia. }
    split.
    + rewrite Ediff.
      pose proof (scaled_near _ _ _ _ (inject_Z m) HDq Hp Escaled HnearQ) as [H1 H2].
      apply (Qabs_case (inject_Z m * (2 # 1) ^ t - Qabs x)); intros; lra.
    + intros Hties. rewrite Ediff in Hties.
      pose proof (scaled_tie _ _ _ _ (inject_Z m) HDq Hp Escaled Hties) as HtieQ.
      rewrite Z.even_mul. replace (Z.even m) with true; [apply orb_true_r |].
      symmetry. apply Htie.
      assert (HZ : inject_Z (Z.abs (m * D - N) * 2) = inject_Z D -> 2 * Z.abs (m * D - N) = D).
      { intros H. apply (f_equal Qnum) in H. cbn in H. lia. }
      apply HZ.
      assert (HQ : (inject_Z (Z.abs (m * D - N) * 2) == inject_Z D)%Q).
      { rewrite <- HtieQ, inject_Z_mult.
        change (inject_Z 2) with (2 # 1)%Q.
        apply Qmult_comp; [| reflexivity].
        unfold Qminus. rewrite <- inject_Z_mult, <- inject_Z_opp, <- inject_Z_plus.
        reflexivity. }
      unfold Qeq in HQ. cbn in HQ. f_equal. lia.
Qed.

(** [double] does not depend on the fraction that stands for its
    argument. *)
Lemma double_comp (x y : Q) : (x == y)%Q -> JS.double x = JS.double y.
Proof. intros E. unfold JS.double. rewrite (Qred_complete x y E). reflexivity. Qed.

Lemma pow2_le (a b : Z) : a <= b -> ((2 # 1) ^ a <= (2 # 1) ^ b)%Q.
Proof. intros H. apply Qpower_le_compat_l; [exact H | discriminate]. Qed.

Lemma pow2_lt (a b : Z) : a < b -> ((2 # 1) ^ a < (2 # 1) ^ b)%Q.
Proof. intros H. apply Qpower_lt_compat_l; [exact H | reflexivity]. Qed.

Lemma nearestDouble_tie (x p : Q) (m : Z) :
  (0 < p)%Q ->
  (Qabs (inject_Z m * p - x) * (2 # 1) <= p)%Q ->
  (Qabs (inject_Z (m + 1) * p - x) * (2 # 1) <= p)%Q ->
  (Qabs (inject_Z m * p - x) * (2 # 1) == p)%Q
  /\ (Qabs (inject_Z (m + 1) * p - x) * (2 # 1) == p)%Q.
Proof.
  rewrite inject_Z_plus. change (inject_Z 1) with 1%Q.
  set (M := inject_Z m). clearbody M. intros Hp.
  apply (Qabs_case (M * p - x)); apply (Qabs_case ((M + 1) * p - x));
    intros; split; nra.
Qed.

(** The relation determines the double. *)
Lemma nearestDouble_unique (x d d' : Q) :
  Spec.nearestDouble x d -> Spec.nearestDouble x d' -> (d == d')%Q.
Proof.
  intros (m & t & Ht & Hlo & Hhi & Ed & Hnear & Htie)
         (m' & t' & Ht' & Hlo' & Hhi' & Ed' & Hnear' & Htie').
  assert (Et : t = t').
  { destruct (Z.lt_trichotomy t t') as [Hlt | [E | Hgt]]; [exfalso | exact E | exfalso].
    - destruct Hlo' as [-> | Hlo']; [lia |].
      pose proof (pow2_le (t + 53) (t' + 52) ltac:(lia)) as Hle.
      apply (Qlt_irrefl (Qabs x)).
      eapply Qlt_le_trans; [exact Hhi |]. eapply Qle_trans; eassumption.
    - destruct Hlo as [-> | Hlo]; [lia |].
      pose proof (pow2_le (t' + 53) (t + 52) ltac:(lia)) as Hle.
      apply (Qlt_irrefl (Qabs x)).
      eapply Qlt_le_trans; [exact Hhi' |]. eapply Qle_trans; eassumption. }
  subst t'. pose proof (pow2_pos t) as Hp.
  set (p := ((2 # 1) ^ t)%Q) in *. clearbody p.
  rewrite Ed in Hnear, Htie. rewrite Ed' in Hnear', Htie'.
  assert (Hdiff : -1 <= m - m' <= 1).
  { assert (HQ : (- (1) <= inject_Z (m - m') <= 1)%Q).
    { unfold Z.sub. rewrite inject_Z_plus, inject_Z_opp.
      revert Hnear Hnear'.
      apply (Qabs_case (inject_Z m * p - x));
        apply (Qabs_case (inject_Z m' * p - x)); intros; split; nra. }
    destruct HQ as [H1 H2].
    change (- (1))%Q with (inject_Z (-1)) in H1. change 1%Q with (inject_Z 1) in H2.
    rewrite <- Zle_Qle in H1, H2. lia. }
  assert (Hcases : m' = m \/ m' = m + 1 \/ m = m' + 1) by lia.
  destruct Hcases as [-> | [-> | ->]].
  - rewrite Ed, Ed'. reflexivity.
  - exfalso. destruct (nearestDouble_tie x p m Hp Hnear Hnear') as [T1 T2].
    specialize (Htie T1). specialize (Htie' T2).
    rewrite Z.even_add in Htie'. rewrite Htie in Htie'. discriminate.
  - exfalso. destruct (nearestDouble_tie x p m' Hp Hnear' Hnear) as [T1 T2].
    specialize (Htie' T1). specialize (Htie T2).
    rewrite Z.even_add in Htie. rewrite Htie' in Htie. discriminate.
Qed.

(** The rounding error: at most one part in 2^53 of the magnitude,
    above the subnormal range. *)
Lemma nearestDouble_error (x d : Q) :
  Spec.nearestDouble x d ->
  (Qabs (d - x) <= Qabs x * (1 # 2 ^ 53) + (2 # 1) ^ (-1075))%Q.
Proof.
  intros (m & t & Ht & Hlo & Hhi & Ed & Hnear & _).
  pose proof (Qabs_nonneg x) as Hx.
  pose proof (pow2_pos (-1075)) as He.
  change (2 ^ 53)%positive with 9007199254740992%positive.
  destruct Hlo as [-> | Hlo].
  - assert (E : ((2 # 1) ^ (-1074) == (2 # 1) * (2 # 1) ^ (-1075))%Q).
    { rewrite <- (Qpower_1_r (2 # 1)) at 2. rewrite <- pow2_plus. reflexivity. }
    rewrite E in Hnear.
    set (e := ((2 # 1) ^ (-1075))%Q) in *. clearbody e.
    set (r := Qabs (d - x)) in *. set (X := Qabs x) in *. clearbody r X. lra.
  - assert (E : ((2 # 1) ^ (t + 52) == (2 # 1) ^ t * inject_Z (2 ^ 52))%Q).
    { rewrite pow2_plus, (pow2_Z 52) by lia. reflexivity. }
    rewrite E in Hlo. change (inject_Z (2 ^ 52)) with (4503599627370496 # 1)%Q in Hlo.
    set (e := ((2 # 1) ^ (-1075))%Q) in *. set (p := ((2 # 1) ^ t)%Q) in *.
    clearbody e p.
    set (r := Qabs (d - x)) in *. set (X := Qabs x) in *. clearbody r X. lra.
Qed.

Lemma unscale (M V U p : Q) :
  (0 < U -> p * U == 1 -> Qabs (M * p - V) * (2 # 1) <= p ->
   Qabs (M - V * U) * (2 # 1) <= 1)%Q.
Proof.
  intros HU E H.
  assert (E1 : (M - V * U == (M * p - V) * U)%Q).
  { transitivity (M * (p * U) - V * U)%Q; [rewrite E |]; ring. }
  rewrite E1, Qabs_Qmult, (Qabs_pos U) by lra.
  set (r := Qabs (M * p - V)) in *. clearbody r. rewrite <- E. nra.
Qed.

(** An integer of magnitude below 2^53 is a double. *)
Lemma nearestDouble_integer (z : Z) (d : Q) :
  Z.abs z < 2 ^ 53 -> Spec.nearestDouble (inject_Z z) d -> (d == inject_Z z)%Q.
Proof.
  intros Hz (m & t & Ht & Hlo & Hhi & Ed & Hnear & _).
  assert (Habs : (Qabs (inject_Z z) == inject_Z (Z.abs z))%Q) by reflexivity.
  assert (Ht0 : t <= 0).
  { destruct Hlo as [-> | Hlo]; [lia |].
    assert (Hlt : ((2 # 1) ^ (t + 52) < (2 # 1) ^ 53)%Q).
    { eapply Qle_lt_trans; [exact Hlo |]. rewrite Habs, (pow2_Z 53) by lia.
      rewrite <- Zlt_Qlt. exact Hz. }
    apply Qpower_lt_compat_l_inv in Hlt; [lia | reflexivity]. }
  pose proof (pow2_scale t) as Es. unfold JS.numScale, JS.denScale in Es.
  rewrite (Z.max_r 0 (- t)), (Z.max_l 0 t) in Es by lia.
  change (inject_Z (2 ^ 0)) with 1%Q in Es.
  set (u := 2 ^ (- t)) in *.
  assert (Hu : 0 < u) by (apply Z.pow_pos_nonneg; lia).
  assert (HuQ : (0 < inject_Z u)%Q)
    by (change 0%Q with (inject_Z 0); rewrite <- Zlt_Qlt; exact Hu).
  pose proof (pow2_pos t) as Hp. set (p := ((2 # 1) ^ t)%Q) in *. clearbody p u.
  assert (Hint : (Qabs (inject_Z (m - z * u)) * (2 # 1) <= 1)%Q).
  { unfold Z.sub. rewrite inject_Z_plus, inject_Z_opp, inject_Z_mult.
    apply (unscale _ _ _ p HuQ Es). rewrite <- Ed. exact Hnear. }
  assert (Em : m = z * u).
  { assert (HZ : Z.abs (m - z * u) * 2 <= 1).
    { rewrite Zle_Qle, inject_Z_mult. exact Hint. }
    lia. }
  rewrite Ed, Em, inject_Z_mult.
  transitivity (inject_Z z * (p * inject_Z u))%Q; [ring | rewrite Es; ring].
Qed.

Lemma pow2_small : ((2 # 1) ^ (-1075) <= 1)%Q.
Proof. apply (pow2_le (-1075) 0). lia. Qed.

Lemma double_step (x : Q) (c : Z) :
  0 <= c < 2 ^ 53 ->
  (Qabs x <= inject_Z c * inject_Z (2 ^ 53))%Q ->
  Spec.nearestDouble x (JS.double x)
  /\ (Qabs (JS.double x) <= inject_Z c * inject_Z (2 ^ 53) + inject_Z c + 1)%Q.
Proof.
  intros Hc Hx.
  assert (Hlt : (Qabs x < (2 # 1) ^ 1023)%Q).
  { eapply Qle_lt_trans; [exact Hx |].
    rewrite <- inject_Z_mult.
    apply Qlt_le_trans with (inject_Z (2 ^ 106)).
    - rewrite <- Zlt_Qlt. nia.
    - rewrite <- (pow2_Z 106) by lia. apply pow2_le. lia. }
  pose proof (double_nearest x Hlt) as Hn. split; [exact Hn |].
  pose proof (nearestDouble_error _ _ Hn) as He.
  pose proof pow2_small as Hs.
  pose proof (Qabs_triangle (JS.double x - x) x) as Htri.
  assert (E : (JS.double x - x + x == JS.double x)%Q) by ring.
  rewrite (Qabs_wd _ _ E) in Htri.
  change (2 ^ 53)%positive with 9007199254740992%positive in He.
  change (inject_Z (2 ^ 53)) with (9007199254740992 # 1)%Q in *.
  set (e := ((2 # 1) ^ (-1075))%Q) in *. clearbody e.
  set (C := inject_Z c) in *. clearbody C.
  set (X := Qabs x) in *. set (R := Qabs (JS.double x - x)) in *.
  set (Dd := Qabs (JS.double x)) in *. clearbody X R Dd. lra.
Qed.

(** Adding up to 2^32 numbers of magnitude at most 2^53 never leaves
    the finite range: every step is a rounding to the nearest double,
    and the sum of the first [k] stays below [2 k 2^53]. *)
Lemma floatSum_fold (xs : list Q) :
  forall (k : Z) (acc : Q),
    0 <= k -> k + Z.of_nat (List.length xs) <= 2 ^ 32 ->
    Forall (fun x => (Qabs x <= inject_Z (2 ^ 53))%Q) xs ->
    (Qabs acc <= inject_Z (2 * k) * inject_Z (2 ^ 53))%Q ->
    Spec.floatSum acc xs (fold_left JS.fadd xs acc)
    /\ (Qabs (fold_left JS.fadd xs acc)
        <= inject_Z (2 * (k + Z.of_nat (List.length xs))) * inject_Z (2 ^ 53))%Q.
Proof.
  induction xs as [| x xs IH]; intros k acc Hk Hlen Hall Hacc.
  - split; [constructor |]. cbn [fold_left List.length Z.of_nat].
    rewrite Z.add_0_r. exact Hacc.
  - cbn [fold_left]. cbn [List.length] in *. rewrite Nat2Z.inj_succ in *.
    inversion Hall as [| ? ? Hx Hrest]; subst.
    assert (Hsum : (Qabs (acc + x) <= inject_Z (2 * k + 1) * inject_Z (2 ^ 53))%Q).
    { eapply Qle_trans; [apply Qabs_triangle |].
      rewrite inject_Z_plus. change (inject_Z 1) with 1%Q.
      set (A := Qabs acc) in *. set (X := Qabs x) in *.
      set (K := inject_Z (2 * k)) in *. set (C := inject_Z (2 ^ 53)) in *.
      clearbody A X K C. lra. }
    destruct (double_step (acc + x) (2 * k + 1) ltac:(lia) Hsum) as [Hn Hb].
    destruct (IH (k + 1) (JS.fadd acc x) ltac:(lia) ltac:(lia) Hrest) as [Hf Hr].
    { unfold JS.fadd. eapply Qle_trans; [exact Hb |].
      rewrite <- !inject_Z_mult. change 1%Q with (inject_Z 1).
      rewrite <- !inject_Z_plus, <- Zle_Qle. lia. }
    split.
    + econstructor; [exact Hn | exact Hf].
    + replace (k + Z.succ (Z.of_nat (List.length xs)))
        with (k + 1 + Z.of_nat (List.length xs)) by lia. exact Hr.
Qed.


(** The quotient of the rounded sum by the count is a rounding as
    well, and stays below 2^55. *)
Lemma average_floatMean (xs : list Q) :
  xs <> [] -> Z.of_nat (List.length xs) < 2 ^ 32 ->
  Forall (fun x => (Qabs x <= inject_Z (2 ^ 53))%Q) xs ->
  Spec.floatMean xs
    (JS.fdiv (fold_left JS.fadd xs 0%Q) (inject_Z (Z.of_nat (List.length xs))))
  /\ (Qabs (JS.fdiv (fold_left JS.fadd xs 0%Q)
                    (inject_Z (Z.of_nat (List.length xs))))
      <= inject_Z (2 ^ 55))%Q.
Proof.
  intros Hne Hlen Hall.
  destruct (floatSum_fold xs 0 0%Q ltac:(lia) ltac:(lia) Hall) as [Hsum Hb].
  { cbn. discriminate. }
  rewrite Z.add_0_l in Hb.
  set (sum := fold_left JS.fadd xs 0%Q) in *.
  set (N := Z.of_nat (List.length xs)) in *.
  assert (HN : 0 < N) by (unfold N; destruct xs; [congruence | cbn; lia]).
  assert (HNq : (0 < inject_Z N)%Q)
    by (change 0%Q with (inject_Z 0); rewrite <- Zlt_Qlt; exact HN).
  assert (Hq : (Qabs (sum / inject_Z N) <= inject_Z 2 * inject_Z (2 ^ 53))%Q).
  { unfold Qdiv. rewrite Qabs_Qmult, Qabs_Qinv, (Qabs_pos (inject_Z N)) by lra.
    apply Qle_shift_div_r; [exact HNq |].
    eapply Qle_trans; [exact Hb |]. rewrite inject_Z_mult. 
    set (C := inject_Z (2 ^ 53)). set (M := inject_Z N). clearbody C M.
    change (inject_Z 2) with (2 # 1)%Q. lra. }
  destruct (double_step (sum / inject_Z N) 2 ltac:(lia) Hq) as [Hn Hd].
  split.
  - exists sum. split; [exact Hsum | exact Hn].
  - unfold JS.fdiv. eapply Qle_trans; [exact Hd |].
    apply Qle_bool_iff. reflexivity.
Qed.

Lemma double_integer (z : Z) (x : Q) :
  Z.abs z < 2 ^ 53 -> (x == inject_Z z)%Q -> (JS.double x == inject_Z z)%Q.
Proof.
  intros Hz E. rewrite (double_comp _ _ E).
  apply nearestDouble_integer; [exact Hz |].
  apply double_nearest.
  apply Qlt_le_trans with (inject_Z (2 ^ 53)).
  - change (Qabs (inject_Z z)) with (inject_Z (Z.abs z)). rewrite <- Zlt_Qlt. exact Hz.
  - rewrite <- (pow2_Z 53) by lia. apply pow2_le. lia.
Qed.

Lemma absSum_nonneg (zs : list Z) : 0 <= Spec.absSum zs.
Proof.
  induction zs as [| z zs IH]; cbn; [lia |]. fold (Spec.absSum zs). lia.
Qed.

(** Adding integers is exact as long as the magnitudes sum to less
    than 2^53. *)
Lemma fold_integers (zs : list Z) :
  forall (s : Z) (acc : Q),
    (acc == inject_Z s)%Q -> Z.abs s + Spec.absSum zs < 2 ^ 53 ->
    (fold_left JS.fadd (map inject_Z zs) acc == inject_Z (s + Spec.total zs))%Q.
Proof.
  induction zs as [| z zs IH]; intros s acc E Hb.
  - cbn. rewrite Z.add_0_r. exact E.
  - cbn [map fold_left Spec.total fold_right]. cbn [Spec.absSum fold_right] in Hb.
    fold (Spec.absSum zs) in Hb. fold (Spec.total zs).
    pose proof (absSum_nonneg zs) as Hnn.
    rewrite Z.add_assoc. apply IH; [| lia].
    unfold JS.fadd. apply double_integer; [lia |].
    rewrite E, inject_Z_plus. reflexivity.
Qed.

Lemma average_exact (zs : list Z) :
  zs <> [] -> Spec.absSum zs < 2 ^ 53 ->
  Spec.nearestDouble (Spec.meanZ zs)
    (JS.fdiv (fold_left JS.fadd (map inject_Z zs) 0%Q)
             (inject_Z (Z.of_nat (List.length (map inject_Z zs))))).
Proof.
  intros Hne Hb.
  assert (E : JS.fdiv (fold_left JS.fadd (map inject_Z zs) 0%Q)
                      (inject_Z (Z.of_nat (List.length (map inject_Z zs))))
              = JS.double (Spec.meanZ zs)).
  { unfold JS.fdiv. apply double_comp.
    unfold Spec.meanZ, Spec.arithmeticMean.
    rewrite (fold_integers zs 0 0%Q (Qeq_refl _) Hb), Z.add_0_l, length_map.
    rewrite <- inject_total. reflexivity. }
  rewrite E. apply double_nearest.
  unfold Spec.meanZ, Spec.arithmeticMean. rewrite <- inject_total, length_map.
  set (N := Z.of_nat (List.length zs)).
  assert (HN : 1 <= N) by (unfold N; destruct zs; [congruence | cbn; lia]).
  assert (HNq : (0 < inject_Z N)%Q)
    by (change 0%Q with (inject_Z 0); rewrite <- Zlt_Qlt; lia).
  assert (Htot : Z.abs (Spec.total zs) <= Spec.absSum zs).
  { clear. induction zs as [| z zs IH]; cbn; [lia |].
    fold (Spec.total zs) (Spec.absSum zs). lia. }
  apply Qle_lt_trans with (inject_Z (2 ^ 53)).
  - unfold Qdiv. rewrite Qabs_Qmult, Qabs_Qinv, (Qabs_pos (inject_Z N)) by lra.
    apply Qle_shift_div_r; [exact HNq |].
    change (Qabs (inject_Z (Spec.total zs))) with (inject_Z (Z.abs (Spec.total zs))).
    rewrite <- inject_Z_mult, <- Zle_Qle. nia.
  - rewrite <- (pow2_Z 53) by lia. apply pow2_lt. lia.
Qed.

(* ------------------------------------------------------------------ *)
(** ** Two decimals *)

Lemma length_append (a b : string) :
  String.length (a ++ b) = (String.length a + String.length b)%nat.
Proof. induction a as [| c a IH]; cbn; [reflexivity | now rewrite IH]. Qed.

Lemma substring_split (s : string) :
  forall j, (j <= String.length s)%nat ->
    s = (substring 0 j s ++ substring j (String.length s - j) s)%string
    /\ String.length (substring 0 j s) = j
    /\ String.length (substring j (String.length s - j) s)
       = (String.length s - j)%nat.
Proof.
  induction s as [| c s IH]; intros j Hj.
  - cbn in Hj. assert (j = 0)%nat by lia. subst. cbn. auto.
  - destruct j as [| j].
    + cbn [substring String.length Nat.sub append].
      assert (E : forall t, substring 0 (String.length t) t = t).
      { induction t as [| d t IHt]; cbn; [reflexivity | now rewrite IHt]. }
      rewrite E. auto.
    + cbn in Hj. destruct (IH j ltac:(lia)) as (E1 & E2 & E3).
      cbn [substring String.length Nat.sub append].
      rewrite <- E1, E2, E3. auto.
Qed.

Lemma substring_prefix (a c : string) :
  substring 0 (String.length a) (a ++ c) = a.
Proof.
  induction a as [| x a IH]; cbn.
  - destruct c; reflexivity.
  - now rewrite IH.
Qed.

Lemma substring_suffix (a b : string) :
  substring (String.length a) (String.length b) (a ++ b) = b.
Proof.
  induction a as [| x a IH]; cbn; [| exact IH].
  induction b as [| y b IHb]; cbn; [reflexivity | now rewrite IHb].
Qed.

Lemma readFixed2_join (a b : string) :
  (1 <= String.length a)%nat -> String.length b = 2%nat ->
  Spec.readFixed2 (a ++ "." ++ b) = Spec.readDigits (a ++ b).
Proof.
  intros Ha Hb. unfold Spec.readFixed2.
  rewrite length_append. cbn [append String.length]. rewrite Hb.
  replace (String.length a + 3 <? 4)%nat with false
    by (symmetry; apply Nat.ltb_ge; lia).
  replace (String.length a + 3 - 3)%nat with (String.length a) by lia.
  replace (String.length a + 3 - 2)%nat with (String.length (a ++ ".")).
  2:{ rewrite length_append. cbn. lia. }
  pose proof (append_correct2 a (String "." b) 0) as Hget.
  cbn [get Nat.add] in Hget. rewrite <- Hget.
  cbn [Ascii.eqb Bool.eqb]. rewrite substring_prefix.
  assert (E : (a ++ String "." b = (a ++ ".") ++ b)%string).
  { clear. induction a as [| x a IH]; cbn; [reflexivity | now rewrite IH]. }
  rewrite E, <- Hb, substring_suffix. reflexivity.
Qed.

Lemma readDigits_decimal (n : Z) : 0 <= n -> Spec.readDigits (JS.decimal n) = Some n.
Proof.
  intros Hn. unfold Spec.readDigits, JS.decimal.
  rewrite NilZero.usu.
  - cbn [option_map]. rewrite DecimalN.Unsigned.of_to, Z2N.id by exact Hn.
    reflexivity.
  - unfold N.to_uint. destruct (Z.to_N n); [discriminate |].
    apply DecimalPos.Unsigned.to_uint_nonnil.
Qed.

Lemma decimal_nonempty (n : Z) : (1 <= String.length (JS.decimal n))%nat.
Proof.
  unfold JS.decimal, NilZero.string_of_uint.
  destruct (N.to_uint (Z.to_N n)); cbn; lia.
Qed.

Lemma readDigits_zero (t : string) (n : Z) :
  Spec.readDigits t = Some n -> Spec.readDigits (String "0" t) = Some n.
Proof.
  unfold Spec.readDigits. destruct t as [| c r]; [discriminate |].
  unfold NilZero.uint_of_string.
  change (NilEmpty.uint_of_string (String "0" (String c r)))
    with (uint_of_char "0" (NilEmpty.uint_of_string (String c r))).
  destruct (NilEmpty.uint_of_string (String c r)) as [u |]; [| discriminate].
  intros H. exact H.
Qed.

Lemma readDigits_zeros (j : nat) (s : string) (n : Z) :
  Spec.readDigits s = Some n -> Spec.readDigits (JS.zeros j ++ s) = Some n.
Proof.
  intros H. induction j as [| j IH]; [exact H |].
  cbn [JS.zeros append]. apply readDigits_zero, IH.
Qed.

Lemma length_zeros (j : nat) : String.length (JS.zeros j) = j.
Proof. induction j; cbn; congruence. Qed.

(** The digits of a number start with a zero only when the number is
    zero. *)
Lemma decimal_head (n : Z) :
  JS.decimal n = "0" \/ String.get 0 (JS.decimal n) <> Some "0"%char.
Proof.
  unfold JS.decimal. set (d := N.to_uint (Z.to_N n)).
  assert (E : d = Decimal.unorm d).
  { unfold d. rewrite <- (DecimalN.Unsigned.of_to (Z.to_N n)) at 1.
    apply DecimalN.Unsigned.to_of. }
  assert (H : forall u, match Decimal.nzhead u with
                        | Decimal.D0 _ => False
                        | _ => True
                        end).
  { induction u; cbn; auto. }
  specialize (H d). rewrite E. unfold Decimal.unorm.
  destruct (Decimal.nzhead d); cbn; try (now left); right; discriminate.
Qed.

(** [toFixed(2)] prints the hundredths nearest to its argument. *)
Lemma toFixed2_fixed2 (x : Q) : Spec.fixed2 x (JS.toFixed2 x).
Proof.
  unfold JS.toFixed2.
  set (a := if negb (Qle_bool 0 x) then (- x)%Q else x).
  assert (Ea : (a == Qabs x)%Q).
  { unfold a. destruct (Qle_bool 0 x) eqn:E; cbn [negb].
    - apply Qle_bool_iff in E. symmetry. apply Qabs_pos. exact E.
    - symmetry. apply Qabs_neg.
      destruct (Qlt_le_dec x 0) as [H | H]; [apply Qlt_le_weak; exact H |].
      apply Qle_bool_iff in H. congruence. }
  set (n := Qfloor (a * (100 # 1) + (1 # 2))%Q).
  assert (Hn : 0 <= n).
  { unfold n. change 0 with (Qfloor 0). apply Qfloor_resp_le.
    rewrite Ea. pose proof (Qabs_nonneg x). lra. }
  pose proof (Qfloor_le (a * (100 # 1) + (1 # 2))) as Hlo.
  pose proof (Qlt_floor (a * (100 # 1) + (1 # 2))) as Hhi.
  fold n in Hlo, Hhi. rewrite inject_Z_plus in Hhi. change (inject_Z 1) with 1%Q in Hhi.
  set (m := JS.decimal n).
  set (m' := if (String.length m <=? 2)%nat
             then (JS.zeros (3 - String.length m) ++ m)%string else m).
  assert (Hm' : (3 <= String.length m')%nat /\ Spec.readDigits m' = Some n
                /\ (String.length m' = 3%nat \/ String.get 0 m' <> Some "0"%char)).
  { unfold m'. pose proof (decimal_nonempty n) as Hk. fold m in Hk.
    destruct (Nat.leb_spec (String.length m) 2) as [H | H].
    - split; [| split].
      + rewrite length_append, length_zeros. lia.
      + apply readDigits_zeros, readDigits_decimal, Hn.
      + left. rewrite length_append, length_zeros. lia.
    - split; [lia |]. split; [apply readDigits_decimal, Hn |].
      right. destruct (decimal_head n) as [E | Hh]; [| exact Hh].
      fold m in E. rewrite E in H. cbn in H. lia. }
  destruct Hm' as (Hlen & Hread & Hhead). clearbody m'.
  destruct (substring_split m' (String.length m' - 2) ltac:(lia)) as (E1 & E2 & E3).
  replace (String.length m' - (String.length m' - 2))%nat with 2%nat in * by lia.
  exists n, (substring 0 (String.length m' - 2) m' ++ "."
             ++ substring (String.length m' - 2) 2 m')%string.
  split; [destruct (Qle_bool 0 x); reflexivity |].
  split.
  { rewrite readFixed2_join by lia. rewrite <- E1. exact Hread. }
  split.
  { destruct Hhead as [H3 | Hh].
    - left. rewrite length_append, E2. cbn [String.length append].
      rewrite E3. lia.
    - right. rewrite <- (append_correct1 _ _ 0) by lia.
      rewrite (append_correct1 _ (substring (String.length m' - 2) 2 m') 0) by lia.
      rewrite <- E1. exact Hh. }
  rewrite <- Ea. split; lra.
Qed.

Example readFixed2_a : Spec.readFixed2 "7.00" = Some 700.
Proof. reflexivity. Qed.
Example readFixed2_b : Spec.readFixed2 "0.07" = Some 7.
Proof. reflexivity. Qed.
Example readFixed2_c : Spec.readFixed2 ".07" = None.
Proof. reflexivity. Qed.
Example readFixed2_d : Spec.readFixed2 "7.0" = None.
Proof. reflexivity. Qed.

(** The double nearest to 3/40 lies below it, the one nearest to 1/3 is
    6004799503160661 / 2^54, and 2^53 + 1 lies halfway between two
    doubles. *)
Example double_a : (JS.double (3 # 40) < 3 # 40)%Q.
Proof. reflexivity. Qed.
Example double_b : JS.double (1 # 3) = (6004799503160661 # 18014398509481984)%Q.
Proof. reflexivity. Qed.
Example double_c : JS.double (inject_Z (2 ^ 53 + 1)) = inject_Z (2 ^ 53).
Proof. reflexivity. Qed.
Example double_d : JS.double (1 # 8) = (1 # 8)%Q.
Proof. reflexivity. Qed.
Example toFixed2_e : JS.toFixed2 (JS.double (3 # 40)) = "0.07".
Proof. reflexivity. Qed.
Example toFixed2_f : JS.toFixed2 (JS.double (1 # 8)) = "0.13".
Proof. reflexivity. Qed.

(* ------------------------------------------------------------------ *)
(** ** The averages of the export *)

Lemma fold_fadd_map {A} (g : A -> Q) (l : list A) (acc : Q) :
  fold_left (fun sum s => JS.fadd sum (g s)) l acc
  = fold_left JS.fadd (map g l) acc.
Proof.
  revert acc. induction l as [| x l IH]; intros acc; cbn; [reflexivity | apply IH].
Qed.

Lemma averageQ_values `{rt : Runtime} (f : GameSession.t -> Q)
    (sessions : list PopulatedSession) :
  Exporter.averageQ f sessions
  = JS.fdiv (fold_left JS.fadd (map (fun ps => f (fst ps)) sessions) 0%Q)
      (inject_Z (Z.of_nat (List.length (map (fun ps => f (fst ps)) sessions)))).
Proof. unfold Exporter.averageQ. rewrite fold_fadd_map, length_map. reflexivity. Qed.

Lemma safeInteger_Qabs (z : Z) :
  Spec.safeInteger z -> (Qabs (inject_Z z) <= inject_Z Spec.maxSafeInteger)%Q.
Proof.
  intros H. change (Qabs (inject_Z z)) with (inject_Z (Z.abs z)).
  rewrite <- Zle_Qle. unfold Spec.safeInteger in H. lia.
Qed.

(** An average of the summary: the mean in double arithmetic, below
    2^55, and its cell the average with two decimals. *)
Lemma average_cell `{rt : Runtime} (f : GameSession.t -> Q)
    (sessions : list PopulatedSession) :
  sessions <> [] -> Z.of_nat (List.length sessions) < 2 ^ 32 ->
  (forall ps, In ps sessions ->
     (Qabs (f (fst ps)) <= inject_Z Spec.maxSafeInteger)%Q) ->
  Spec.floatMean (map (fun ps => f (fst ps)) sessions) (Exporter.averageQ f sessions)
  /\ (Qabs (Exporter.averageQ f sessions) <= inject_Z (2 ^ 55))%Q
  /\ Spec.fixed2 (Exporter.averageQ f sessions)
       (JS.toFixed2 (Exporter.averageQ f sessions)).
Proof.
  intros Hne Hlen Hall. rewrite averageQ_values.
  destruct (average_floatMean (map (fun ps => f (fst ps)) sessions)) as [H1 H2].
  - destruct sessions; [congruence | discriminate].
  - rewrite length_map. exact Hlen.
  - apply Forall_forall. intros x Hx. apply in_map_iff in Hx.
    destruct Hx as (ps & <- & Hps). eapply Qle_trans; [apply Hall, Hps |].
    apply Qle_bool_iff. reflexivity.
  - split; [exact H1 |]. split; [exact H2 |]. apply toFixed2_fixed2.
Qed.

(** Integers whose magnitudes sum to at most 2^53 - 1 are added without
    rounding: their average is the double nearest to the mean. *)
Lemma averageZ_exact `{rt : Runtime} (f : GameSession.t -> Z)
    (sessions : list PopulatedSession) :
  sessions <> [] ->
  Spec.absSum (map (fun ps => f (fst ps)) sessions) <= Spec.maxSafeInteger ->
  Spec.nearestDouble (Spec.meanZ (map (fun ps => f (fst ps)) sessions))
    (Exporter.averageZ f sessions).
Proof.
  intros Hne Hsum. unfold Exporter.averageZ. rewrite averageQ_values.
  rewrite <- (map_map (fun ps => f (fst ps)) inject_Z).
  apply average_exact.
  - destruct sessions; [congruence | discriminate].
  - unfold Spec.maxSafeInteger in Hsum. lia.
Qed.

Lemma rowObject_cells `{rt : Runtime} (ps : PopulatedSession) :
  Sheet.mkRow
    (map (fun c => Sheet.lookup (Sheet.key c) (Exporter.rowObject ps))
         Exporter.columnDefs) Sheet.plain
  = Spec.dataRow ps.
Proof.
  destruct ps as [session student]. unfold Spec.dataRow.
  rewrite <- !orElse_orOpt, <- orElse_single. reflexivity.
Qed.

Lemma addDataRows_rows `{rt : Runtime} (sessions : list PopulatedSession)
    (ws : Sheet.Worksheet) :
  Sheet.columns ws = Exporter.columnDefs ->
  Exporter.addDataRows sessions ws
  = Sheet.mkWorksheet (Sheet.name ws) Exporter.columnDefs
      (Sheet.rows ws ++ map Spec.dataRow sessions).
Proof.
  unfold Exporter.addDataRows. revert ws.
  induction sessions as [| ps sessions IH]; intros ws Hc; cbn [fold_left map].
  - rewrite app_nil_r, <- Hc. now destruct ws.
  - rewrite IH; [| exact Hc]. unfold Sheet.addRowObject.
    cbn [Sheet.name Sheet.rows Sheet.columns]. rewrite Hc, rowObject_cells.
    now rewrite <- app_assoc.
Qed.

Lemma updateNth_app {A} (f : A -> A) (pre l : list A) (d : nat) :
  Sheet.updateNth (List.length pre + d) f (pre ++ l) = pre ++ Sheet.updateNth d f l.
Proof.
  induction pre as [| x pre IH]; simpl; [reflexivity | now rewrite IH].
Qed.

Lemma styleRow_app (st : Sheet.Style) (n : string) (cols : list Sheet.Column)
    (pre l : list Sheet.Row) (d : nat) :
  Sheet.styleRow (Z.of_nat (List.length pre) + 1 + Z.of_nat d) st
    (Sheet.mkWorksheet n cols (pre ++ l))
  = Sheet.mkWorksheet n cols
      (pre ++ Sheet.updateNth d (fun r => Sheet.mkRow (Sheet.values r) st) l).
Proof.
  unfold Sheet.styleRow.
  destruct (Z.ltb_spec (Z.of_nat (List.length pre) + 1 + Z.of_nat d) 1); [lia |].
  cbn [Sheet.name Sheet.columns Sheet.rows].
  replace (Z.to_nat (Z.of_nat (List.length pre) + 1 + Z.of_nat d - 1))
    with (List.length pre + d)%nat by lia.
  now rewrite updateNth_app.
Qed.

Lemma styleRow_first (st : Sheet.Style) (n : string) (cols : list Sheet.Column)
    (r : Sheet.Row) (l : list Sheet.Row) :
  Sheet.styleRow 1 st (Sheet.mkWorksheet n cols (r :: l))
  = Sheet.mkWorksheet n cols (Sheet.mkRow (Sheet.values r) st :: l).
Proof. reflexivity. Qed.

(** The loop over the last five rows. *)
Lemma style_last_five (st : Sheet.Style) (n : string) (cols : list Sheet.Column)
    (pre : list Sheet.Row) (a b c d e : Sheet.Row) :
  let ws := Sheet.mkWorksheet n cols (pre ++ [a; b; c; d; e]) in
  let restyle := fun r => Sheet.mkRow (Sheet.values r) st in
  fold_left (fun w i => Sheet.styleRow i st w)
    (map (fun k => Sheet.rowCount ws - 4 + Z.of_nat k) (seq 0 5)) ws
  = Sheet.mkWorksheet n cols
      (pre ++ [restyle a; restyle b; restyle c; restyle d; restyle e]).
Proof.
  intros ws restyle.
  assert (Hi : forall k,
             Sheet.rowCount ws - 4 + Z.of_nat k
             = Z.of_nat (List.length pre) + 1 + Z.of_nat k).
  { intros k. unfold Sheet.rowCount, ws. cbn [Sheet.rows].
    rewrite length_app. cbn [List.length]. lia. }
  cbn [seq map fold_left]. rewrite !Hi. unfold ws.
  rewrite !styleRow_app. reflexivity.
Qed.

(** The rows of the worksheet: the header, a row per session in the
    order given, and for a non-empty export a blank row and the five
    summary rows. *)
Lemma buildWorksheet_rows `{rt : Runtime} (sessions : list PopulatedSession) :
  Sheet.rows (Exporter.buildWorksheet sessions)
  = Spec.headerRow :: map Spec.dataRow sessions
    ++ match sessions with
       | [] => []
       | _ :: _ =>
           Spec.blankRow
           :: Spec.summaryRows (List.length sessions)
                (JS.toFixed2 (Exporter.averageZ GameSession.score sessions))
                (JS.toFixed2 (Exporter.averageQ GameSession.percentage sessions))
                (JS.toFixed2 (Exporter.averageZ GameSession.timeTakenSeconds
                                                sessions))
       end.
Proof.
  unfold Exporter.buildWorksheet.
  rewrite addDataRows_rows by reflexivity.
  cbn [Sheet.name Sheet.rows Sheet.setColumns Sheet.addWorksheet app].
  rewrite styleRow_first. cbn [Sheet.values]. fold Spec.headerRow.
  destruct sessions as [| ps sessions]; [reflexivity |].
  cbn [List.length Z.of_nat Z.ltb Z.compare].
  set (all := ps :: sessions).
  unfold Exporter.addSummary, Sheet.addRowArray.
  cbn [Sheet.name Sheet.columns Sheet.rows].
  set (pre := (Spec.headerRow :: map Spec.dataRow all) ++ [Sheet.mkRow [] Sheet.plain]).
  rewrite <- !app_assoc. cbn [app].
  match goal with
  | |- context [pre ++ [?a; ?b; ?c; ?d; ?e]] =>
      pose proof (style_last_five Exporter.summaryStyle "Student Performance"
                    Exporter.columnDefs pre a b c d e) as Hstyle
  end.
  cbv zeta in Hstyle. rewrite Hstyle. clear Hstyle.
  cbn [Sheet.rows Sheet.values]. unfold pre.
  rewrite <- app_assoc. cbn [app]. reflexivity.
Qed.

(* ------------------------------------------------------------------ *)
(** ** The response of the export *)

Lemma writes_flushed (chunks : list Res.Chunk) (r : Res.t) (s : Z) :
  Res.wireStatus r = Some s ->
  fold_left (fun r c => Res.write c r) chunks r
  = Res.mk (Res.statusCode r) (Res.headers r) (Some s)
           (Res.wire r ++ chunks) (Res.ended r).
Proof.
  revert r. induction chunks as [| c chunks IH]; intros r Hs; cbn [fold_left].
  - rewrite app_nil_r, <- Hs. now destruct r.
  - rewrite IH by (unfold Res.write, Res.flush; now rewrite Hs).
    unfold Res.write, Res.flush. rewrite Hs. cbn. now rewrite <- app_assoc.
Qed.

Lemma writes_nonempty (c : Res.Chunk) (chunks : list Res.Chunk) (r : Res.t) :
  Res.wireStatus r = None ->
  fold_left (fun r c => Res.write c r) (c :: chunks) r
  = Res.mk (Res.statusCode r) (Res.headers r) (Some (Res.statusCode r))
           (Res.wire r ++ c :: chunks) (Res.ended r).
Proof.
  intros Hs. cbn [fold_left].
  rewrite (writes_flushed chunks _ (Res.statusCode r))
    by (unfold Res.write, Res.flush; now rewrite Hs).
  unfold Res.write, Res.flush. rewrite Hs. cbn. now rewrite <- app_assoc.
Qed.

Lemma end_after_writes (chunks : list Res.Chunk) (r : Res.t) :
  Res.wireStatus r = None ->
  Res.end_ (fold_left (fun r c => Res.write c r) chunks r)
  = Res.mk (Res.statusCode r) (Res.headers r) (Some (Res.statusCode r))
           (Res.wire r ++ chunks) true.
Proof.
  intros Hs. destruct chunks as [| c chunks].
  - cbn [fold_left]. unfold Res.end_, Res.flush. rewrite Hs, app_nil_r. reflexivity.
  - rewrite writes_nonempty by exact Hs. reflexivity.
Qed.

Lemma export_headers_set (today : string) :
  (r1 <- Res.setHeader "Content-Type" Exporter.mimeType Res.fresh ;;
   Res.setHeader "Content-Disposition"
     ("attachment; filename=" ++ Exporter.dquote ++
        ("student_performance_" ++ today ++ ".xlsx") ++ Exporter.dquote)%string r1)
  = JS.Ok (Res.mk 200 (Spec.exportHeaders today) None [] false).
Proof. reflexivity. Qed.

(** What the handler leaves on the response, by the way the run goes. *)
Lemma export_cases `{rt : Runtime} (st : Store.t) (run : WriterRun)
    (today : string) (q : Req.Query) :
  let r := Exporter.exportStudentPerformance st run today q in
  match Store.findSessions st (Admin.exportQuery q) (Some ("createdAt", -1))
          None None with
  | JS.Throw e =>
      r = Res.mk 500 Spec.errorHeaders (Some 500)
            [Res.Json false Spec.exportError e] true
  | JS.Ok found =>
      let chunks :=
        map Res.Bytes
          (xlsxSerialize (Exporter.buildWorksheet (Store.populate st found))) in
      match run with
      | Completes => r = Res.mk 200 (Spec.exportHeaders today) (Some 200) chunks true
      | Fails e =>
          r = Res.mk 500 (Spec.lateErrorHeaders today) (Some 500)
                [Res.Json false Spec.exportError e] true
      end
  end.
Proof.
  intros r. subst r.
  unfold Exporter.exportStudentPerformance, Exporter.exportAttempt.
  destruct (Store.findSessions st (Admin.exportQuery q) (Some ("createdAt", -1))
              None None) as [found | e].
  - cbv zeta. rewrite export_headers_set.
    destruct run as [| e]; unfold Exporter.xlsxWrite.
    + rewrite end_after_writes by reflexivity. reflexivity.
    + reflexivity.
  - reflexivity.
Qed.

Lemma export_found `{rt : Runtime} (st : Store.t) (q : Req.Query)
    (matches : GameSession.t -> bool) :
  Store.online st = true ->
  Store.compileSessionFilter (Admin.exportQuery q) = JS.Ok matches ->
  Store.findSessions st (Admin.exportQuery q) (Some ("createdAt", -1)) None None
  = JS.Ok (Store.sortDocs Store.sessionKey (Some ("createdAt", -1))
             (filter matches (Store.gameSessions st))).
Proof.
  intros Hon Hc. unfold Store.findSessions, Store.connected.
  rewrite Hon. cbn [JS.bind]. rewrite Hc. reflexivity.
Qed.

(** C2: the worksheet of an export of N sessions has the header row, then
    one row per session in the order of the sessions; for N > 0 a blank
    row and five summary rows follow: the label row, Total Sessions = N,
    and the averages of score, percentage (with a percent sign) and
    time.  Each average is the mean as double arithmetic gives it (the
    values added one after the other, every partial sum rounded to the
    nearest double, the sum divided by N and rounded), and its cell is
    that double with two decimals: the nearest hundredths, digits, a
    point and two digits.  For scores and times whose magnitudes sum to
    at most 2^53 - 1 the average is the double nearest to the arithmetic
    mean.  The averages are below 2^55, where [toFixed] prints plain
    decimals.  For N = 0 the header is the only row.  A completed export
    sends the serialization of this worksheet.  The sessions are fewer
    than 2^32, the length an array can have, and the numbers of
    magnitude at most 2^53 - 1. *)
Theorem C2_export_rows `{rt : Runtime} (st : Store.t) (today : string)
    (q : Req.Query) (matches : GameSession.t -> bool) :
  Store.online st = true ->
  Store.compileSessionFilter (Admin.exportQuery q) = JS.Ok matches ->
  let sessions := Spec.exported st matches in
  let ws := Exporter.buildWorksheet sessions in
  let scores := map (fun ps => GameSession.score (fst ps)) sessions in
  let percentages := map (fun ps => GameSession.percentage (fst ps)) sessions in
  let times := map (fun ps => GameSession.timeTakenSeconds (fst ps)) sessions in
  Z.of_nat (List.length sessions) < 2 ^ 32 ->
  (forall z, In z scores \/ In z times -> Spec.safeInteger z) ->
  (forall p, In p percentages -> (Qabs p <= inject_Z Spec.maxSafeInteger)%Q) ->
  Res.wire (Exporter.exportStudentPerformance st Completes today q)
    = map Res.Bytes (xlsxSerialize ws)
  /\ (sessions = [] -> Sheet.rows ws = [Spec.headerRow])
  /\ (sessions <> [] ->
      exists (avgScore avgPercentage avgTime : Q) (score percentage time : string),
        Sheet.rows ws
        = Spec.headerRow :: map Spec.dataRow sessions
          ++ [ Spec.blankRow;
               Sheet.mkRow (Sheet.CStr "SUMMARY STATISTICS" :: Exporter.emptyCells 11)
                           Exporter.summaryStyle;
               Spec.summaryRow "Total Sessions"
                 (Sheet.CNum (inject_Z (Z.of_nat (List.length sessions))));
               Spec.summaryRow "Average Score" (Sheet.CStr score);
               Spec.summaryRow "Average Percentage"
                 (Sheet.CStr (percentage ++ "%")%string);
               Spec.summaryRow "Average Time (seconds)" (Sheet.CStr time) ]
        /\ Spec.floatMean (map inject_Z scores) avgScore
        /\ Spec.fixed2 avgScore score
        /\ Spec.floatMean percentages avgPercentage
        /\ Spec.fixed2 avgPercentage percentage
        /\ Spec.floatMean (map inject_Z times) avgTime
        /\ Spec.fixed2 avgTime time
        /\ (Spec.absSum scores <= Spec.maxSafeInteger ->
            Spec.nearestDouble (Spec.meanZ scores) avgScore)
        /\ (Spec.absSum times <= Spec.maxSafeInteger ->
            Spec.nearestDouble (Spec.meanZ times) avgTime)
        /\ (Qabs avgScore <= inject_Z (2 ^ 55))%Q
        /\ (Qabs avgPercentage <= inject_Z (2 ^ 55))%Q
        /\ (Qabs avgTime <= inject_Z (2 ^ 55))%Q)
  /\ List.length (Sheet.rows ws)
     = (1 + List.length sessions
        + match sessions with [] => 0 | _ :: _ => 6 end)%nat.
Proof.
  intros Hon Hc sessions ws scores percentages times Hlen Hint Hpct.
  split; [| split; [| split]].
  - pose proof (export_cases st Completes today q) as H. cbv zeta in H.
    rewrite (export_found st q matches Hon Hc) in H. rewrite H. reflexivity.
  - intros E. unfold ws. rewrite buildWorksheet_rows, E. reflexivity.
  - intros Hne.
    assert (Hs : forall ps, In ps sessions ->
                   (Qabs (inject_Z (GameSession.score (fst ps)))
                    <= inject_Z Spec.maxSafeInteger)%Q).
    { intros ps Hps. apply safeInteger_Qabs, Hint. left.
      unfold scores. apply (in_map (fun ps => GameSession.score (fst ps))), Hps. }
    assert (Ht : forall ps, In ps sessions ->
                   (Qabs (inject_Z (GameSession.timeTakenSeconds (fst ps)))
                    <= inject_Z Spec.maxSafeInteger)%Q).
    { intros ps Hps. apply safeInteger_Qabs, Hint. right.
      unfold times.
      apply (in_map (fun ps => GameSession.timeTakenSeconds (fst ps))), Hps. }
    assert (Hp : forall ps, In ps sessions ->
                   (Qabs (GameSession.percentage (fst ps))
                    <= inject_Z Spec.maxSafeInteger)%Q).
    { intros ps Hps. apply Hpct. unfold percentages.
      apply (in_map (fun ps => GameSession.percentage (fst ps))), Hps. }
    destruct (average_cell (fun s => inject_Z (GameSession.score s)) sessions
                Hne Hlen Hs) as (Hs1 & Hs2 & Hs3).
    destruct (average_cell GameSession.percentage sessions Hne Hlen Hp)
      as (Hp1 & Hp2 & Hp3).
    destruct (average_cell (fun s => inject_Z (GameSession.timeTakenSeconds s))
                sessions Hne Hlen Ht) as (Ht1 & Ht2 & Ht3).
    rewrite <- (map_map (fun ps => GameSession.score (fst ps)) inject_Z) in Hs1.
    rewrite <- (map_map (fun ps => GameSession.timeTakenSeconds (fst ps)) inject_Z)
      in Ht1.
    exists (Exporter.averageZ GameSession.score sessions),
           (Exporter.averageQ GameSession.percentage sessions),
           (Exporter.averageZ GameSession.timeTakenSeconds sessions),
           (JS.toFixed2 (Exporter.averageZ GameSession.score sessions)),
           (JS.toFixed2 (Exporter.averageQ GameSession.percentage sessions)),
           (JS.toFixed2 (Exporter.averageZ GameSession.timeTakenSeconds sessions)).
    split.
    { unfold ws. rewrite buildWorksheet_rows.
      destruct sessions as [| ps rest] eqn:E; [congruence |]. reflexivity. }
    split; [exact Hs1 |]. split; [exact Hs3 |].
    split; [exact Hp1 |]. split; [exact Hp3 |].
    split; [exact Ht1 |]. split; [exact Ht3 |].
    split.
    { intros Hsum. apply (averageZ_exact GameSession.score sessions Hne Hsum). }
    split.
    { intros Hsum.
      apply (averageZ_exact GameSession.timeTakenSeconds sessions Hne Hsum). }
    split; [exact Hs2 |]. split; [exact Hp2 | exact Ht2].
  - unfold ws. rewrite buildWorksheet_rows. cbn [List.length].
    rewrite length_app, length_map. clearbody sessions.
    destruct sessions; unfold Spec.summaryRows; cbn [List.length]; lia.
Qed.

(** The two sample sessions, with the scores 8 and 6, the percentages 80
    and 60 and a minute each: nine rows, of which the writer of the
    sample runtime sends the first cells; the averages are 7, 70 and 60
    and their cells 7.00, 70.00% and 60.00. *)
Lemma C2_export_rows_witness :
  Res.wire (Exporter.exportStudentPerformance (rt := Sample.runtime)
              (Sample.store Sample.levelOne) Completes "2024-01-01" Req.empty)
  = [ Res.Bytes "Student Name|Asha|Asha||SUMMARY STATISTICS|Total Sessions|Average Score|Average Percentage|Average Time (seconds)" ]
  /\ exists (ws : Sheet.Worksheet) (avgScore avgPercentage avgTime : Q),
       Res.wire (Exporter.exportStudentPerformance (rt := Sample.runtime)
                   (Sample.store Sample.levelOne) Completes "2024-01-01" Req.empty)
       = map Res.Bytes (xlsxSerialize (Runtime := Sample.runtime) ws)
       /\ skipn 5 (Sheet.rows ws)
       = [ Spec.summaryRow "Total Sessions" (Sheet.CNum (2 # 1));
           Spec.summaryRow "Average Score" (Sheet.CStr "7.00");
           Spec.summaryRow "Average Percentage" (Sheet.CStr "70.00%");
           Spec.summaryRow "Average Time (seconds)" (Sheet.CStr "60.00") ]
       /\ Spec.floatMean [8 # 1; 6 # 1]%Q avgScore
       /\ Spec.fixed2 avgScore "7.00"
       /\ Spec.floatMean [80 # 1; 60 # 1]%Q avgPercentage
       /\ Spec.fixed2 avgPercentage "70.00"
       /\ Spec.floatMean [60 # 1; 60 # 1]%Q avgTime
       /\ Spec.fixed2 avgTime "60.00"
       /\ Spec.nearestDouble (14 # 2) avgScore.
Proof.
  destruct (C2_export_rows (rt := Sample.runtime) (Sample.store Sample.levelOne)
              "2024-01-01" Req.empty _ eq_refl eq_refl)
    as (Hwire & _ & Hrows & _).
  - vm_compute. reflexivity.
  - intros z Hz. vm_compute in Hz. unfold Spec.safeInteger, Spec.maxSafeInteger.
    destruct Hz as [[<- | [<- | []]] | [<- | [<- | []]]]; lia.
  - intros p Hp. vm_compute in Hp.
    destruct Hp as [<- | [<- | []]]; apply Qle_bool_iff; reflexivity.
  - split; [rewrite Hwire; vm_compute; reflexivity |].
    destruct Hrows as (avgScore & avgPercentage & avgTime & score & percentage
                       & time & Erows & Hs1 & Hs2 & Hp1 & Hp2 & Ht1 & Ht2
                       & Hs3 & _); [discriminate |].
    assert (Ecells : score = "7.00" /\ percentage = "70.00" /\ time = "60.00").
    { apply (f_equal (skipn 6)) in Erows. vm_compute in Erows.
      inversion Erows as [[E1 E2 E3]]. subst.
      split; [reflexivity |]. split; [| reflexivity].
      clear - E2.
      destruct percentage as [| c1 [| c2 [| c3 [| c4 [| c5 [| c6 r]]]]]];
        try discriminate; inversion E2 as [[E]]; try reflexivity.
      destruct r; discriminate. }
    destruct Ecells as (-> & -> & ->).
    eexists; exists avgScore, avgPercentage, avgTime.
    split; [exact Hwire |].
    split; [rewrite Erows; reflexivity |].
    split; [exact Hs1 |]. split; [exact Hs2 |].
    split; [exact Hp1 |]. split; [exact Hp2 |].
    split; [exact Ht1 |]. split; [exact Ht2 |].
    exact (Hs3 ltac:(vm_compute; discriminate)).
Defined.

(** C2, where the cell is not the arithmetic mean with two decimals.
    Forty sessions with three points in all: the mean 3/40 = 0.075 lies
    halfway between 0.07 and 0.08, the double nearest to it lies below,
    and the cell reads 0.07, half a hundredth below the mean; it is not
    the mean rounded to the nearest hundredth with the tie upwards (nor
    to the even hundredth), which is 0.08.  Eight sessions with three
    points: the mean 3/8 = 0.375 is a double, and the cell reads 0.38,
    half a hundredth above the mean.  So the cells are not the mean
    rounded with ties downwards, to the odd hundredth or cut off
    either: no rule for the tie gives both. *)
Lemma C2_counterexample :
  let point := Sample.session "p" "u1" 1 1 10 (10 # 1) in
  let blank := Sample.session "z" "u1" 1 0 10 0 in
  let forty := repeat point 3 ++ repeat blank 37 in
  let eight := repeat point 3 ++ repeat blank 5 in
  let sheet l := Exporter.buildWorksheet (rt := Sample.runtime)
                   (Spec.exported (Sample.store l) (fun _ => true)) in
  Res.wire (Exporter.exportStudentPerformance (rt := Sample.runtime)
              (Sample.store forty) Completes "2024-01-01" Req.empty)
  = map Res.Bytes (xlsxSerialize (Runtime := Sample.runtime) (sheet forty))
  /\ (Spec.meanZ (map GameSession.score forty) == 3 # 40)%Q
  /\ nth_error (Sheet.rows (sheet forty)) 44
     = Some (Spec.summaryRow "Average Score" (Sheet.CStr "0.07"))
  /\ Spec.readFixed2 "0.07" = Some 7
  /\ (Spec.meanZ (map GameSession.score forty) * (100 # 1) - 7 == 1 # 2)%Q
  /\ ~ Spec.fixed2 (Spec.meanZ (map GameSession.score forty)) "0.07"
  /\ Spec.fixed2 (Spec.meanZ (map GameSession.score forty)) "0.08"
  /\ Res.wire (Exporter.exportStudentPerformance (rt := Sample.runtime)
                 (Sample.store eight) Completes "2024-01-01" Req.empty)
     = map Res.Bytes (xlsxSerialize (Runtime := Sample.runtime) (sheet eight))
  /\ (Spec.meanZ (map GameSession.score eight) == 3 # 8)%Q
  /\ nth_error (Sheet.rows (sheet eight)) 12
     = Some (Spec.summaryRow "Average Score" (Sheet.CStr "0.38"))
  /\ Spec.readFixed2 "0.38" = Some 38
  /\ (38 - Spec.meanZ (map GameSession.score eight) * (100 # 1) == 1 # 2)%Q.
Proof.
  intros point blank forty eight sheet.
  split; [vm_compute; reflexivity |].
  split; [vm_compute; reflexivity |].
  split; [vm_compute; reflexivity |].
  split; [reflexivity |].
  split; [vm_compute; reflexivity |].
  split.
  { intros (n & body & E & Hread & _ & _ & Hhi).
    replace (Spec.meanZ (map GameSession.score forty)) with (3 # 40)%Q in *
      by (vm_compute; reflexivity).
    cbn in E. subst body. vm_compute in Hread.
    inversion Hread; subst n. vm_compute in Hhi. discriminate. }
  split.
  { exists 8, "0.08".
    replace (Spec.meanZ (map GameSession.score forty)) with (3 # 40)%Q
      by (vm_compute; reflexivity).
    split; [reflexivity |]. split; [reflexivity |].
    split; [left; reflexivity |].
    split; [apply Qle_bool_iff; reflexivity | reflexivity]. }
  split; [vm_compute; reflexivity |].
  split; [vm_compute; reflexivity |].
  split; [vm_compute; reflexivity |].
  split; [reflexivity |].
  vm_compute. reflexivity.
Qed.

Lemma chain_two (a b : option string) :
  (forall n, a = Some n -> n <> "" -> Spec.firstNonEmpty [a; b] "N/A" = n)
  /\ (JS.truthy a = false -> forall n, b = Some n -> n <> "" ->
      Spec.firstNonEmpty [a; b] "N/A" = n)
  /\ (JS.truthy a = false -> JS.truthy b = false ->
      Spec.firstNonEmpty [a; b] "N/A" = "N/A").
Proof.
  unfold JS.truthy. repeat split.
  - intros n -> Hn. simpl. apply String.eqb_neq in Hn. now rewrite Hn.
  - intros Ha n -> Hn. apply String.eqb_neq in Hn.
    destruct a as [x |]; simpl; [| now rewrite Hn].
    destruct (x =? "")%string; [now rewrite Hn | discriminate].
  - intros Ha Hb.
    destruct a as [x |], b as [y |]; simpl;
      repeat match goal with
             | |- context [(?s =? "")%string] =>
                 destruct (s =? "")%string; try discriminate
             end; reflexivity.
Qed.

Lemma chain_one (a : option string) :
  (forall n, a = Some n -> n <> "" -> Spec.firstNonEmpty [a] "N/A" = n)
  /\ (JS.truthy a = false -> Spec.firstNonEmpty [a] "N/A" = "N/A").
Proof.
  unfold JS.truthy. split.
  - intros n -> Hn. simpl. apply String.eqb_neq in Hn. now rewrite Hn.
  - destruct a as [x |]; simpl; [| reflexivity].
    destruct (x =? "")%string; [reflexivity | discriminate].
Qed.

(** The user with an id, when ids are unique. *)
Lemma find_owner (users : list User.t) (owner : User.t) (id : ObjectId) :
  NoDup (map User._id users) -> In owner users -> User._id owner = id ->
  find (fun u => (User._id u =? id)%string) users = Some owner.
Proof.
  intros Hnd Hin Hid. induction users as [| u users IH]; [contradiction |].
  cbn [map] in Hnd. inversion Hnd as [| ? ? Hout Hnd']; subst.
  cbn [find]. destruct Hin as [-> | Hin].
  - now rewrite String.eqb_refl.
  - destruct (String.eqb_spec (User._id u) (User._id owner)) as [E | _].
    + exfalso. apply Hout. rewrite E. now apply in_map.
    + now apply IH.
Qed.

Lemma find_no_owner (users : list User.t) (id : ObjectId) :
  (forall u, In u users -> User._id u <> id) ->
  find (fun u => (User._id u =? id)%string) users = None.
Proof.
  intros Hno. destruct (find _ users) as [u |] eqn:E; [| reflexivity].
  apply find_some in E. destruct E as [Hin E]. apply String.eqb_eq in E.
  exfalso. exact (Hno u Hin E).
Qed.

(** C5: the export has one row for each session it finds, in their order,
    and the row of a session starts with the name, the identifier and the
    contact of the user of the store that the session belongs to (the
    user whose id the session refers to; ids are unique): the name is the
    user's external display name when there is one (not empty), else the
    stored name, else N/A; the identifier is the stored student id, else
    N/A; the contact is the user's external email, else the mobile
    number, else N/A.  A session that belongs to no user of the store has
    N/A in all three. *)
Theorem C5_row_identity `{rt : Runtime} (st : Store.t) (today : string)
    (q : Req.Query) (matches : GameSession.t -> bool) :
  Store.online st = true ->
  Store.compileSessionFilter (Admin.exportQuery q) = JS.Ok matches ->
  NoDup (map User._id (Store.users st)) ->
  let found :=
    Store.sortDocs Store.sessionKey (Some ("createdAt", -1))
      (filter matches (Store.gameSessions st)) in
  exists ws,
    Res.wire (Exporter.exportStudentPerformance st Completes today q)
      = map Res.Bytes (xlsxSerialize ws)
    /\ forall i session, nth_error found i = Some session ->
         exists name identifier contact rest style,
           nth_error (Sheet.rows ws) (S i)
             = Some (Sheet.mkRow
                       (Sheet.CStr name :: Sheet.CStr identifier
                          :: Sheet.CStr contact :: rest) style)
           /\ (forall owner,
                 In owner (Store.users st) ->
                 User._id owner = GameSession.studentId session ->
                 let display := User.azureAdDisplayName owner in
                 let stored := User.studentName owner in
                 let email := User.azureAdEmail owner in
                 let mobile := User.mobileNumber owner in
                 let ident := User.studentId owner in
                 name = Spec.firstNonEmpty [display; stored] "N/A"
                 /\ identifier = Spec.firstNonEmpty [ident] "N/A"
                 /\ contact = Spec.firstNonEmpty [email; mobile] "N/A"
                 /\ (forall n, display = Some n -> n <> "" -> name = n)
                 /\ (JS.truthy display = false ->
                     forall n, stored = Some n -> n <> "" -> name = n)
                 /\ (JS.truthy display = false -> JS.truthy stored = false ->
                     name = "N/A")
                 /\ (forall n, ident = Some n -> n <> "" -> identifier = n)
                 /\ (JS.truthy ident = false -> identifier = "N/A")
                 /\ (forall n, email = Some n -> n <> "" -> contact = n)
                 /\ (JS.truthy email = false ->
                     forall n, mobile = Some n -> n <> "" -> contact = n)
                 /\ (JS.truthy email = false -> JS.truthy mobile = false ->
                     contact = "N/A"))
           /\ ((forall u, In u (Store.users st) ->
                          User._id u <> GameSession.studentId session) ->
               name = "N/A" /\ identifier = "N/A" /\ contact = "N/A").
Proof.
  intros Hon Hc Hnd found.
  exists (Exporter.buildWorksheet (Store.populate st found)).
  split.
  { pose proof (export_cases st Completes today q) as H. cbv zeta in H.
    rewrite (export_found st q matches Hon Hc) in H. rewrite H. reflexivity. }
  intros i session Hnth.
  set (student := option_map Student.ofUser
                    (find (fun u => (User._id u =? GameSession.studentId session)%string)
                          (Store.users st))).
  assert (Hrow : nth_error (Sheet.rows (Exporter.buildWorksheet (Store.populate st found)))
                   (S i) = Some (Spec.dataRow (session, student))).
  { rewrite buildWorksheet_rows. cbn [nth_error].
    rewrite nth_error_app1
      by (rewrite length_map; unfold Store.populate; rewrite length_map;
          apply nth_error_Some; congruence).
    rewrite nth_error_map. unfold Store.populate. rewrite nth_error_map, Hnth.
    reflexivity. }
  eexists _, _, _, _, _. split; [exact Hrow |].
  split.
  - intros owner Hin Hid display stored email mobile ident.
    assert (Hst : student = Some (Student.ofUser owner)).
    { unfold student. now rewrite (find_owner _ owner _ Hnd Hin Hid). }
    rewrite Hst.
    change (Exporter.field Student.azureAdDisplayName (Some (Student.ofUser owner)))
      with display.
    change (Exporter.field Student.studentName (Some (Student.ofUser owner)))
      with stored.
    change (Exporter.field Student.azureAdEmail (Some (Student.ofUser owner)))
      with email.
    change (Exporter.field Student.mobileNumber (Some (Student.ofUser owner)))
      with mobile.
    change (Exporter.field Student.studentId (Some (Student.ofUser owner)))
      with ident.
    destruct (chain_two display stored) as [H1 [H2 H3]].
    destruct (chain_two email mobile) as [H4 [H5 H6]].
    destruct (chain_one ident) as [H7 H8].
    repeat split; assumption.
  - intros Hno.
    assert (Hst : student = None).
    { unfold student. now rewrite (find_no_owner _ _ Hno). }
    rewrite Hst. repeat split.
Qed.

(** The school exports a session of the student enrolled last, who has an
    external identity: the row carries the display name, the student id
    and the email of that student, not those of the first user. *)
Lemma C5_row_identity_witness :
  exists ws rest style,
    Res.wire (Exporter.exportStudentPerformance (rt := Sample.runtime)
                (Demo.school [Demo.visit]) Completes "2024-01-01" Req.empty)
      = map Res.Bytes (@xlsxSerialize Sample.runtime ws)
    /\ nth_error (Sheet.rows ws) 1
       = Some (Sheet.mkRow
                 (Sheet.CStr "Chidi A." :: Sheet.CStr "S-9"
                    :: Sheet.CStr "chidi@example.org" :: rest)
                 style).
Proof.
  destruct (C5_row_identity (rt := Sample.runtime) (Demo.school [Demo.visit])
              "2024-01-01" Req.empty _ eq_refl eq_refl)
    as [ws [Hwire Hrows]].
  { cbn. repeat constructor; cbn; intuition discriminate. }
  destruct (Hrows 0%nat Demo.visit eq_refl)
    as [name [identifier [contact [rest [style [E [Howner _]]]]]]].
  destruct (Howner Demo.external) as [Hn [Hi [Hc _]]];
    [cbn; auto | reflexivity |].
  exists ws, rest, style. split; [exact Hwire |].
  rewrite E, Hn, Hi, Hc. reflexivity.
Defined.

(* ------------------------------------------------------------------ *)
(** ** Failures of the listings *)











(* ------------------------------------------------------------------ *)
(** ** Search and the reported total *)

Lemma compile_search_factor `{rt : Runtime} (f : Store.SessionFilter)
    (search : string) (fetched counted : GameSession.t -> bool) :
  Store.f_or f = None ->
  Store.compileSessionFilter (Admin.withSearch f search) = JS.Ok fetched ->
  Store.compileSessionFilter f = JS.Ok counted ->
  exists matcher,
    regexCompile search = Some matcher
    /\ forall s,
         fetched s
         = counted s
           && existsb (fun path => match GameSession.getString path s with
                                   | Some v => matcher v
                                   | None => false
                                   end)
                ["studentIdentifier"; "studentId.studentName";
                 "studentId.studentId"; "studentId.mobileNumber"].
Proof.
  intros Hor. unfold Store.compileSessionFilter.
  cbn [Admin.withSearch Store.f_status Store.f_level Store.f_studentId
       Store.f_score Store.f_createdAt Store.f_or].
  rewrite Hor.
  destruct (Store.compileEq "level" (Store.f_level f)) as [pLevel | e];
    cbn [JS.bind]; [| discriminate].
  destruct (Store.compileRange "score" (Store.f_score f)) as [pScore | e];
    cbn [JS.bind]; [| discriminate].
  destruct (Store.compileRange "createdAt" (Store.f_createdAt f)) as [pCreated | e];
    cbn [JS.bind]; [| discriminate].
  cbn [Store.compileOr Admin.regexes map Store.compileRegexes].
  destruct (regexCompile search) as [matcher |]; cbn [JS.bind]; [| discriminate].
  intros E1 E2. injection E1 as <-. injection E2 as <-.
  exists matcher. split; [reflexivity |].
  intros s. cbn [existsb].
  destruct (Store.eqOpt String.eqb (Store.f_status f) (GameSession.status s)),
    (pLevel (GameSession.level s)),
    (Store.eqOpt String.eqb (Store.f_studentId f) (GameSession.studentId s)),
    (pScore (GameSession.score s)), (pCreated (GameSession.createdAt s));
    reflexivity.
Qed.

Lemma filter_length_le {A} (f g : A -> bool) (l : list A) :
  (forall x, f x = true -> g x = true) ->
  (List.length (filter f l) <= List.length (filter g l))%nat.
Proof.
  intros Himp. induction l as [| x l IH]; simpl; [lia |].
  destruct (f x) eqn:Ef.
  - rewrite (Himp x Ef). simpl. lia.
  - destruct (g x); simpl; lia.
Qed.

(** C10: with a search term the sessions of the page are those that pass
    the filter and, in addition, match the term in one of the four
    searched paths, while the total and the page count come from the
    filter alone; so the total is at least the number of sessions the
    page is taken from, and on the sample roster searched for 001 it is
    3 against 1. *)
Theorem C10_search_total :
  (forall (rt : Runtime) (st : Store.t) (q : Req.Query) (search : string)
          (p l : Z) (fetched counted : GameSession.t -> bool),
      Req.search q = Some search -> search <> "" ->
      Admin.pageOf q = Some p -> 1 <= p ->
      Admin.limitOf q = Some l -> 1 <= l ->
      Store.online st = true ->
      Store.compileSessionFilter (Admin.withSearch (Admin.sessionQuery q) search)
        = JS.Ok fetched ->
      Store.compileSessionFilter (Admin.sessionQuery q) = JS.Ok counted ->
      let total := Z.of_nat (List.length (filter counted (Store.gameSessions st))) in
      let sorted :=
        Store.sortDocs Store.sessionKey
          (Some (Admin.sortField Admin.sessionSortFields q, Admin.sortDirection q))
          (filter fetched (Store.gameSessions st)) in
      (exists matcher,
         regexCompile search = Some matcher
         /\ forall s,
              fetched s
              = counted s
                && existsb (fun path => match GameSession.getString path s with
                                        | Some v => matcher v
                                        | None => false
                                        end)
                     ["studentIdentifier"; "studentId.studentName";
                      "studentId.studentId"; "studentId.mobileNumber"])
      /\ Admin.getAllGameSessions st q
         = Success
             (map (fun s => (getSummary (fst s), snd s))
                (Store.populate st
                   (firstn (Z.to_nat l) (skipn (Z.to_nat ((p - 1) * l)) sorted))),
              Admin.mkPagination (Some p) (Some l) total
                (JS.ceilDiv total (Some l)))
      /\ Z.of_nat (List.length (filter fetched (Store.gameSessions st))) <= total)
  /\ (exists fetched items pg,
        Store.compileSessionFilter (rt := Sample.runtime)
          (Admin.effectiveSessionQuery (rt := Sample.runtime)
             (Sample.withSearch "001")) = JS.Ok fetched
        /\ Admin.getAllGameSessions (rt := Sample.runtime)
             (Sample.store Sample.roster) (Sample.withSearch "001")
           = Success (items, pg)
        /\ List.length (filter fetched Sample.roster) = 1%nat
        /\ List.length items = 1%nat
        /\ Admin.p_total pg = 3
        /\ Admin.p_pages pg = JS.Fin 1).
Proof.
  split.
  - intros rt st q search p l fetched counted Hs Hne Hp Hp1 Hl Hl1 Hon Hf Hc
      total sorted.
    assert (Heff : Admin.effectiveSessionQuery q
                   = Admin.withSearch (Admin.sessionQuery q) search).
    { unfold Admin.effectiveSessionQuery. rewrite Hs. cbn [Admin.orDefault JS.truthy].
      apply String.eqb_neq in Hne. rewrite Hne. reflexivity. }
    destruct (compile_search_factor (Admin.sessionQuery q) search fetched counted
                eq_refl Hf Hc) as [matcher [Hm Hfactor]].
    split; [exists matcher; auto |]. split.
    + rewrite <- Heff in Hf.
      apply (sessions_valid st q p l fetched counted); assumption.
    + unfold total. apply inj_le. apply filter_length_le.
      intros s Hfs. rewrite Hfactor in Hfs. apply andb_true_iff in Hfs. tauto.
  - eexists. eexists. eexists.
    split; [vm_compute; reflexivity |].
    split; [vm_compute; reflexivity |].
    repeat split; reflexivity.
Qed.

(** The sample roster searched for 001, by the general statement. *)
Lemma C10_search_total_witness :
  exists items,
    Admin.getAllGameSessions (rt := Sample.runtime)
      (Sample.store Sample.roster) (Sample.withSearch "001")
    = Success (items, Admin.mkPagination (Some 1) (Some 20) 3 (JS.Fin 1))
    /\ List.length items = 1%nat.
Proof.
  destruct C10_search_total as [Hgeneral _].
  destruct (Hgeneral Sample.runtime (Sample.store Sample.roster)
              (Sample.withSearch "001") "001" 1 20 _ _
              eq_refl ltac:(discriminate) eq_refl ltac:(lia) eq_refl ltac:(lia)
              eq_refl eq_refl eq_refl)
    as [_ [E _]].
  eexists. split; [exact E | reflexivity].
Defined.

(* ------------------------------------------------------------------ *)
(** ** Failures of the export *)

(** C9: when the export fails, because the query fails or because the
    writer rejects, the caller receives the status 500 and the structured
    error, with success false and the message of the handler, and no byte
    of the document: what was built is dropped.  The response carries the
    status 200 only when the writer has completed, and then the whole
    document is on the wire.  Every response is ended, and it is one of
    these two. *)
Theorem C9_export_failures `{rt : Runtime} (st : Store.t) (run : WriterRun)
    (today : string) (q : Req.Query) :
  let r := Exporter.exportStudentPerformance st run today q in
  let query :=
    Store.findSessions st (Admin.exportQuery q) (Some ("createdAt", -1)) None None in
  let document found :=
    map Res.Bytes
      (xlsxSerialize (Exporter.buildWorksheet (Store.populate st found))) in
  (forall e,
     query = JS.Throw e \/ (exists found, query = JS.Ok found /\ run = Fails e) ->
     Res.statusCode r = 500 /\ Res.wireStatus r = Some 500
     /\ Res.wire r = [Res.Json false "Failed to export student performance data" e]
     /\ Res.ended r = true)
  /\ (forall e, query = JS.Throw e ->
        Res.getHeader "Content-Type" r = Some "application/json; charset=utf-8")
  /\ (forall found,
        query = JS.Ok found -> run = Completes ->
        r = Res.mk 200 (Spec.exportHeaders today) (Some 200) (document found) true)
  /\ Res.ended r = true
  /\ (Res.wireStatus r = Some 200 ->
      run = Completes /\ exists found, query = JS.Ok found /\ Res.wire r = document found)
  /\ (forall c, In c (Res.wire r) -> Spec.isDocumentBytes c = true ->
        run = Completes /\ Res.wireStatus r = Some 200
        /\ exists found, query = JS.Ok found /\ Res.wire r = document found)
  /\ (Res.wireStatus r <> Some 200 ->
      exists e,
        Res.wireStatus r = Some 500
        /\ Res.wire r = [Res.Json false "Failed to export student performance data" e]).
Proof.
  intros r query document.
  pose proof (export_cases st run today q) as H. cbv zeta in H.
  fold r query in H.
  destruct query as [found | e0] eqn:E.
  - fold (document found) in H. destruct run as [| e1]; rewrite H.
    + split; [intros e [Ht | [f [_ Hr]]]; [discriminate Ht | discriminate Hr] |].
      split; [intros e Ht; discriminate Ht |].
      split; [intros f Ef _; inversion Ef; reflexivity |].
      split; [reflexivity |].
      split; [intros _; split; [reflexivity | exists found; split; reflexivity] |].
      split.
      * intros c _ _. split; [reflexivity |]. split; [reflexivity |].
        exists found. split; reflexivity.
      * intros Hn. exfalso. apply Hn. reflexivity.
    + split.
      { intros e [Ht | [f [_ Hr]]]; [discriminate Ht |].
        inversion Hr. repeat split. }
      split; [intros e Ht; discriminate Ht |].
      split; [intros f _ Hr; discriminate Hr |].
      split; [reflexivity |].
      split; [intros Hs; discriminate Hs |].
      split.
      * intros c [<- | []] Hc. discriminate Hc.
      * intros _. exists e1. split; reflexivity.
  - rewrite H.
    split.
    { intros e [Ht | [f [Hq _]]]; [| discriminate Hq].
      inversion Ht. repeat split. }
    split; [intros e _; reflexivity |].
    split; [intros f Hq; discriminate Hq |].
    split; [reflexivity |].
    split; [intros Hs; discriminate Hs |].
    split.
    + intros c [<- | []] Hc. discriminate Hc.
    + intros _. exists e0. split; reflexivity.
Qed.

(** A failure of the query, and a writer that rejects. *)
Lemma C9_export_failures_witness :
  Res.wire (Exporter.exportStudentPerformance (rt := Sample.runtime)
              (Store.mk [] Sample.levelOne [] false) Completes "2024-01-01"
              Req.empty)
  = [Res.Json false "Failed to export student performance data" "store unavailable"]
  /\ Res.wire (Exporter.exportStudentPerformance (rt := Sample.runtime)
                 (Sample.store Sample.levelOne) (Fails "out of memory")
                 "2024-01-01" Req.empty)
     = [Res.Json false "Failed to export student performance data" "out of memory"]
  /\ Res.wireStatus (Exporter.exportStudentPerformance (rt := Sample.runtime)
                       (Sample.store Sample.levelOne) (Fails "out of memory")
                       "2024-01-01" Req.empty)
     = Some 500.
Proof.
  destruct (C9_export_failures (rt := Sample.runtime)
              (Store.mk [] Sample.levelOne [] false) Completes "2024-01-01" Req.empty)
    as [Hquery _].
  destruct (C9_export_failures (rt := Sample.runtime)
              (Sample.store Sample.levelOne) (Fails "out of memory")
              "2024-01-01" Req.empty)
    as [Hwriter _].
  destruct (Hquery "store unavailable" (or_introl eq_refl)) as [_ [_ [Hw _]]].
  destruct (Hwriter "out of memory"
              (or_intror (ex_intro _ _ (conj eq_refl eq_refl))))
    as [_ [Hs [Hw' _]]].
  split; [exact Hw | split; [exact Hw' | exact Hs]].
Defined.

(* ------------------------------------------------------------------ *)
(** * Further properties of the controller *)

(** ** What a listing can contain *)

Lemma insertBy_perm_any {A} (leb : A -> A -> bool) (x : A) (l : list A) :
  Permutation (Store.insertBy leb x l) (x :: l).
Proof.
  induction l as [| y l IH]; simpl.
  - apply Permutation_refl.
  - destruct (leb x y).
    + apply Permutation_refl.
    + eapply perm_trans; [apply perm_skip, IH | apply perm_swap].
Qed.

Lemma sortBy_perm_any {A} (leb : A -> A -> bool) (l : list A) :
  Permutation (Store.sortBy leb l) l.
Proof.
  induction l as [| x l IH]; simpl.
  - constructor.
  - eapply perm_trans; [apply insertBy_perm_any | now apply perm_skip].
Qed.

Lemma sortDocs_perm {A} (key : string -> A -> Store.SortKey)
    (spec : option (string * Z)) (l : list A) :
  Permutation (Store.sortDocs key spec l) l.
Proof.
  destruct spec as [[field dir] |]; simpl.
  - apply sortBy_perm_any.
  - apply Permutation_refl.
Qed.

Lemma skipn_In {A} (n : nat) (l : list A) (x : A) : In x (skipn n l) -> In x l.
Proof.
  intros H. rewrite <- (firstn_skipn n l). apply in_or_app. now right.
Qed.

Lemma firstn_In {A} (n : nat) (l : list A) (x : A) : In x (firstn n l) -> In x l.
Proof.
  intros H. rewrite <- (firstn_skipn n l). apply in_or_app. now left.
Qed.

Lemma applySkip_incl `{rt : Runtime} {A} (skip : option num) (l l' : list A) :
  Store.applySkip skip l = JS.Ok l' -> incl l' l.
Proof.
  unfold Store.applySkip. destruct skip as [[k |] |]; try discriminate.
  - destruct (k <? 0); [discriminate |]. intros E. injection E as <-.
    intros x Hx. eapply skipn_In. exact Hx.
  - intros E. injection E as <-. apply incl_refl.
Qed.

Lemma applyLimit_incl `{rt : Runtime} {A} (limit : option num) (l l' : list A) :
  Store.applyLimit limit l = JS.Ok l' -> incl l' l.
Proof.
  unfold Store.applyLimit. destruct limit as [[k |] |]; try discriminate.
  - destruct (k =? 0); intros E; injection E as <-.
    + apply incl_refl.
    + intros x Hx. eapply firstn_In. exact Hx.
  - intros E. injection E as <-. apply incl_refl.
Qed.

Lemma findUsers_incl `{rt : Runtime} (st : Store.t) (f : Store.UserFilter)
    (sort : option (string * Z)) (skip limit : option num) (l : list User.t) :
  Store.findUsers st f sort skip limit = JS.Ok l ->
  exists matches,
    Store.online st = true
    /\ Store.compileUserFilter f = JS.Ok matches
    /\ incl l (filter matches (Store.users st)).
Proof.
  unfold Store.findUsers, Store.connected.
  destruct (Store.online st); cbn [JS.bind]; [| discriminate].
  destruct (Store.compileUserFilter f) as [matches | e]; cbn [JS.bind];
    [| discriminate].
  destruct (Store.applySkip skip _) as [l1 | e] eqn:Es; cbn [JS.bind];
    [| discriminate].
  intros El. exists matches. repeat split.
  intros x Hx. apply (applyLimit_incl _ _ _ El) in Hx.
  apply (applySkip_incl _ _ _ Es) in Hx.
  eapply Permutation_in; [apply sortDocs_perm | exact Hx].
Qed.

Lemma findSessions_incl `{rt : Runtime} (st : Store.t) (f : Store.SessionFilter)
    (sort : option (string * Z)) (skip limit : option num)
    (l : list GameSession.t) :
  Store.findSessions st f sort skip limit = JS.Ok l ->
  exists matches,
    Store.online st = true
    /\ Store.compileSessionFilter f = JS.Ok matches
    /\ incl l (filter matches (Store.gameSessions st)).
Proof.
  unfold Store.findSessions, Store.connected.
  destruct (Store.online st); cbn [JS.bind]; [| discriminate].
  destruct (Store.compileSessionFilter f) as [matches | e]; cbn [JS.bind];
    [| discriminate].
  destruct (Store.applySkip skip _) as [l1 | e] eqn:Es; cbn [JS.bind];
    [| discriminate].
  intros El. exists matches. repeat split.
  intros x Hx. apply (applyLimit_incl _ _ _ El) in Hx.
  apply (applySkip_incl _ _ _ Es) in Hx.
  eapply Permutation_in; [apply sortDocs_perm | exact Hx].
Qed.

Lemma studentQuery_matches `{rt : Runtime} (q : Req.Query)
    (matches : User.t -> bool) (u : User.t) :
  Store.compileUserFilter (Admin.studentQuery q) = JS.Ok matches ->
  matches u = true ->
  User.role u = "student" /\ User.isActive u = true.
Proof.
  unfold Store.compileUserFilter.
  change (Store.u_role (Admin.studentQuery q)) with (Some "student").
  change (Store.u_isActive (Admin.studentQuery q)) with (Some true).
  change (Store.u_createdAt (Admin.studentQuery q)) with (@None Store.Range).
  cbn [Store.compileRange JS.bind].
  destruct (Store.compileOr User.getString _) as [pOr | e]; cbn [JS.bind];
    [| discriminate].
  intros E. injection E as <-.
  rewrite !andb_true_iff. intros [[[Hrole Hactive] _] _].
  split.
  - symmetry. apply String.eqb_eq. exact Hrole.
  - unfold Store.eqOpt in Hactive.
    destruct (User.isActive u); [reflexivity | discriminate].
Qed.

(** X1: whatever the page, the limit, the search and the sort parameters, a
    student listing that succeeds holds only users of the store that are
    active students: no administrator and no deactivated account is ever
    listed. *)
Theorem X_students_listed_are_active `{rt : Runtime} (st : Store.t)
    (q : Req.Query) (items : list User.t) (pg : Admin.Pagination) :
  Admin.getAllStudents st q = Success (items, pg) ->
  Forall (fun u => In u (Store.users st)
                   /\ User.role u = "student"
                   /\ User.isActive u = true) items.
Proof.
  unfold Admin.getAllStudents.
  destruct (Store.findUsers st _ _ _ _) as [found | e] eqn:Ef; cbn [JS.bind];
    [| discriminate].
  destruct (Store.countUsers st _) as [total | e]; cbn [JS.bind Admin.catch];
    [| discriminate].
  intros E. injection E as <- _.
  destruct (findUsers_incl _ _ _ _ _ _ Ef) as [matches [_ [Hc Hincl]]].
  apply Forall_forall. intros u Hu. apply Hincl in Hu.
  apply filter_In in Hu. destruct Hu as [Hin Hm].
  split; [exact Hin |]. eapply studentQuery_matches; eauto.
Qed.

(** Of a student, an administrator and a deactivated student the
    listing shows the student. *)
Lemma X_students_listed_are_active_witness :
  Forall (fun u => In u Demo.people
                   /\ User.role u = "student"
                   /\ User.isActive u = true)
         [Sample.user "u1" "Asha"].
Proof.
  apply (X_students_listed_are_active (rt := Sample.runtime) (Demo.campus [])
           Req.empty _ (Admin.mkPagination (Some 1) (Some 20) 1 (JS.Fin 1))).
  vm_compute. reflexivity.
Defined.

Lemma compile_session_sound `{rt : Runtime} (f : Store.SessionFilter)
    (matches : GameSession.t -> bool) (s : GameSession.t) :
  Store.compileSessionFilter f = JS.Ok matches ->
  matches s = true ->
  (forall x, Store.f_status f = Some x -> GameSession.status s = x)
  /\ (forall z, Store.f_level f = Some (Some z) -> GameSession.level s = z)
  /\ (forall x, Store.f_studentId f = Some x -> GameSession.studentId s = x)
  /\ (forall r a, Store.f_score f = Some r -> Store.gte r = Some (Some a) ->
        a <= GameSession.score s)
  /\ (forall r b, Store.f_score f = Some r -> Store.lte r = Some (Some b) ->
        GameSession.score s <= b).
Proof.
  unfold Store.compileSessionFilter.
  destruct (Store.compileEq "level" (Store.f_level f)) as [pLevel | e] eqn:El;
    cbn [JS.bind]; [| discriminate].
  destruct (Store.compileRange "score" (Store.f_score f)) as [pScore | e] eqn:Es;
    cbn [JS.bind]; [| discriminate].
  destruct (Store.compileRange "createdAt" (Store.f_createdAt f)) as [pCreated | e];
    cbn [JS.bind]; [| discriminate].
  destruct (Store.compileOr GameSession.getString (Store.f_or f)) as [pOr | e];
    cbn [JS.bind]; [| discriminate].
  intros E. injection E as <-.
  rewrite !andb_true_iff. intros [[[[[Hst Hlv] Hsid] Hsc] _] _].
  split; [| split; [| split; [| split]]].
  - intros x Ex. rewrite Ex in Hst. symmetry. apply String.eqb_eq. exact Hst.
  - intros z Ez. rewrite Ez in El. injection El as <-.
    symmetry. apply Z.eqb_eq. exact Hlv.
  - intros x Ex. rewrite Ex in Hsid. symmetry. apply String.eqb_eq. exact Hsid.
  - intros r a Er Ea. rewrite Er in Es. unfold Store.compileRange in Es.
    rewrite Ea in Es. cbn [Store.castBound JS.bind] in Es.
    destruct (Store.castBound "score" (Store.lte r)) as [hi | e]; cbn [JS.bind] in Es;
      [| discriminate].
    injection Es as <-. apply inRange_spec in Hsc. destruct Hsc as [Hlo _].
    now apply Hlo.
  - intros r b Er Eb. rewrite Er in Es. unfold Store.compileRange in Es.
    rewrite Eb in Es.
    destruct (Store.castBound "score" (Store.gte r)) as [lo | e]; cbn [JS.bind] in Es;
      [| discriminate].
    cbn [Store.castBound JS.bind] in Es.
    injection Es as <-. apply inRange_spec in Hsc. destruct Hsc as [_ Hhi].
    now apply Hhi.
Qed.

Lemma effective_fields `{rt : Runtime} (q : Req.Query) :
  Store.f_status (Admin.effectiveSessionQuery q) = Some "completed"
  /\ Store.f_level (Admin.effectiveSessionQuery q) = Admin.levelCond q
  /\ Store.f_studentId (Admin.effectiveSessionQuery q) = JS.supplied (Req.studentId q)
  /\ Store.f_score (Admin.effectiveSessionQuery q) = Admin.scoreCond q
  /\ Store.f_createdAt (Admin.effectiveSessionQuery q) = Admin.createdAtCond q.
Proof.
  unfold Admin.effectiveSessionQuery.
  destruct (JS.truthy (Some (Admin.orDefault (Req.search q) ""))); repeat split.
Qed.

(** X2: a session listing that succeeds shows only completed sessions of the
    store, whatever the page, the sort and the search; when a level, a
    student or score bounds are given as numbers, every session shown
    has that level, that student and a score within the bounds. *)
Theorem X_sessions_listed_are_completed `{rt : Runtime} (st : Store.t)
    (q : Req.Query) (items : list (Summary * option Student.t))
    (pg : Admin.Pagination) :
  Admin.getAllGameSessions st q = Success (items, pg) ->
  exists page,
    items = map (fun s => (getSummary (fst s), snd s)) (Store.populate st page)
    /\ Forall (fun s =>
         In s (Store.gameSessions st)
         /\ GameSession.status s = "completed"
         /\ (forall z, Admin.levelCond q = Some (Some z) -> GameSession.level s = z)
         /\ (forall x, JS.supplied (Req.studentId q) = Some x ->
               GameSession.studentId s = x)
         /\ (forall m a, JS.supplied (Req.minScore q) = Some m ->
               JS.parseIntString m = Some a -> a <= GameSession.score s)
         /\ (forall m b, JS.supplied (Req.maxScore q) = Some m ->
               JS.parseIntString m = Some b -> GameSession.score s <= b)) page.
Proof.
  unfold Admin.getAllGameSessions.
  destruct (Store.findSessions st _ _ _ _) as [found | e] eqn:Ef; cbn [JS.bind];
    [| discriminate].
  destruct (Store.countSessions st _) as [total | e]; cbn [JS.bind Admin.catch];
    [| discriminate].
  intros E. injection E as <- _.
  exists found. split; [reflexivity |].
  destruct (findSessions_incl _ _ _ _ _ _ Ef) as [matches [_ [Hc Hincl]]].
  destruct (effective_fields q) as [Fst [Flv [Fsid [Fsc _]]]].
  apply Forall_forall. intros s Hs. apply Hincl in Hs.
  apply filter_In in Hs. destruct Hs as [Hin Hm].
  destruct (compile_session_sound _ _ s Hc Hm) as [Hst [Hlv [Hsid [Hlo Hhi]]]].
  split; [exact Hin |].
  split; [apply Hst; exact Fst |].
  split; [intros z Ez; apply Hlv; now rewrite Flv |].
  split; [intros x Ex; apply Hsid; now rewrite Fsid |].
  split.
  - intros m a Em Ea.
    assert (Er : exists r, Admin.scoreCond q = Some r
                           /\ Store.gte r = Some (Some a)).
    { unfold Admin.scoreCond. rewrite Em. cbn [option_map].
      destruct (JS.supplied (Req.maxScore q)); cbn [JS.parseInt];
        rewrite <- Ea; eexists; split; reflexivity. }
    destruct Er as [r [Er Eg]]. apply (Hlo r a); [now rewrite Fsc | exact Eg].
  - intros m b Em Eb.
    assert (Er : exists r, Admin.scoreCond q = Some r
                           /\ Store.lte r = Some (Some b)).
    { unfold Admin.scoreCond. rewrite Em. cbn [JS.parseInt].
      rewrite <- Eb. eexists; split; reflexivity. }
    destruct Er as [r [Er El]]. apply (Hhi r b); [now rewrite Fsc | exact El].
Qed.

(** Of a completed and an abandoned session of level 1 and a completed
    one of level 2, the listing for level 1 shows the first. *)
Lemma X_sessions_listed_are_completed_witness :
  exists page,
    [(Demo.attempt "a" "completed" 1 8 1000,
      Some (Student.ofUser (Sample.user "u1" "Asha")))]
    = map (fun s => (fst s, snd s)) (Store.populate (Demo.campus Demo.week) page)
    /\ Forall (fun s => GameSession.status s = "completed"
                        /\ GameSession.level s = 1) page.
Proof.
  destruct (X_sessions_listed_are_completed (rt := Sample.runtime)
              (Demo.campus Demo.week)
              (Req.mk None None None None None (Some "1") None None None None None None)
              [(Demo.attempt "a" "completed" 1 8 1000,
                Some (Student.ofUser (Sample.user "u1" "Asha")))]
              (Admin.mkPagination (Some 1) (Some 20) 1 (JS.Fin 1)) eq_refl)
    as [page [E Hall]].
  exists page. split; [exact E |].
  eapply Forall_impl; [| exact Hall]. cbv beta.
  intros s [_ [Hst [Hlv _]]]. split; [exact Hst | apply Hlv; reflexivity].
Defined.

(* ------------------------------------------------------------------ *)
(** ** The dashboard's numbers agree *)

Lemma total_app (l1 l2 : list Z) :
  Spec.total (l1 ++ l2) = Spec.total l1 + Spec.total l2.
Proof.
  unfold Spec.total. induction l1 as [| x l1 IH]; simpl; [reflexivity | lia].
Qed.

Lemma total_perm (l1 l2 : list Z) :
  Permutation l1 l2 -> Spec.total l1 = Spec.total l2.
Proof.
  unfold Spec.total. induction 1; simpl; lia.
Qed.

(** The sum of an additive measure over the buckets. *)
Lemma addToGroup_sum {A} (f : A -> Z) (k : Z) (d : A) (gs : list (Z * list A)) :
  Spec.total (map (fun g => Spec.total (map f (snd g))) (Store.addToGroup k d gs))
  = f d + Spec.total (map (fun g => Spec.total (map f (snd g))) gs).
Proof.
  induction gs as [| [k' ds] gs IH].
  - unfold Spec.total. simpl. lia.
  - cbn [Store.addToGroup]. destruct (k =? k').
    + cbn [map snd]. rewrite map_app, total_app.
      unfold Spec.total. simpl. lia.
    + cbn [map snd]. unfold Spec.total in *. simpl. simpl in IH. lia.
Qed.

Lemma groupBy_sum {A} (f : A -> Z) (key : A -> Z) (l : list A) :
  Spec.total (map (fun g => Spec.total (map f (snd g))) (Store.groupBy key l))
  = Spec.total (map f l).
Proof.
  induction l as [| d l IH] using rev_ind.
  - reflexivity.
  - rewrite groupBy_snoc, addToGroup_sum, IH, map_app, total_app.
    unfold Spec.total. simpl. lia.
Qed.

Lemma levelStats_sum (f : GameSession.t -> Z) (g : Admin.LevelStat -> Z)
    (docs : list GameSession.t) :
  (forall b, g (Admin.levelGroup b) = Spec.total (map f (snd b))) ->
  Spec.total (map g (Admin.levelStatsPipeline docs))
  = Spec.total (map f (filter Admin.isCompleted docs)).
Proof.
  intros Hg.
  rewrite (total_perm _ _ (Permutation_map g (levelStats_perm docs))).
  rewrite map_map. rewrite (map_ext _ _ Hg). apply groupBy_sum.
Qed.

Lemma total_ones {A} (l : list A) :
  Spec.total (map (fun _ => 1) l) = Z.of_nat (List.length l).
Proof. rewrite <- sumZ_total. apply sumZ_count. Qed.

Lemma countSessions_completed `{rt : Runtime} (st : Store.t) (n : Z) :
  Store.countSessions st Admin.completed = JS.Ok n ->
  n = Z.of_nat (List.length (filter Admin.isCompleted (Store.gameSessions st))).
Proof.
  unfold Store.countSessions, Store.connected.
  destruct (Store.online st); cbn [JS.bind]; [| discriminate].
  change (Store.compileSessionFilter Admin.completed)
    with (JS.Ok (fun s : GameSession.t =>
            Store.eqOpt String.eqb (Some "completed") (GameSession.status s)
            && true && Store.eqOpt String.eqb None (GameSession.studentId s)
            && true && true && true)).
  cbn [JS.bind]. intros E. inversion E as [En]. do 2 f_equal.
  apply filter_ext. intros s. unfold Admin.isCompleted, Store.eqOpt.
  rewrite String.eqb_sym. now rewrite !andb_true_r.
Qed.

Lemma countSessions_recent `{rt : Runtime} (st : Store.t) (since n : Z) :
  Store.countSessions st
    (Store.mkSessionFilter (Some "completed") None None None
       (Some (Store.mkRange (Some (Some since)) None)) None) = JS.Ok n ->
  0 <= n
    <= Z.of_nat (List.length (filter Admin.isCompleted (Store.gameSessions st))).
Proof.
  unfold Store.countSessions, Store.connected.
  destruct (Store.online st); cbn [JS.bind]; [| discriminate].
  change (Store.compileSessionFilter
            (Store.mkSessionFilter (Some "completed") None None None
               (Some (Store.mkRange (Some (Some since)) None)) None))
    with (JS.Ok (fun s : GameSession.t =>
            Store.eqOpt String.eqb (Some "completed") (GameSession.status s)
            && true && Store.eqOpt String.eqb None (GameSession.studentId s)
            && true
            && Store.inRange (Some since) None (GameSession.createdAt s)
            && true)).
  cbn [JS.bind]. intros E. inversion E as [En].
  split; [lia |]. apply inj_le. apply filter_length_le.
  intros s. unfold Admin.isCompleted, Store.eqOpt.
  rewrite !andb_true_iff, String.eqb_sym. tauto.
Qed.

(** X3: the numbers of a dashboard agree with each other: the completed
    sessions counted in the overview are the sum of the sessions of the
    level groups, the correct answers and the questions of the groups add
    up to those of all completed sessions, and the sessions of the last
    seven days are never more than all of them. *)
Theorem X_dashboard_totals `{rt : Runtime} (st : Store.t) (now : Z)
    (ov : Admin.Overview) (stats : list Admin.LevelStat) :
  Admin.getDashboardOverview st now = Success (ov, stats) ->
  let done := filter Admin.isCompleted (Store.gameSessions st) in
  Admin.totalSessions ov = Z.of_nat (List.length done)
  /\ Spec.total (map Admin.ls_totalSessions stats) = Admin.totalSessions ov
  /\ Spec.total (map Admin.ls_totalCorrectAnswers stats)
     = Spec.total (map GameSession.score done)
  /\ Spec.total (map Admin.ls_totalQuestions stats)
     = Spec.total (map GameSession.totalQuestions done)
  /\ 0 <= Admin.recentSessions ov <= Admin.totalSessions ov.
Proof.
  intros E done. revert E. unfold Admin.getDashboardOverview.
  destruct (Store.countUsers st _) as [n1 | e]; cbn [JS.bind Admin.catch];
    [| intros H; discriminate H].
  destruct (Store.countUsers st _) as [n2 | e]; cbn [JS.bind Admin.catch];
    [| intros H; discriminate H].
  destruct (Store.countSessions st Admin.completed) as [n3 | e] eqn:E3;
    cbn [JS.bind Admin.catch]; [| intros H; discriminate H].
  destruct (Store.countItems st true) as [n4 | e]; cbn [JS.bind Admin.catch];
    [| intros H; discriminate H].
  match goal with
  | |- context [JS.bind (Store.countSessions st ?f) _] =>
      destruct (Store.countSessions st f) as [n5 | e] eqn:E5
  end; cbn [JS.bind Admin.catch]; [| intros H; discriminate H].
  destruct (Store.countUsers st _) as [n6 | e]; cbn [JS.bind Admin.catch];
    [| intros H; discriminate H].
  destruct (Store.connected st) as [u | e]; cbn [JS.bind Admin.catch];
    [| intros H; discriminate H].
  intros E. inversion E as [[Eov Est]]. cbn [Admin.totalSessions Admin.recentSessions].
  apply countSessions_completed in E3. apply countSessions_recent in E5.
  fold done in E3, E5.
  split; [exact E3 | split; [| split; [| split]]].
  - rewrite E3. unfold done. rewrite (levelStats_sum (fun _ => 1)).
    + apply total_ones.
    + intros [k ds]. cbn [Admin.levelGroup Admin.ls_totalSessions snd].
      apply sumZ_total.
  - apply (levelStats_sum GameSession.score).
    intros [k ds]. cbn [Admin.levelGroup Admin.ls_totalCorrectAnswers snd].
    apply sumZ_total.
  - apply (levelStats_sum GameSession.totalQuestions).
    intros [k ds]. cbn [Admin.levelGroup Admin.ls_totalQuestions snd].
    apply sumZ_total.
  - rewrite E3. exact E5.
Qed.

(** Two completed sessions out of three, one of them recent. *)
Lemma X_dashboard_totals_witness :
  exists ov stats,
    Admin.getDashboardOverview (rt := Sample.runtime) (Demo.campus Demo.week) 604803000
      = Success (ov, stats)
    /\ Admin.totalSessions ov = 2
    /\ Spec.total (map Admin.ls_totalSessions stats) = 2
    /\ Admin.recentSessions ov = 1.
Proof.
  eexists. eexists. split; [vm_compute; reflexivity |].
  match goal with
  | |- Admin.totalSessions ?ov = _ /\ Spec.total (map _ ?stats) = _ /\ _ =>
      destruct (X_dashboard_totals (rt := Sample.runtime) (Demo.campus Demo.week)
                  604803000 ov stats eq_refl) as [Ht [Hs _]]
  end.
  split; [exact Ht |]. split; [rewrite Hs; exact Ht | reflexivity].
Defined.

(* ------------------------------------------------------------------ *)
(** ** Student details *)

Lemma recent_sessions `{rt : Runtime} (st : Store.t) (owner : ObjectId) :
  Store.online st = true ->
  exists recent,
    Store.findSessions st
      (Store.mkSessionFilter None None (Some owner) None None None)
      (Some ("createdAt", -1)) None (Some (Some 10)) = JS.Ok recent
    /\ (List.length recent <= 10)%nat
    /\ Forall (fun s => In s (Store.gameSessions st)
                        /\ GameSession.studentId s = owner) recent.
Proof.
  intros Hon.
  assert (Hok : exists recent,
             Store.findSessions st
               (Store.mkSessionFilter None None (Some owner) None None None)
               (Some ("createdAt", -1)) None (Some (Some 10)) = JS.Ok recent
             /\ (List.length recent <= 10)%nat).
  { unfold Store.findSessions, Store.connected, Store.compileSessionFilter.
    rewrite Hon.
    cbn [Store.f_level Store.f_score Store.f_createdAt Store.f_or Store.compileEq
         Store.compileRange Store.compileOr JS.bind Store.applySkip].
    unfold Store.applyLimit. change (10 =? 0) with false. cbv iota.
    eexists. split; [reflexivity |].
    change (Z.to_nat (Z.abs 10)) with 10%nat. apply firstn_le_length. }
  destruct Hok as [recent [E Hlen]]. exists recent.
  split; [exact E | split; [exact Hlen |]].
  destruct (findSessions_incl _ _ _ _ _ _ E) as [matches [_ [Hc Hincl]]].
  apply Forall_forall. intros s Hs. apply Hincl in Hs.
  apply filter_In in Hs. destruct Hs as [Hin Hm].
  split; [exact Hin |].
  destruct (compile_session_sound _ _ s Hc Hm) as [_ [_ [Hsid _]]].
  apply Hsid. reflexivity.
Qed.

(** X4: with the store available, the details of an id are refused with 404
    exactly when no user has the id or the user is not a student (an
    administrator is never shown); otherwise the answer is the first user
    with the id, with at most ten sessions, all of them sessions of that
    student, whatever their status. *)
Theorem X_student_details_found `{rt : Runtime} (st : Store.t) (id : ObjectId) :
  Store.online st = true ->
  match find (fun u => (User._id u =? id)%string) (Store.users st) with
  | None =>
      Admin.getStudentDetails st id = Failure 404 "Student not found" None
  | Some u =>
      User._id u = id
      /\ (User.role u <> "student" ->
          Admin.getStudentDetails st id = Failure 404 "Student not found" None)
      /\ (User.role u = "student" ->
          exists recent performance,
            Admin.getStudentDetails st id
              = Success (u, map getSummary recent, performance)
            /\ (List.length recent <= 10)%nat
            /\ Forall (fun s => In s (Store.gameSessions st)
                                /\ GameSession.studentId s = id) recent)
  end.
Proof.
  intros Hon.
  assert (Hconn : Store.connected st = JS.Ok tt)
    by (unfold Store.connected; now rewrite Hon).
  destruct (find _ (Store.users st)) as [u |] eqn:Ef.
  - assert (Hid : User._id u = id).
    { apply find_some in Ef. destruct Ef as [_ E]. now apply String.eqb_eq in E. }
    split; [exact Hid | split].
    + intros Hrole. unfold Admin.getStudentDetails, Store.findById.
      rewrite Hconn. cbn [JS.bind]. rewrite Ef.
      apply String.eqb_neq in Hrole. rewrite Hrole. reflexivity.
    + intros Hrole. unfold Admin.getStudentDetails, Store.findById.
      rewrite Hconn. cbn [JS.bind]. rewrite Ef, Hrole, String.eqb_refl.
      cbn [negb]. rewrite Hid.
      destruct (recent_sessions st id Hon) as [recent [E [Hlen Hall]]].
      rewrite E. cbn [JS.bind Admin.catch].
      exists recent. eexists. split; [reflexivity | split; assumption].
  - unfold Admin.getStudentDetails, Store.findById.
    rewrite Hconn. cbn [JS.bind]. rewrite Ef. reflexivity.
Qed.

(** The administrator of the demo store is refused, an unknown id too. *)
Lemma X_student_details_found_witness :
  Admin.getStudentDetails (rt := Sample.runtime) (Demo.campus Demo.week) "u2"
    = Failure 404 "Student not found" None
  /\ Admin.getStudentDetails (rt := Sample.runtime) (Demo.campus Demo.week) "nobody"
     = Failure 404 "Student not found" None.
Proof.
  pose proof (X_student_details_found (rt := Sample.runtime)
                (Demo.campus Demo.week) "u2" eq_refl) as Hadmin.
  pose proof (X_student_details_found (rt := Sample.runtime)
                (Demo.campus Demo.week) "nobody" eq_refl) as Hnone.
  split.
  - cbn [find Demo.campus Demo.people Store.users] in Hadmin.
    destruct Hadmin as [_ [H _]]. apply H. discriminate.
  - exact Hnone.
Defined.

(* ------------------------------------------------------------------ *)
(** ** The listing and the export *)

(** A filter that keeps the status, the level, the score and the date
    conditions of another and has no other condition accepts what the
    other accepts. *)
Lemma compile_weaker `{rt : Runtime} (f f' : Store.SessionFilter)
    (matches : GameSession.t -> bool) :
  Store.f_status f' = Store.f_status f ->
  Store.f_level f' = Store.f_level f ->
  Store.f_score f' = Store.f_score f ->
  Store.f_createdAt f' = Store.f_createdAt f ->
  Store.f_studentId f' = None ->
  Store.f_or f' = None ->
  Store.compileSessionFilter f = JS.Ok matches ->
  exists matches',
    Store.compileSessionFilter f' = JS.Ok matches'
    /\ forall s, matches s = true -> matches' s = true.
Proof.
  intros Est Elv Esc Ecr Esid Eor. unfold Store.compileSessionFilter.
  rewrite Est, Elv, Esc, Ecr, Esid, Eor.
  destruct (Store.compileEq "level" (Store.f_level f)) as [pLevel | e];
    cbn [JS.bind]; [| discriminate].
  destruct (Store.compileRange "score" (Store.f_score f)) as [pScore | e];
    cbn [JS.bind]; [| discriminate].
  destruct (Store.compileRange "createdAt" (Store.f_createdAt f)) as [pCreated | e];
    cbn [JS.bind]; [| discriminate].
  destruct (Store.compileOr GameSession.getString (Store.f_or f)) as [pOr | e];
    cbn [JS.bind Store.compileOr]; [| discriminate].
  intros E. injection E as <-. eexists. split; [reflexivity |].
  intros s. cbn [Store.eqOpt]. rewrite !andb_true_iff. tauto.
Qed.

Lemma populate_In (st : Store.t) (l l' : list GameSession.t) (ps : PopulatedSession) :
  incl l l' -> In ps (Store.populate st l) -> In ps (Store.populate st l').
Proof.
  unfold Store.populate. intros Hincl Hin.
  apply in_map_iff in Hin. destruct Hin as [s [<- Hs]].
  apply in_map_iff. exists s. split; [reflexivity | now apply Hincl].
Qed.

(** X5: everything a page of the session listing shows is in the export made
    with the same parameters: the export ignores the page, the limit, the
    sort, the search and the student, and has a row for every session of
    the page. *)
Theorem X_listing_within_export `{rt : Runtime} (st : Store.t) (q : Req.Query)
    (items : list (Summary * option Student.t)) (pg : Admin.Pagination) :
  Admin.getAllGameSessions st q = Success (items, pg) ->
  exists page all,
    items = map (fun s => (getSummary (fst s), snd s)) (Store.populate st page)
    /\ incl page all
    /\ (forall today,
          Exporter.exportStudentPerformance st Completes today q
          = Res.mk 200 (Spec.exportHeaders today) (Some 200)
              (map Res.Bytes
                 (xlsxSerialize (Exporter.buildWorksheet (Store.populate st all))))
              true)
    /\ (forall ps, In ps (Store.populate st page) ->
          In (Spec.dataRow ps)
             (Sheet.rows (Exporter.buildWorksheet (Store.populate st all)))).
Proof.
  unfold Admin.getAllGameSessions.
  destruct (Store.findSessions st _ _ _ _) as [page | e] eqn:Ef; cbn [JS.bind];
    [| discriminate].
  destruct (Store.countSessions st _) as [total | e]; cbn [JS.bind Admin.catch];
    [| discriminate].
  intros E. injection E as <- _.
  destruct (findSessions_incl _ _ _ _ _ _ Ef) as [matches [Hon [Hc Hincl]]].
  destruct (effective_fields q) as [Fst [Flv [Fsid [Fsc Fcr]]]].
  destruct (compile_weaker (Admin.effectiveSessionQuery q) (Admin.exportQuery q)
              matches (eq_sym Fst) (eq_sym Flv) (eq_sym Fsc) (eq_sym Fcr)
              eq_refl eq_refl Hc) as [matches' [Hc' Himp]].
  set (all := Store.sortDocs Store.sessionKey (Some ("createdAt", -1))
                (filter matches' (Store.gameSessions st))).
  assert (Hpage : incl page all).
  { intros s Hs. apply Hincl in Hs. apply filter_In in Hs. destruct Hs as [Hin Hm].
    eapply Permutation_in; [apply Permutation_sym, sortDocs_perm |].
    apply filter_In. split; [exact Hin | now apply Himp]. }
  exists page, all. split; [reflexivity |]. split; [exact Hpage |]. split.
  - intros today.
    pose proof (export_cases st Completes today q) as H. cbv zeta in H.
    rewrite (export_found st q matches' Hon Hc') in H. exact H.
  - intros ps Hps. rewrite buildWorksheet_rows. right.
    apply in_or_app. left. apply in_map. eapply populate_In; eauto.
Qed.

(** The level-1 page of the demo store against the export for level 1. *)
Lemma X_listing_within_export_witness :
  exists page all : list GameSession.t,
    incl page all
    /\ List.length page = 1%nat
    /\ Res.wireStatus
         (Exporter.exportStudentPerformance (rt := Sample.runtime)
            (Demo.campus Demo.week) Completes "2024-01-01"
            (Req.mk None None None None None (Some "1") None None None None None None))
       = Some 200.
Proof.
  destruct (X_listing_within_export (rt := Sample.runtime) (Demo.campus Demo.week)
              (Req.mk None None None None None (Some "1") None None None None None None)
              [(Demo.attempt "a" "completed" 1 8 1000,
                Some (Student.ofUser (Sample.user "u1" "Asha")))]
              (Admin.mkPagination (Some 1) (Some 20) 1 (JS.Fin 1)) eq_refl)
    as [page [all [E [Hincl [Hexport _]]]]].
  exists page, all. split; [exact Hincl |]. split.
  - pose proof (f_equal (fun l => List.length l) E) as El. cbv beta in El.
    unfold Store.populate in El. rewrite !length_map in El.
    symmetry. exact El.
  - rewrite Hexport. reflexivity.
Defined.

(* ------------------------------------------------------------------ *)
(** ** Numbers through the query string *)

Example toString_a : Web.toString 120 = "120".
Proof. reflexivity. Qed.
Example toString_b : Web.toString (-5) = "-5".
Proof. reflexivity. Qed.
Example toString_c : Web.toString 0 = "0".
Proof. reflexivity. Qed.
Example split_a :
  Web.split "filename=" "attachment; filename=a.xlsx" = ["attachment; "; "a.xlsx"].
Proof. reflexivity. Qed.
Example split_b : Web.split "filename=" "inline" = ["inline"].
Proof. reflexivity. Qed.

Lemma digit_cases (d : Z) :
  0 <= d <= 9 ->
  d = 0 \/ d = 1 \/ d = 2 \/ d = 3 \/ d = 4 \/ d = 5 \/ d = 6 \/ d = 7 \/ d = 8
  \/ d = 9.
Proof. lia. Qed.

Ltac each_digit H :=
  repeat (destruct H as [H | H]); subst.

Lemma digitValue_digit (d : Z) :
  0 <= d <= 9 -> JS.digitValue (Web.digit d) = Some d.
Proof. intros H. apply digit_cases in H. each_digit H; reflexivity. Qed.

Lemma digitsPrefix_digit (d : Z) (r : string) (st : option Z) :
  0 <= d <= 9 ->
  JS.digitsPrefix 10 (String (Web.digit d) r) st
  = JS.digitsPrefix 10 r (Some (match st with Some a => a * 10 + d | None => d end)).
Proof.
  intros H. cbn [JS.digitsPrefix]. rewrite (digitValue_digit d H).
  destruct (Z.ltb_spec d 10); [reflexivity | lia].
Qed.

(** Reading the digits of [n] back gives [n]. *)
Lemma digits_parse (fuel : nat) (n : Z) (acc : string) :
  0 <= n < 10 ^ Z.of_nat (S fuel) ->
  JS.digitsPrefix 10 (Web.digits (S fuel) n acc) None
  = JS.digitsPrefix 10 acc (Some n).
Proof.
  revert n acc. induction fuel as [| f IH]; intros n acc Hn.
  - change (10 ^ Z.of_nat 1) with 10 in Hn.
    cbn [Web.digits]. replace (if n <? 10 then _ else _)
      with (String (Web.digit (n mod 10)) acc) by (now destruct (n <? 10)).
    rewrite digitsPrefix_digit by (rewrite Z.mod_small; lia).
    rewrite Z.mod_small by lia. reflexivity.
  - change (Web.digits (S (S f)) n acc)
      with (if n <? 10 then String (Web.digit (n mod 10)) acc
            else Web.digits (S f) (n / 10) (String (Web.digit (n mod 10)) acc)).
    destruct (Z.ltb_spec n 10) as [Hlt | Hge].
    + rewrite digitsPrefix_digit by (rewrite Z.mod_small; lia).
      rewrite Z.mod_small by lia. reflexivity.
    + assert (Hdiv : 0 <= n / 10 < 10 ^ Z.of_nat (S f)).
      { split; [apply Z.div_pos; lia |].
        apply Z.div_lt_upper_bound; [lia |].
        replace (10 * 10 ^ Z.of_nat (S f)) with (10 ^ Z.of_nat (S (S f))); [lia |].
        rewrite (Nat2Z.inj_succ (S f)), Z.pow_succ_r by lia. reflexivity. }
      rewrite (IH _ _ Hdiv).
      rewrite digitsPrefix_digit
        by (pose proof (Z.mod_pos_bound n 10 ltac:(lia)); lia).
      f_equal. f_equal. pose proof (Z.div_mod n 10 ltac:(lia)). lia.
Qed.

(** The shape of a printed number: a digit, then nothing or a digit. *)
Lemma digits_shape (fuel : nat) (n : Z) (acc : string) :
  0 <= n ->
  exists d r,
    0 <= d <= 9
    /\ Web.digits (S fuel) n acc = String (Web.digit d) r
    /\ (r = acc \/ exists d' r', 0 <= d' <= 9 /\ r = String (Web.digit d') r').
Proof.
  revert n acc. induction fuel as [| f IH]; intros n acc Hn.
  - cbn [Web.digits]. exists (n mod 10), acc.
    split; [pose proof (Z.mod_pos_bound n 10 ltac:(lia)); lia |].
    split; [now destruct (n <? 10) | now left].
  - change (Web.digits (S (S f)) n acc)
      with (if n <? 10 then String (Web.digit (n mod 10)) acc
            else Web.digits (S f) (n / 10) (String (Web.digit (n mod 10)) acc)).
    destruct (n <? 10).
    + exists (n mod 10), acc.
      split; [pose proof (Z.mod_pos_bound n 10 ltac:(lia)); lia |].
      split; [reflexivity | now left].
    + destruct (IH (n / 10) (String (Web.digit (n mod 10)) acc))
        as [d [r [Hd [E Hr]]]]; [apply Z.div_pos; lia |].
      exists d, r. split; [exact Hd |]. split; [exact E |].
      right. destruct Hr as [-> | Hr]; [| exact Hr].
      exists (n mod 10), acc.
      split; [pose proof (Z.mod_pos_bound n 10 ltac:(lia)); lia | reflexivity].
Qed.

Lemma log2_fuel (n : Z) : 0 <= n -> n < 10 ^ Z.of_nat (S (Z.to_nat (Z.log2 n))).
Proof.
  intros Hn. rewrite Nat2Z.inj_succ, Z2Nat.id by apply Z.log2_nonneg.
  destruct (Z.eq_dec n 0) as [-> | Hne]; [reflexivity |].
  pose proof (Z.log2_spec n ltac:(lia)) as [_ Hlt].
  eapply Z.lt_le_trans; [exact Hlt |].
  apply Z.pow_le_mono_l. pose proof (Z.log2_nonneg n). lia.
Qed.

(** A string that starts as a printed number is parsed from its digits. *)
Lemma parse_digits_string (s : string) (d : Z) (r : string) :
  0 <= d <= 9 ->
  s = String (Web.digit d) r ->
  (r = "" \/ exists d' r', 0 <= d' <= 9 /\ r = String (Web.digit d') r') ->
  JS.parseIntString s = option_map (Z.mul 1) (JS.digitsPrefix 10 s None)
  /\ JS.parseIntString (String "-"%char s)
     = option_map (Z.mul (-1)) (JS.digitsPrefix 10 s None).
Proof.
  intros Hd -> Hr. apply digit_cases in Hd.
  destruct Hr as [-> | [d' [r' [Hd' ->]]]].
  - each_digit Hd; split; reflexivity.
  - apply digit_cases in Hd'. each_digit Hd; each_digit Hd'; split; reflexivity.
Qed.

(** [parseInt(n.toString())] is [n], for every integer [n]. *)
Lemma parseInt_toString (z : Z) : JS.parseIntString (Web.toString z) = Some z.
Proof.
  unfold Web.toString. destruct (Z.ltb_spec z 0) as [Hneg | Hpos].
  - destruct (digits_shape (Z.to_nat (Z.log2 (- z))) (- z) "" ltac:(lia))
      as [d [r [Hd [E Hr]]]].
    destruct (parse_digits_string _ d r Hd E Hr) as [_ ->].
    rewrite digits_parse by (split; [lia | apply log2_fuel; lia]).
    cbn [JS.digitsPrefix option_map]. f_equal. lia.
  - destruct (digits_shape (Z.to_nat (Z.log2 z)) z "" Hpos) as [d [r [Hd [E Hr]]]].
    destruct (parse_digits_string _ d r Hd E Hr) as [-> _].
    rewrite digits_parse by (split; [lia | apply log2_fuel; lia]).
    cbn [JS.digitsPrefix option_map]. f_equal. lia.
Qed.

(* ------------------------------------------------------------------ *)
(** ** The pages of a listing *)

Lemma firstn_add_skipn {A} (a b : nat) (xs : list A) :
  firstn (a + b) xs = firstn a xs ++ firstn b (skipn a xs).
Proof.
  revert xs. induction a as [| a IH]; intros xs; simpl.
  - reflexivity.
  - destruct xs as [| x xs]; simpl.
    + now rewrite firstn_nil.
    + now rewrite IH.
Qed.

(** Consecutive windows of [c] elements make up a prefix. *)
Lemma windows_concat {A} (c n : nat) (xs : list A) :
  List.concat (map (fun k => firstn c (skipn (k * c) xs)) (seq 0 n))
  = firstn (n * c) xs.
Proof.
  induction n as [| n IH].
  - reflexivity.
  - rewrite seq_S, map_app, concat_app, IH. cbn [map List.concat plus].
    rewrite app_nil_r. rewrite <- firstn_add_skipn. f_equal. lia.
Qed.

Section SortByOrder.
Context {A : Type} (leb : A -> A -> bool).
Hypothesis leb_total : forall a b, leb a b = false -> leb b a = true.
Hypothesis leb_trans :
  forall a b c, leb a b = true -> leb b c = true -> leb a c = true.

Lemma insertBy_sorted_any (x : A) (l : list A) :
  StronglySorted (fun a b => leb a b = true) l ->
  StronglySorted (fun a b => leb a b = true) (Store.insertBy leb x l).
Proof.
  induction l as [| y l IH]; simpl; intros Hs.
  - constructor; constructor.
  - inversion Hs as [| ? ? Hs' Hall]; subst.
    destruct (leb x y) eqn:Exy.
    + constructor; [exact Hs |]. constructor; [exact Exy |].
      eapply Forall_impl; [| exact Hall]. intros z Hz. eapply leb_trans; eauto.
    + constructor; [now apply IH |].
      eapply Permutation_Forall; [apply Permutation_sym, insertBy_perm_any |].
      constructor; [now apply leb_total | exact Hall].
Qed.

Lemma sortBy_sorted_any (l : list A) :
  StronglySorted (fun a b => leb a b = true) (Store.sortBy leb l).
Proof.
  induction l as [| x l IH]; simpl.
  - constructor.
  - now apply insertBy_sorted_any.
Qed.
End SortByOrder.


Lemma Qle_bool_inject (x y : Z) :
  Qle_bool (inject_Z x) (inject_Z y) = true <-> x <= y.
Proof. rewrite Qle_bool_iff, <- Zle_Qle. reflexivity. Qed.

Lemma StronglySorted_weaken {A} (R R' : A -> A -> Prop) (l : list A) :
  (forall a b, R a b -> R' a b) -> StronglySorted R l -> StronglySorted R' l.
Proof.
  intros Himp. induction 1 as [| x l Hs IH Hall]; constructor; auto.
  eapply Forall_impl; [| exact Hall]. auto.
Qed.

(* ------------------------------------------------------------------ *)
(** ** The order of the sort keys *)

Lemma string_leb_cons (a b : ascii) (s t : string) :
  String.leb (String a s) (String b t)
  = match Ascii.compare a b with
    | Eq => String.leb s t
    | Lt => true
    | Gt => false
    end.
Proof.
  unfold String.leb. cbn [String.compare].
  destruct (Ascii.compare a b); reflexivity.
Qed.

Lemma ascii_compare_trans (a b c : ascii) :
  Ascii.compare a b <> Gt -> Ascii.compare b c <> Gt ->
  Ascii.compare a c <> Gt
  /\ (Ascii.compare a c = Eq -> Ascii.compare a b = Eq /\ Ascii.compare b c = Eq).
Proof.
  unfold Ascii.compare.
  destruct (N.compare_spec (N_of_ascii a) (N_of_ascii b)),
           (N.compare_spec (N_of_ascii b) (N_of_ascii c)),
           (N.compare_spec (N_of_ascii a) (N_of_ascii c));
    intros; split; intros; try split; try congruence; try discriminate; lia.
Qed.

Lemma string_leb_trans (s t u : string) :
  String.leb s t = true -> String.leb t u = true -> String.leb s u = true.
Proof.
  revert t u. induction s as [| a s IH]; intros [| b t] [| c u]; try reflexivity;
    try discriminate.
  rewrite !string_leb_cons. intros H1 H2.
  destruct (ascii_compare_trans a b c) as [Hgt Heq].
  - destruct (Ascii.compare a b); congruence.
  - destruct (Ascii.compare b c); congruence.
  - destruct (Ascii.compare a c) eqn:E; [| reflexivity | congruence].
    destruct (Heq eq_refl) as [E1 E2]. rewrite E1 in H1. rewrite E2 in H2.
    exact (IH t u H1 H2).
Qed.

Lemma keyLeb_total (a b : Store.SortKey) :
  Store.keyLeb a b = false -> Store.keyLeb b a = true.
Proof.
  destruct a as [| x | s], b as [| y | t]; cbn; try reflexivity; try discriminate.
  - intros H. apply Qle_bool_iff.
    destruct (Qlt_le_dec y x) as [Hlt | Hle]; [apply Qlt_le_weak, Hlt |].
    apply Qle_bool_iff in Hle. congruence.
  - intros H. destruct (String.leb_total s t) as [E | E]; congruence.
Qed.

Lemma keyLeb_trans (a b c : Store.SortKey) :
  Store.keyLeb a b = true -> Store.keyLeb b c = true -> Store.keyLeb a c = true.
Proof.
  destruct a as [| x | s], b as [| y | t], c as [| z | u]; cbn;
    try reflexivity; try discriminate.
  - intros H1 H2. apply Qle_bool_iff in H1, H2. apply Qle_bool_iff.
    eapply Qle_trans; eassumption.
  - apply string_leb_trans.
Qed.

Lemma matching_ids_distinct (matches : User.t -> bool) (users : list User.t) :
  NoDup (map User._id users) -> NoDup (map User._id (filter matches users)).
Proof.
  intros Hids. induction users as [| u users IH]; cbn; [constructor |].
  inversion Hids as [| ? ? Hfresh Hrest]; subst.
  destruct (matches u); cbn; [| exact (IH Hrest)].
  constructor; [| exact (IH Hrest)].
  intros Hin. apply Hfresh. apply in_map_iff in Hin.
  destruct Hin as (v & E & Hv). apply filter_In in Hv.
  rewrite <- E. apply in_map. tauto.
Qed.

(** X6: the pages of the student listing, read one after the other, are the
    matching students in sort order, each exactly once.  The numbers are
    safe integers, the students have distinct ids and no two matching
    students tie on the sort key, so that the order of every request is
    the same.  There is a list [sorted] that holds exactly the matching
    students, every student before those that follow in the order asked
    for; with [limit >= 1], page [p] of [pages = ceil (total / limit)]
    holds its students from position [(p - 1) * limit] on, and the pages
    1 .. [pages] together are that list. *)
Theorem X_pages_cover_students `{rt : Runtime} (st : Store.t) (q : Req.Query)
    (l : Z) (matches : User.t -> bool) :
  Admin.limitOf q = Some l -> 1 <= l ->
  Store.online st = true ->
  Store.compileUserFilter (Admin.studentQuery q) = JS.Ok matches ->
  let field := Admin.sortField Admin.studentSortFields q in
  let before (a b : User.t) :=
    if Admin.sortDirection q =? 1
    then Store.keyLeb (Store.userKey field a) (Store.userKey field b) = true
    else Store.keyLeb (Store.userKey field b) (Store.userKey field a) = true in
  let matching := filter matches (Store.users st) in
  let total := Z.of_nat (List.length matching) in
  let pages := - ((- total) / l) in
  Spec.safeInteger l -> Spec.safeInteger total ->
  NoDup (map User._id (Store.users st)) ->
  (forall a b, In a matching -> In b matching -> before a b -> before b a -> a = b) ->
  exists sorted,
    Permutation sorted matching
    /\ NoDup (map User._id sorted)
    /\ StronglySorted before sorted
    /\ (forall p, 1 <= p -> Spec.safeInteger p -> Spec.safeInteger ((p - 1) * l) ->
          Admin.getAllStudents st (Paging.onPage q p)
          = Success (firstn (Z.to_nat l) (skipn (Z.to_nat ((p - 1) * l)) sorted),
                     Admin.mkPagination (Some p) (Some l) total (JS.Fin pages)))
    /\ Forall (fun p => Spec.safeInteger p /\ Spec.safeInteger ((p - 1) * l))
              (Paging.pageNumbers pages)
    /\ List.concat (map (fun p => Paging.students
                                    (Admin.getAllStudents st (Paging.onPage q p)))
                        (Paging.pageNumbers pages))
       = sorted.
Proof.
  intros Hl Hl1 Hon Hc field before matching total pages Hsl Hst Hids _.
  set (sorted := Store.sortDocs Store.userKey
                   (Some (field, Admin.sortDirection q)) matching).
  assert (Hperm : Permutation sorted matching) by apply sortDocs_perm.
  assert (Hpage : forall p, 1 <= p ->
            Admin.getAllStudents st (Paging.onPage q p)
            = Success (firstn (Z.to_nat l) (skipn (Z.to_nat ((p - 1) * l)) sorted),
                       Admin.mkPagination (Some p) (Some l) total (JS.Fin pages))).
  { intros p Hp.
    rewrite (students_valid st (Paging.onPage q p) p l matches); try assumption.
    - unfold JS.ceilDiv. destruct (Z.eqb_spec l 0); [lia | reflexivity].
    - unfold Admin.pageOf. cbn [Paging.onPage Req.page JS.withDefault JS.parseInt].
      apply parseInt_toString. }
  destruct (ceilDiv_valid total l Hl1) as [pages' [Hceil [Hle Hgt]]].
  unfold JS.ceilDiv in Hceil. destruct (Z.eqb_spec l 0); [lia |].
  injection Hceil as <-. fold pages in Hle, Hgt.
  assert (Htot : 0 <= total) by (unfold total; lia).
  assert (Hp0 : 0 <= pages) by nia.
  exists sorted.
  split; [exact Hperm |].
  split.
  { eapply Permutation_NoDup; [apply Permutation_map, Permutation_sym, Hperm |].
    unfold matching. apply matching_ids_distinct, Hids. }
  split.
  { unfold sorted, Store.sortDocs, before.
    destruct (Z.eqb_spec (Admin.sortDirection q) 1) as [_ | _].
    - apply (sortBy_sorted_any
               (fun a b => Store.keyLeb (Store.userKey field a)
                                        (Store.userKey field b))).
      + intros a b. apply keyLeb_total.
      + intros a b c. apply keyLeb_trans.
    - apply (sortBy_sorted_any
               (fun a b => Store.keyLeb (Store.userKey field b)
                                        (Store.userKey field a))).
      + intros a b. apply keyLeb_total.
      + intros a b c H1 H2. exact (keyLeb_trans _ _ _ H2 H1). }
  split; [intros p Hp _ _; exact (Hpage p Hp) |].
  split.
  { apply Forall_forall. intros p Hp. unfold Paging.pageNumbers in Hp.
    apply in_map_iff in Hp. destruct Hp as (k & <- & Hk).
    apply in_seq in Hk. unfold Spec.safeInteger in *.
    assert (Hk' : Z.of_nat k < pages) by lia.
    replace (Z.of_nat k + 1 - 1) with (Z.of_nat k) by lia. nia. }
  unfold Paging.pageNumbers. rewrite map_map.
  rewrite (map_ext_in _ (fun k => firstn (Z.to_nat l)
                                    (skipn (k * Z.to_nat l) sorted))).
  - rewrite windows_concat. apply firstn_all2.
    rewrite (Permutation_length Hperm).
    apply Nat2Z.inj_le. rewrite Nat2Z.inj_mul, !Z2Nat.id by lia. exact Hle.
  - intros k _. rewrite Hpage by lia. cbn [Paging.students].
    do 2 f_equal. replace (Z.of_nat k + 1 - 1) with (Z.of_nat k) by lia.
    rewrite Z2Nat.inj_mul, Nat2Z.id by lia. reflexivity.
Qed.

(** Three students two to a page, the newest first: two pages, which
    together list the three in the order of their enrolment reversed. *)
Lemma X_pages_cover_students_witness :
  let enrolled (id name : string) (at_ : Z) :=
    User.mk id "student" true (Some name) None None None None at_ None in
  let class := Store.mk [enrolled "u1" "Asha" 10; enrolled "u2" "Bo" 30;
                         enrolled "u3" "Cy" 20] [] [] true in
  exists sorted,
    List.concat (map (fun p => Paging.students
                            (Admin.getAllStudents (rt := Sample.runtime) class
                               (Paging.onPage (Sample.pageLimit "1" "2") p)))
                [1; 2])
    = sorted
    /\ Permutation sorted (Store.users class)
    /\ StronglySorted (fun a b => User.createdAt b <= User.createdAt a) sorted
    /\ sorted
       = [enrolled "u2" "Bo" 30; enrolled "u3" "Cy" 20; enrolled "u1" "Asha" 10].
Proof.
  intros enrolled class.
  destruct (X_pages_cover_students (rt := Sample.runtime) class
              (Sample.pageLimit "1" "2") 2 _ eq_refl ltac:(lia) eq_refl eq_refl
              ltac:(split; discriminate) ltac:(split; discriminate))
    as (sorted & Hperm & _ & Hsorted & _ & _ & Hall).
  - repeat constructor; cbn; intuition discriminate.
  - intros a b Ha Hb. cbn in Ha, Hb.
    destruct Ha as [<- | [<- | [<- | []]]], Hb as [<- | [<- | [<- | []]]];
      cbn; intros H1 H2; try reflexivity; discriminate.
  - exists sorted. split; [exact Hall |]. split; [exact Hperm |].
    split.
    + eapply StronglySorted_weaken; [| exact Hsorted].
      intros a b H. cbn in H. apply Qle_bool_inject. exact H.
    + rewrite <- Hall. vm_compute. reflexivity.
Defined.

(* ------------------------------------------------------------------ *)
(** ** Question statistics *)







(* ------------------------------------------------------------------ *)
(** ** Adding and deleting questions *)

Lemma find_app_new {A} (p : A -> bool) (l : list A) (x : A) :
  find p l = None -> p x = true -> find p (l ++ [x]) = Some x.
Proof.
  intros Hn Hx. induction l as [| y l IH]; simpl in *.
  - now rewrite Hx.
  - destruct (p y); [discriminate | now apply IH].
Qed.

Lemma find_none_ids (l : list Item.t) (id : string) :
  find (fun i => (Item.id i =? id)%string) l = None <-> ~ In id (map Item.id l).
Proof.
  induction l as [| y l IH]; simpl.
  - tauto.
  - destruct (String.eqb_spec (Item.id y) id) as [E | Hne].
    + split; [discriminate | intros H; exfalso; apply H; now left].
    + rewrite IH. tauto.
Qed.

(** X8: a question is added exactly when the request passed validation, the
    id is not taken (by an active or a deleted question), the schema
    accepts the document and the store is available.  It is then the last
    question of the collection, it is found by its id, and the reply is
    201 with the question; in every other case the reply is 400 or 500
    and nothing changes.  A request that failed validation is answered
    400 even when the store is down. *)
Theorem X_add_item `{schema : ItemSchema} (d : Db.t) (now : Z)
    (errors : list string) (body : Questions.Body) :
  let reply := fst (Questions.addFinancialItem d now errors body) in
  let d' := snd (Questions.addFinancialItem d now errors body) in
  let item := Questions.newItem now body in
  (status reply = 201 <->
     errors = [] /\ Db.online d = true
     /\ ~ In (Questions.b_id body) (map Item.id (Db.items d))
     /\ accepts item = true)
  /\ (status reply = 201 ->
      success reply = true /\ data reply = Some item
      /\ d' = Db.withItems d (Db.items d ++ [item])
      /\ Db.findOne d' (Questions.b_id body) = JS.Ok (Some item))
  /\ (status reply <> 201 ->
      d' = d /\ success reply = false /\ (status reply = 400 \/ status reply = 500))
  /\ (errors <> [] -> status reply = 400 /\ message reply = "Validation error")
  /\ (errors = [] -> Db.online d = true ->
      In (Questions.b_id body) (map Item.id (Db.items d)) ->
      status reply = 400
      /\ message reply = "Financial item with this ID already exists").
Proof.
  intros reply d' item. subst reply d'.
  unfold Questions.addFinancialItem, Db.findOne, Db.save, Db.connected.
  fold item.
  destruct errors as [| e errors].
  - destruct (Db.online d) eqn:Hon; cbn [JS.bind].
    + destruct (find _ (Db.items d)) as [existing |] eqn:Ef.
      * assert (Hin : In (Questions.b_id body) (map Item.id (Db.items d))).
        { destruct (in_dec string_dec (Questions.b_id body)
                      (map Item.id (Db.items d))) as [Hin | Hout]; [exact Hin |].
          apply find_none_ids in Hout. congruence. }
        cbn [fst snd status success message data].
        split; [split; [discriminate | intros [_ [_ [Hout _]]]; contradiction] |].
        split; [discriminate |].
        split; [intros _; auto |].
        split; [intros H; congruence | auto].
      * assert (Hout : ~ In (Questions.b_id body) (map Item.id (Db.items d)))
          by (now apply find_none_ids).
        destruct (accepts item) eqn:Hacc; cbn [fst snd status success message data].
        -- split; [split; [intros _; auto | reflexivity] |].
           split.
           { intros _. split; [reflexivity |]. split; [reflexivity |].
             split; [reflexivity |].
             unfold Db.withItems. cbn [Db.online Db.items]. rewrite Hon.
             cbn [JS.bind]. f_equal. apply find_app_new; [exact Ef |].
             apply String.eqb_refl. }
           split; [intros H; congruence |].
           split; [intros H; congruence | intros _ _ Hin; contradiction].
        -- split; [split; [discriminate | intros [_ [_ [_ H]]]; discriminate H] |].
           split; [discriminate |].
           split; [intros _; auto |].
           split; [intros H; congruence | intros _ _ Hin; contradiction].
    + cbn [fst snd status success message data].
      split; [split; [discriminate | intros [_ [H _]]; discriminate H] |].
      split; [discriminate |].
      split; [intros _; auto |].
      split; [intros H; congruence | intros _ H; discriminate H].
  - cbn [fst snd status success message data].
    split; [split; [discriminate | intros [H _]; discriminate H] |].
    split; [discriminate |].
    split; [intros _; auto |].
    split; [intros _; auto | intros H; discriminate H].
Qed.

(** The question with the bank's schema: added once, refused the second
    time. *)
Lemma X_add_item_witness :
  status (fst (Questions.addFinancialItem (schema := Quiz.schema)
                 Quiz.bank 5 [] (Quiz.body "gold" 3))) = 201
  /\ status (fst (Questions.addFinancialItem (schema := Quiz.schema)
                    Quiz.bank 5 [] (Quiz.body "old" 3))) = 400.
Proof.
  destruct (X_add_item (schema := Quiz.schema) Quiz.bank 5 [] (Quiz.body "gold" 3))
    as [[_ Hadd] _].
  destruct (X_add_item (schema := Quiz.schema) Quiz.bank 5 [] (Quiz.body "old" 3))
    as [_ [_ [_ [_ Htaken]]]].
  split.
  - apply Hadd. repeat split; try reflexivity.
    cbn. intros [H | [H | [H | []]]]; discriminate H.
  - apply Htaken; try reflexivity. cbn. auto.
Defined.

Lemma updateFirst_none {A} (p : A -> bool) (f : A -> A) (l : list A) :
  find p l = None -> Db.updateFirst p f l = None.
Proof.
  induction l as [| x l IH]; simpl; [reflexivity |].
  destruct (p x); [discriminate |]. intros H. now rewrite IH.
Qed.

Lemma updateFirst_app {A} (p : A -> bool) (f : A -> A) (pre post : list A) (x : A) :
  find p pre = None -> p x = true ->
  Db.updateFirst p f (pre ++ x :: post) = Some (f x, pre ++ f x :: post).
Proof.
  intros Hn Hx. induction pre as [| y pre IH]; simpl in *.
  - now rewrite Hx.
  - destruct (p y); [discriminate |]. now rewrite IH.
Qed.

Lemma find_split {A} (p : A -> bool) (l : list A) (x : A) :
  find p l = Some x ->
  exists pre post, l = pre ++ x :: post /\ find p pre = None /\ p x = true.
Proof.
  induction l as [| y l IH]; simpl; [discriminate |].
  destruct (p y) eqn:Ey.
  - intros E. injection E as ->. exists [], l. auto.
  - intros E. destruct (IH E) as [pre [post [-> [Hn Hx]]]].
    exists (y :: pre), post. simpl. rewrite Ey. auto.
Qed.

Lemma find_app_first {A} (p : A -> bool) (pre post : list A) (x : A) :
  find p pre = None -> p x = true -> find p (pre ++ x :: post) = Some x.
Proof.
  intros Hn Hx. induction pre as [| y pre IH]; simpl in *.
  - now rewrite Hx.
  - destruct (p y); [discriminate | now apply IH].
Qed.

Lemma deactivate_id (i : Item.t) : Item.id (Item.deactivate i) = Item.id i.
Proof. reflexivity. Qed.

Lemma deactivate_twice (i : Item.t) :
  Item.deactivate (Item.deactivate i) = Item.deactivate i.
Proof. reflexivity. Qed.

(** The collection after a deletion that found its question. *)
Lemma deactivateOne_found (d : Db.t) (id : string) (i : Item.t) :
  Db.online d = true ->
  find (fun j => (Item.id j =? id)%string) (Db.items d) = Some i ->
  exists pre post,
    Db.items d = pre ++ i :: post
    /\ find (fun j => (Item.id j =? id)%string) pre = None
    /\ Item.id i = id
    /\ Db.deactivateOne d id
       = JS.Ok (Some (Item.deactivate i),
                Db.withItems d (pre ++ Item.deactivate i :: post)).
Proof.
  intros Hon Hf. destruct (find_split _ _ _ Hf) as [pre [post [E [Hn Hx]]]].
  exists pre, post. split; [exact E |]. split; [exact Hn |].
  split; [now apply String.eqb_eq |].
  unfold Db.deactivateOne, Db.connected. rewrite Hon. cbn [JS.bind].
  rewrite E, (updateFirst_app _ _ pre post i Hn Hx). reflexivity.
Qed.

(** X9: deleting a question keeps it: the collection has the same ids in the
    same places and only the first question with the id changes, to
    inactive.  An id that no question has is answered 404 and changes
    nothing.  Deleting again is answered 200 again and changes nothing
    more, and the id stays taken for [addFinancialItem].  When ids are
    unique the deleted question is in no statistics any more. *)
Theorem X_delete_item `{schema : ItemSchema} (d : Db.t) (id : string) :
  Db.online d = true ->
  let reply := fst (Questions.deleteFinancialItem d id) in
  let d' := snd (Questions.deleteFinancialItem d id) in
  (~ In id (map Item.id (Db.items d)) -> status reply = 404 /\ d' = d)
  /\ (In id (map Item.id (Db.items d)) ->
      status reply = 200 /\ success reply = true
      /\ map Item.id (Db.items d') = map Item.id (Db.items d)
      /\ Db.users d' = Db.users d /\ Db.gameSessions d' = Db.gameSessions d
      /\ (exists i, find (fun j => (Item.id j =? id)%string) (Db.items d) = Some i
                    /\ Db.findOne d' id = JS.Ok (Some (Item.deactivate i)))
      /\ (forall j, Item.id j <> id -> (In j (Db.items d) <-> In j (Db.items d')))
      /\ Questions.deleteFinancialItem d' id
         = (mkReply 200 true "Financial item deleted successfully" None, d')
      /\ (forall now body, Questions.b_id body = id ->
            status (fst (Questions.addFinancialItem d' now [] body)) = 400)
      /\ (NoDup (map Item.id (Db.items d)) ->
          forall level questions summary,
            Questions.getQuestionStats d' level = Success (questions, summary) ->
            ~ In id (map Item.s_id questions))).
Proof.
  intros Hon reply d'. subst reply d'. unfold Questions.deleteFinancialItem.
  split.
  - intros Hout. apply find_none_ids in Hout.
    unfold Db.deactivateOne, Db.connected. rewrite Hon. cbn [JS.bind].
    rewrite (updateFirst_none _ _ _ Hout). auto.
  - intros Hin.
    destruct (find (fun j => (Item.id j =? id)%string) (Db.items d)) as [i |] eqn:Ef;
      [| apply find_none_ids in Ef; contradiction].
    destruct (deactivateOne_found d id i Hon Ef) as [pre [post [E [Hn [Hid Hd]]]]].
    rewrite Hd. cbn [fst snd status success].
    set (d' := Db.withItems d (pre ++ Item.deactivate i :: post)).
    assert (Hf' : find (fun j => (Item.id j =? id)%string) (Db.items d')
                  = Some (Item.deactivate i)).
    { unfold d', Db.withItems. cbn [Db.items].
      apply find_app_first; [exact Hn |]. rewrite deactivate_id.
      now apply String.eqb_eq. }
    assert (Hon' : Db.online d' = true) by exact Hon.
    split; [reflexivity |]. split; [reflexivity |].
    split.
    { unfold d', Db.withItems. cbn [Db.items]. rewrite E, !map_app. reflexivity. }
    split; [reflexivity |]. split; [reflexivity |].
    split.
    { exists i. split; [reflexivity |].
      unfold Db.findOne, Db.connected. rewrite Hon'. cbn [JS.bind]. now rewrite Hf'. }
    split.
    { intros j Hj. unfold d', Db.withItems. cbn [Db.items]. rewrite E.
      rewrite !in_app_iff. cbn [In].
      split; (intros [H | [H | H]]; [now left | | now right; right]);
        exfalso; apply Hj; rewrite <- H; [exact Hid | now rewrite deactivate_id]. }
    split.
    { destruct (deactivateOne_found d' id _ Hon' Hf')
        as [pre' [post' [E' [Hn' [_ Hd']]]]].
      rewrite Hd'. rewrite deactivate_twice. f_equal.
      unfold Db.withItems. rewrite <- E'. reflexivity. }
    split.
    { intros now body Hb. unfold Questions.addFinancialItem, Db.findOne, Db.connected.
      rewrite Hon'. cbn [JS.bind]. rewrite Hb, Hf'. reflexivity. }
    intros Hnd level questions summary Hq.
    unfold Questions.getQuestionStats in Hq.
    replace (Db.connected d') with (JS.Ok tt) in Hq
      by (unfold Db.connected; now rewrite Hon').
    cbn [JS.bind] in Hq.
    destruct (Store.compileEq "level" _) as [pLevel | e];
      cbn [JS.bind Admin.catch] in Hq; [| discriminate Hq].
    inversion Hq as [[Eq Es]]. clear Hq Es.
    rewrite map_map. intros Hlisted. apply in_map_iff in Hlisted.
    destruct Hlisted as [j [Hjid Hj]]. cbn [Item.select Item.s_id] in Hjid.
    apply (Permutation_in _ (sortBy_perm_any _ _)) in Hj.
    apply filter_In in Hj. destruct Hj as [Hj Hact].
    apply andb_true_iff in Hact. destruct Hact as [Hact _].
    unfold d', Db.withItems in Hj. cbn [Db.items] in Hj.
    rewrite E, map_app in Hnd. cbn [map] in Hnd.
    apply NoDup_remove_2 in Hnd.
    apply in_app_iff in Hj. destruct Hj as [Hj | [Hj | Hj]].
    + apply Hnd. apply in_or_app. left. rewrite Hid, <- Hjid. now apply in_map.
    + subst j. discriminate Hact.
    + apply Hnd. apply in_or_app. right. rewrite Hid, <- Hjid. now apply in_map.
Qed.

(** Deleting one of the two active questions of the bank, and an id that
    the bank does not have. *)
Lemma X_delete_item_witness :
  Db.online Quiz.bank = true
  /\ status (fst (Questions.deleteFinancialItem Quiz.bank "cash")) = 200
  /\ status (fst (Questions.deleteFinancialItem Quiz.bank "gold")) = 404.
Proof.
  destruct (X_delete_item (schema := Quiz.schema) Quiz.bank "cash" eq_refl)
    as [_ Hin].
  destruct (X_delete_item (schema := Quiz.schema) Quiz.bank "gold" eq_refl)
    as [Hout _].
  split; [reflexivity |]. split.
  - apply Hin. cbn. auto.
  - apply Hout. cbn. intros [H | [H | [H | []]]]; discriminate H.
Defined.

Lemma updateFirst_map {A B} (p : A -> bool) (f : A -> A) (g : A -> B)
    (l l' : list A) (y : A) :
  (forall x, g (f x) = g x) ->
  Db.updateFirst p f l = Some (y, l') -> map g l' = map g l.
Proof.
  intros Hg. revert l' y. induction l as [| x l IH]; simpl; intros l' y; [discriminate |].
  destruct (p x).
  - intros E. inversion E. simpl. now rewrite Hg.
  - destruct (Db.updateFirst p f l) as [[z r] |]; [| discriminate].
    intros E. inversion E. simpl. f_equal. now apply (IH r z).
Qed.

(** What a request that adds a question does to the database. *)
Lemma add_effect `{schema : ItemSchema} (d : Db.t) (now : Z) (errors : list string)
    (body : Questions.Body) :
  snd (Questions.addFinancialItem d now errors body) = d
  \/ (~ In (Questions.b_id body) (map Item.id (Db.items d))
      /\ snd (Questions.addFinancialItem d now errors body)
         = Db.withItems d (Db.items d ++ [Questions.newItem now body])).
Proof.
  unfold Questions.addFinancialItem.
  destruct errors; [| now left].
  unfold Db.findOne, Db.save, Db.connected.
  destruct (Db.online d); cbn [JS.bind]; [| now left].
  destruct (find _ (Db.items d)) eqn:Ef; [now left |].
  destruct (accepts _); [| now left].
  right. split; [| reflexivity].
  intros Hin. apply in_map_iff in Hin. destruct Hin as [j [Hid Hj]].
  apply (find_none _ _ Ef) in Hj. cbn beta in Hj.
  apply String.eqb_neq in Hj. contradiction.
Qed.

(** What a request that deletes a question keeps. *)
Lemma delete_effect (d : Db.t) (id : string) :
  let d' := snd (Questions.deleteFinancialItem d id) in
  map Item.id (Db.items d') = map Item.id (Db.items d)
  /\ Db.users d' = Db.users d /\ Db.gameSessions d' = Db.gameSessions d
  /\ Db.online d' = Db.online d.
Proof.
  unfold Questions.deleteFinancialItem, Db.deactivateOne, Db.connected.
  destruct (Db.online d) eqn:Hon; cbn [JS.bind snd]; [| auto].
  destruct (Db.updateFirst _ Item.deactivate (Db.items d)) as [[y l] |] eqn:Eu;
    cbn [snd]; [| auto].
  split; [| auto].
  cbn [Db.withItems Db.items].
  exact (updateFirst_map _ _ Item.id _ _ _ deactivate_id Eu).
Qed.

(** X10: whatever requests to add and to delete questions arrive, in whatever
    order and with whatever replies: no id ever leaves the collection, ids
    that were unique stay unique, and neither students nor sessions are
    touched. *)
Theorem X_ids_stay_unique `{schema : ItemSchema} (d : Db.t)
    (requests : list Journal.Command) :
  NoDup (map Item.id (Db.items d)) ->
  let d' := Journal.replay d requests in
  NoDup (map Item.id (Db.items d'))
  /\ incl (map Item.id (Db.items d)) (map Item.id (Db.items d'))
  /\ (List.length (Db.items d) <= List.length (Db.items d'))%nat
  /\ Db.users d' = Db.users d /\ Db.gameSessions d' = Db.gameSessions d.
Proof.
  unfold Journal.replay. revert d.
  induction requests as [| c cs IH]; intros d Hnd; cbn [fold_left].
  - repeat split; auto using incl_refl.
  - assert (Hstep : NoDup (map Item.id (Db.items (Journal.execute d c)))
                    /\ incl (map Item.id (Db.items d))
                            (map Item.id (Db.items (Journal.execute d c)))
                    /\ (List.length (Db.items d)
                        <= List.length (Db.items (Journal.execute d c)))%nat
                    /\ Db.users (Journal.execute d c) = Db.users d
                    /\ Db.gameSessions (Journal.execute d c) = Db.gameSessions d).
    { destruct c as [now errors body | id]; cbn [Journal.execute].
      - destruct (add_effect d now errors body) as [-> | [Hnew ->]].
        + repeat split; auto using incl_refl.
        + cbn [Db.withItems Db.items Db.users Db.gameSessions].
          rewrite map_app, length_app. cbn [map List.length].
          repeat split; [| apply incl_appl, incl_refl | lia].
          apply NoDup_app; [exact Hnd | repeat constructor; auto |].
          intros x Hx [<- | []]. now apply Hnew.
      - destruct (delete_effect d id) as [Hids [Hu [Hs _]]].
        rewrite Hids. repeat split; auto using incl_refl.
        rewrite <- (length_map Item.id (Db.items d)), <- Hids, length_map. lia. }
    destruct Hstep as [Hnd1 [Hinc1 [Hlen1 [Hu1 Hs1]]]].
    destruct (IH _ Hnd1) as [Hnd2 [Hinc2 [Hlen2 [Hu2 Hs2]]]].
    repeat split.
    + exact Hnd2.
    + eapply incl_tran; eassumption.
    + lia.
    + congruence.
    + congruence.
Qed.

(** Adding the same id twice and deleting it in between. *)
Lemma X_ids_stay_unique_witness :
  NoDup (map Item.id (Db.items Quiz.bank))
  /\ NoDup (map Item.id (Db.items
       (Journal.replay (schema := Quiz.schema) Quiz.bank
          [ Journal.Add 5 [] (Quiz.body "gold" 3); Journal.Delete "gold";
            Journal.Add 6 [] (Quiz.body "gold" 2) ]))).
Proof.
  assert (Hnd : NoDup (map Item.id (Db.items Quiz.bank))).
  { cbn. repeat constructor; cbn; intuition discriminate. }
  split; [exact Hnd |].
  apply (X_ids_stay_unique (schema := Quiz.schema) Quiz.bank _ Hnd).
Defined.

(* ------------------------------------------------------------------ *)
(** ** The raw export *)

Lemma levelThenUsage_spec (a b : Item.t) :
  Questions.levelThenUsage a b = true
  <-> Item.level a < Item.level b
      \/ (Item.level a = Item.level b /\ Item.usageCount b <= Item.usageCount a).
Proof.
  unfold Questions.levelThenUsage.
  destruct (Item.level a <? Item.level b) eqn:Elt.
  - apply Z.ltb_lt in Elt. intuition.
  - apply Z.ltb_ge in Elt.
    destruct (Item.level a =? Item.level b) eqn:Eeq.
    + apply Z.eqb_eq in Eeq. rewrite Z.leb_le. intuition lia.
    + apply Z.eqb_neq in Eeq. split; [discriminate | lia].
Qed.

Lemma levelThenUsage_total (a b : Item.t) :
  Questions.levelThenUsage a b = false -> Questions.levelThenUsage b a = true.
Proof.
  intros H. apply levelThenUsage_spec.
  destruct (Questions.levelThenUsage a b) eqn:E; [discriminate |].
  assert (Hn : ~ (Item.level a < Item.level b
                  \/ (Item.level a = Item.level b
                      /\ Item.usageCount b <= Item.usageCount a))).
  { intros Hs. apply levelThenUsage_spec in Hs. congruence. }
  lia.
Qed.

Lemma levelThenUsage_trans (a b c : Item.t) :
  Questions.levelThenUsage a b = true -> Questions.levelThenUsage b c = true ->
  Questions.levelThenUsage a c = true.
Proof. rewrite !levelThenUsage_spec. lia. Qed.

Lemma filter_all {A} (p : A -> bool) (l : list A) :
  (forall x, p x = true) -> filter p l = l.
Proof.
  intros Hp. induction l as [| x l IH]; simpl; [reflexivity |].
  now rewrite Hp, IH.
Qed.

Lemma no_dates `{rt : Runtime} (q : Req.Query) :
  JS.truthy (Req.startDate q) = false -> JS.truthy (Req.endDate q) = false ->
  Admin.createdAtCond q = None.
Proof. intros Hs He. unfold Admin.createdAtCond. now rewrite Hs, He. Qed.

(** X11: the raw export answers 400 for every type but the three it knows, and
    does so without asking the store.  What it sends when it succeeds was
    asked for by name and is counted right: sessions of the store, of any
    status, each with a student that has the session's reference as id and
    never the fields of the external identity; users of the store that are
    students, active or not; questions of the store that are active, in
    ascending level and, within a level, descending usage. *)
Theorem X_export_data `{rt : Runtime} (d : Db.t) (q : Req.Query)
    (type : option string) :
  (type <> Some "sessions" -> type <> Some "students" ->
   type <> Some "questions" ->
   Questions.exportData d q type = Failure 400 "Invalid export type" None)
  /\ (forall kind count e,
        Questions.exportData d q type = Success (kind, count, e) ->
        Db.online d = true /\ type = Some kind
        /\ count = Questions.exportedCount e
        /\ match e with
           | Questions.Sessions l =>
               kind = "sessions"
               /\ Forall (fun ps =>
                     In (fst ps) (Db.gameSessions d)
                     /\ forall st, snd ps = Some st ->
                          Student._id st = GameSession.studentId (fst ps)
                          /\ Student.azureAdEmail st = None
                          /\ Student.azureAdDisplayName st = None) l
           | Questions.Students l =>
               kind = "students"
               /\ Forall (fun u => In u (Db.users d) /\ User.role u = "student") l
           | Questions.Items l =>
               kind = "questions"
               /\ Forall (fun i => In i (Db.items d) /\ Item.isActive i = true) l
               /\ StronglySorted
                    (fun a b => Item.level a < Item.level b
                                \/ (Item.level a = Item.level b
                                    /\ Item.usageCount b <= Item.usageCount a)) l
           end).
Proof.
  unfold Questions.exportData. cbv zeta.
  set (kind := Admin.orDefault type "").
  assert (Hkind : forall s, kind = s -> s <> ""%string -> type = Some s).
  { intros s E Hs. unfold kind in E. destruct type as [t |]; simpl in E.
    - now rewrite E.
    - now rewrite <- E in Hs. }
  split.
  - intros H1 H2 H3.
    assert (E1 : (kind =? "sessions")%string = false).
    { apply String.eqb_neq. intros E. apply H1, Hkind; [exact E | discriminate]. }
    assert (E2 : (kind =? "students")%string = false).
    { apply String.eqb_neq. intros E. apply H2, Hkind; [exact E | discriminate]. }
    assert (E3 : (kind =? "questions")%string = false).
    { apply String.eqb_neq. intros E. apply H3, Hkind; [exact E | discriminate]. }
    rewrite E1, E2, E3. reflexivity.
  - intros kind' count e.
    destruct (kind =? "sessions")%string eqn:E1;
      [| destruct (kind =? "students")%string eqn:E2;
         [| destruct (kind =? "questions")%string eqn:E3]].
    + apply String.eqb_eq in E1.
      destruct (Store.findSessions _ _ _ _ _) as [found | err] eqn:Ef;
        cbn [JS.bind Admin.catch]; intros H; [| discriminate H].
      inversion H as [[Ek Ec Ee]]. clear H.
      destruct (findSessions_incl _ _ _ _ _ _ Ef) as [matches [Hon [_ Hincl]]].
      split; [exact Hon |].
      split; [apply Hkind; [reflexivity | rewrite E1; discriminate] |].
      split; [reflexivity |]. split; [exact E1 |].
      apply Forall_forall. intros ps Hps. unfold Questions.populateBasic in Hps.
      apply in_map_iff in Hps. destruct Hps as [s [<- Hs]]. cbn [fst snd].
      split.
      * apply Hincl in Hs. apply filter_In in Hs. exact (proj1 Hs).
      * unfold Questions.basicStudent. intros st Hst.
        destruct (find _ (Db.users d)) as [u |] eqn:Eu; [| discriminate Hst].
        cbn [option_map] in Hst. inversion Hst as [Est]. cbn.
        apply find_some in Eu. destruct Eu as [_ Eu].
        apply String.eqb_eq in Eu. auto.
    + apply String.eqb_eq in E2.
      destruct (Store.findUsers _ _ _ _ _) as [found | err] eqn:Ef;
        cbn [JS.bind Admin.catch]; intros H; [| discriminate H].
      inversion H as [[Ek Ec Ee]]. clear H.
      destruct (findUsers_incl _ _ _ _ _ _ Ef) as [matches [Hon [Hc Hincl]]].
      split; [exact Hon |].
      split; [apply Hkind; [reflexivity | rewrite E2; discriminate] |].
      split; [reflexivity |]. split; [exact E2 |].
      apply Forall_forall. intros u Hu. apply Hincl in Hu.
      apply filter_In in Hu. destruct Hu as [Hin Hm]. split; [exact Hin |].
      unfold Store.compileUserFilter in Hc. cbn [Store.u_createdAt Store.u_or
        Store.u_role Store.u_isActive Store.compileOr] in Hc.
      destruct (Store.compileRange "createdAt" _) as [pCreated | err];
        cbn [JS.bind] in Hc; [| discriminate Hc].
      inversion Hc as [Em]. rewrite <- Em in Hm.
      rewrite !andb_true_iff in Hm. destruct Hm as [[[Hrole _] _] _].
      symmetry. apply String.eqb_eq. exact Hrole.
    + apply String.eqb_eq in E3.
      unfold Db.connected.
      destruct (Db.online d) eqn:Hon; cbn [JS.bind Admin.catch];
        [| intros H; discriminate H].
      destruct (Store.compileRange "createdAt" _) as [pCreated | err];
        cbn [JS.bind Admin.catch]; intros H; [| discriminate H].
      inversion H as [[Ek Ec Ee]]. clear H.
      split; [reflexivity |].
      split; [apply Hkind; [reflexivity | rewrite E3; discriminate] |].
      split; [reflexivity |]. split; [exact E3 |].
      split.
      * apply Forall_forall. intros i Hi.
        apply (Permutation_in _ (sortBy_perm_any _ _)) in Hi.
        apply filter_In in Hi. destruct Hi as [Hin Hm]. split; [exact Hin |].
        apply andb_true_iff in Hm. destruct Hm as [Hact _].
        destruct (Item.isActive i); [reflexivity | discriminate Hact].
      * eapply StronglySorted_weaken;
          [| apply (sortBy_sorted_any Questions.levelThenUsage
                      levelThenUsage_total levelThenUsage_trans)].
        intros a b Hab. now apply levelThenUsage_spec.
    + cbn [Admin.catch]. intros H. discriminate H.
Qed.

(** The same export of a bank that is available: a type it does not know,
    and the questions. *)
Lemma X_export_data_witness :
  Questions.exportData (rt := Sample.runtime) Quiz.bank Req.empty (Some "pdf")
    = Failure 400 "Invalid export type" None
  /\ exists l,
       Questions.exportData (rt := Sample.runtime) Quiz.bank Req.empty
         (Some "questions") = Success ("questions", 2, Questions.Items l)
       /\ Forall (fun i => In i (Db.items Quiz.bank) /\ Item.isActive i = true) l.
Proof.
  split.
  - apply (X_export_data (rt := Sample.runtime) Quiz.bank Req.empty (Some "pdf"));
      discriminate.
  - eexists. split; [reflexivity |].
    destruct (X_export_data (rt := Sample.runtime) Quiz.bank Req.empty
                (Some "questions")) as [_ H].
    destruct (H _ _ _ eq_refl) as [_ [_ [_ [_ [Hall _]]]]]. exact Hall.
Defined.

Lemma find_all_sessions `{rt : Runtime} (st : Store.t) (sort : option (string * Z)) :
  Store.online st = true ->
  Store.findSessions st (Store.mkSessionFilter None None None None None None)
    sort None None
  = JS.Ok (Store.sortDocs Store.sessionKey sort (Store.gameSessions st)).
Proof.
  intros Hon. unfold Store.findSessions, Store.connected. rewrite Hon.
  cbn [JS.bind]. unfold Store.compileSessionFilter.
  cbn [Store.f_level Store.f_score Store.f_createdAt Store.f_or Store.f_status
       Store.f_studentId Store.compileEq Store.compileRange Store.compileOr
       JS.bind Store.eqOpt Store.applySkip Store.applyLimit andb].
  now rewrite filter_all.
Qed.

Lemma find_all_students `{rt : Runtime} (st : Store.t) (sort : option (string * Z)) :
  Store.online st = true ->
  Store.findUsers st (Store.mkUserFilter (Some "student") None None None)
    sort None None
  = JS.Ok (Store.sortDocs Store.userKey sort
             (filter (fun u => (User.role u =? "student")%string) (Store.users st))).
Proof.
  intros Hon. unfold Store.findUsers, Store.connected. rewrite Hon.
  cbn [JS.bind]. unfold Store.compileUserFilter.
  cbn [Store.u_createdAt Store.u_or Store.compileRange Store.compileOr JS.bind
       Store.applySkip Store.applyLimit].
  do 2 f_equal. apply filter_ext. intros u.
  change (Store.eqOpt String.eqb (Store.u_role
            (Store.mkUserFilter (Some "student") None None None)) (User.role u))
    with (("student" =? User.role u)%string).
  change (Store.eqOpt Bool.eqb (Store.u_isActive
            (Store.mkUserFilter (Some "student") None None None)) (User.isActive u))
    with true.
  rewrite !andb_true_r. apply String.eqb_sym.
Qed.

(** X12: without dates in the request and with the store available, the raw
    export leaves nothing out: it has every session of the store, whatever
    its status, every user that is a student, active or not, and every
    active question. *)
Theorem X_export_without_dates `{rt : Runtime} (d : Db.t) (q : Req.Query) :
  Db.online d = true ->
  JS.truthy (Req.startDate q) = false -> JS.truthy (Req.endDate q) = false ->
  (exists l,
     Questions.exportData d q (Some "sessions")
       = Success ("sessions", Z.of_nat (List.length (Db.gameSessions d)),
                  Questions.Sessions l)
     /\ Permutation (map fst l) (Db.gameSessions d))
  /\ (exists l,
        Questions.exportData d q (Some "students")
          = Success ("students", Z.of_nat (List.length l), Questions.Students l)
        /\ Permutation l
             (filter (fun u => (User.role u =? "student")%string) (Db.users d)))
  /\ (exists l,
        Questions.exportData d q (Some "questions")
          = Success ("questions", Z.of_nat (List.length l), Questions.Items l)
        /\ Permutation l (filter Item.isActive (Db.items d))).
Proof.
  intros Hon Hs He.
  assert (Hon' : Store.online (Db.store d) = true) by exact Hon.
  unfold Questions.exportData. cbv zeta. rewrite (no_dates q Hs He).
  split; [| split].
  - change (Admin.orDefault (Some "sessions") "") with "sessions"%string.
    change (("sessions" =? "sessions")%string) with true. cbv iota.
    rewrite (find_all_sessions _ _ Hon'). cbn [JS.bind Admin.catch].
    eexists. split.
    + unfold Questions.exportedCount, Questions.populateBasic.
      rewrite length_map.
      rewrite (Permutation_length (sortDocs_perm _ _ _)). reflexivity.
    + unfold Questions.populateBasic. rewrite map_map. cbn [fst].
      rewrite map_id. apply sortDocs_perm.
  - change (Admin.orDefault (Some "students") "") with "students"%string.
    change (("students" =? "sessions")%string) with false.
    change (("students" =? "students")%string) with true. cbv iota.
    rewrite (find_all_students _ _ Hon'). cbn [JS.bind Admin.catch].
    eexists. split; [reflexivity |]. apply sortDocs_perm.
  - change (Admin.orDefault (Some "questions") "") with "questions"%string.
    change (("questions" =? "sessions")%string) with false.
    change (("questions" =? "students")%string) with false.
    change (("questions" =? "questions")%string) with true. cbv iota.
    unfold Db.connected. rewrite Hon.
    cbn [JS.bind Admin.catch Store.compileRange].
    eexists. split; [reflexivity |].
    eapply perm_trans; [apply sortBy_perm_any |].
    erewrite filter_ext; [apply Permutation_refl |].
    intros i. cbn [Questions.inOptRange]. rewrite andb_true_r.
    now destruct (Item.isActive i).
Qed.

(** The bank has sessions and students, and its requests carry no dates. *)
Lemma X_export_without_dates_witness :
  exists l,
    Questions.exportData (rt := Sample.runtime) Quiz.bank Req.empty (Some "sessions")
      = Success ("sessions", Z.of_nat (List.length (Db.gameSessions Quiz.bank)),
                 Questions.Sessions l)
    /\ Permutation (map fst l) (Db.gameSessions Quiz.bank).
Proof.
  exact (proj1 (X_export_without_dates (rt := Sample.runtime) Quiz.bank Req.empty
                  eq_refl eq_refl eq_refl)).
Defined.

(* ------------------------------------------------------------------ *)
(** ** The report of one session *)

Lemma NoDup_map_unique {A B} (f : A -> B) (l : list A) (x y : A) :
  NoDup (map f l) -> In x l -> In y l -> f x = f y -> x = y.
Proof.
  induction l as [| z l IH]; simpl; intros Hnd Hx Hy E; [contradiction |].
  inversion Hnd as [| ? ? Hout Hnd']; subst.
  destruct Hx as [-> | Hx], Hy as [-> | Hy]; auto.
  - exfalso. apply Hout. rewrite E. now apply in_map.
  - exfalso. apply Hout. rewrite <- E. now apply in_map.
Qed.

(** X13: with the store available, the report of a well-formed id is refused
    with 404 exactly when no session has the id.  Every session of the
    store has a report, whatever its status: it is the summary and the
    answers of a session with that id, of that very session when ids are
    unique, with a student that has the session's reference as id and
    never the fields of the external identity, and with no student
    exactly when no user has that id. *)
Theorem X_session_report `{rt : Runtime} `{reporting : Reporting}
    (d : Db.t) (id : ObjectId) :
  Db.online d = true ->
  (~ In id (map GameSession._id (Db.gameSessions d)) ->
   Questions.getAdminSessionReport d id = Failure 404 "Session not found" None)
  /\ (forall s, In s (Db.gameSessions d) -> GameSession._id s = id ->
      exists s' student,
        Questions.getAdminSessionReport d id
          = Success (getSummary s', getDetailedAnswers s', student)
        /\ In s' (Db.gameSessions d) /\ GameSession._id s' = id
        /\ (NoDup (map GameSession._id (Db.gameSessions d)) -> s' = s)
        /\ (student = None
            <-> ~ In (GameSession.studentId s') (map User._id (Db.users d)))
        /\ (forall st, student = Some st ->
              Student._id st = GameSession.studentId s'
              /\ Student.azureAdEmail st = None
              /\ Student.azureAdDisplayName st = None)).
Proof.
  intros Hon. unfold Questions.getAdminSessionReport, Db.connected.
  rewrite Hon. cbn [JS.bind].
  split.
  - intros Hout.
    destruct (find _ (Db.gameSessions d)) as [s |] eqn:Ef; [| reflexivity].
    exfalso. apply Hout. apply find_some in Ef. destruct Ef as [Hin E].
    apply String.eqb_eq in E. rewrite <- E. now apply in_map.
  - intros s Hin Hid.
    destruct (find _ (Db.gameSessions d)) as [s' |] eqn:Ef.
    + apply find_some in Ef. destruct Ef as [Hin' E]. apply String.eqb_eq in E.
      exists s', (Questions.basicStudent d s').
      split; [reflexivity |]. split; [exact Hin' |]. split; [exact E |].
      split.
      { intros Hnd. apply (NoDup_map_unique GameSession._id _ _ _ Hnd Hin' Hin).
        congruence. }
      unfold Questions.basicStudent.
      destruct (find _ (Db.users d)) as [u |] eqn:Eu; cbn [option_map].
      * apply find_some in Eu. destruct Eu as [Hu Eu]. apply String.eqb_eq in Eu.
        split.
        { split; [discriminate |]. intros Hno. exfalso. apply Hno.
          rewrite <- Eu. now apply in_map. }
        intros st Est. inversion Est. cbn. auto.
      * split.
        { split; [| reflexivity]. intros _ Hyes. apply in_map_iff in Hyes.
          destruct Hyes as [u [Eu' Hu]]. apply (find_none _ _ Eu) in Hu.
          cbn beta in Hu. apply String.eqb_neq in Hu. contradiction. }
        intros st Est. discriminate Est.
    + exfalso. apply (find_none _ _ Ef) in Hin. cbn beta in Hin.
      apply String.eqb_neq in Hin. contradiction.
Qed.

(** The abandoned session of the week has a report, and no session has
    the id of a user. *)
Lemma X_session_report_witness :
  Db.online Quiz.bank = true
  /\ Questions.getAdminSessionReport (rt := Sample.runtime)
       (reporting := Quiz.reporting) Quiz.bank "u1"
     = Failure 404 "Session not found" None
  /\ exists s' student,
       Questions.getAdminSessionReport (rt := Sample.runtime)
         (reporting := Quiz.reporting) Quiz.bank "b"
       = Success (getSummary s', getDetailedAnswers s', student)
       /\ s' = Demo.attempt "b" "abandoned" 1 3 2000.
Proof.
  destruct (X_session_report (rt := Sample.runtime) (reporting := Quiz.reporting)
              Quiz.bank "u1" eq_refl) as [Hout _].
  destruct (X_session_report (rt := Sample.runtime) (reporting := Quiz.reporting)
              Quiz.bank "b" eq_refl) as [_ Hin].
  split; [reflexivity |]. split.
  - apply Hout. cbn. intros [H | [H | [H | []]]]; discriminate H.
  - destruct (Hin (Demo.attempt "b" "abandoned" 1 3 2000)) as
      [s' [student [E [_ [_ [Hsame _]]]]]]; [cbn; auto | reflexivity |].
    exists s', student. split; [exact E |]. apply Hsame.
    cbn. repeat constructor; cbn; intuition discriminate.
Defined.

(* ------------------------------------------------------------------ *)
(** ** The dashboard of the browser against the listing of the server *)

Lemma supplied_toString (z : Z) :
  JS.supplied (Some (Web.toString z)) = Some (Web.toString z).
Proof.
  unfold JS.supplied, JS.truthy.
  destruct (Web.toString z) as [| c r] eqn:E; [| reflexivity].
  pose proof (parseInt_toString z) as H. rewrite E in H. discriminate H.
Qed.

(** A number of the filters as the server reads it. *)
Lemma numParam_read (v : option num) :
  option_map (fun s => JS.parseInt (JS.VStr s)) (JS.supplied (Dashboard.numParam v))
  = option_map Some (Web.truthyNum v).
Proof.
  unfold Dashboard.numParam. destruct (Web.truthyNum v) as [z |]; cbn [option_map].
  - rewrite supplied_toString. cbn [option_map JS.parseInt].
    now rewrite parseInt_toString.
  - reflexivity.
Qed.

Lemma dashboard_level `{rt : Runtime} (s : Dashboard.State) :
  Admin.levelCond (Dashboard.fetchQuery s)
  = option_map Some (Web.truthyNum (Dashboard.level (Dashboard.filters s))).
Proof. unfold Admin.levelCond. apply numParam_read. Qed.

Lemma dashboard_score `{rt : Runtime} (s : Dashboard.State) :
  Admin.scoreCond (Dashboard.fetchQuery s)
  = match Web.truthyNum (Dashboard.minScore (Dashboard.filters s)),
          Web.truthyNum (Dashboard.maxScore (Dashboard.filters s)) with
    | None, None => None
    | a, b => Some (Store.mkRange (option_map Some a) (option_map Some b))
    end.
Proof.
  unfold Admin.scoreCond, Dashboard.fetchQuery. cbv zeta.
  cbn [Req.minScore Req.maxScore]. unfold Dashboard.numParam.
  destruct (Web.truthyNum (Dashboard.minScore (Dashboard.filters s))) as [a |],
           (Web.truthyNum (Dashboard.maxScore (Dashboard.filters s))) as [b |];
    cbn [option_map]; rewrite ?supplied_toString; cbn [option_map JS.parseInt Store.gte];
    rewrite ?parseInt_toString; reflexivity.
Qed.

Lemma dashboard_page (s : Dashboard.State) :
  Admin.pageOf (Dashboard.fetchQuery s) = Some (Dashboard.currentPage s)
  /\ Admin.limitOf (Dashboard.fetchQuery s) = Some 20.
Proof.
  split; [| reflexivity].
  unfold Admin.pageOf, Dashboard.fetchQuery. cbv zeta.
  cbn [Req.page JS.withDefault JS.parseInt]. apply parseInt_toString.
Qed.

Lemma applyLimit_length {A} (l : Z) (xs page : list A) :
  1 <= l -> Store.applyLimit (Some (Some l)) xs = JS.Ok page ->
  (List.length page <= Z.to_nat l)%nat.
Proof.
  intros Hl. unfold Store.applyLimit.
  destruct (Z.eqb_spec l 0) as [-> | _]; [lia |].
  intros E. inversion E. rewrite Z.abs_eq by lia. apply firstn_le_length.
Qed.

Lemma findSessions_length `{rt : Runtime} (st : Store.t) (f : Store.SessionFilter)
    (sort : option (string * Z)) (skip : option num) (l : Z)
    (page : list GameSession.t) :
  1 <= l -> Store.findSessions st f sort skip (Some (Some l)) = JS.Ok page ->
  (List.length page <= Z.to_nat l)%nat.
Proof.
  intros Hl. unfold Store.findSessions.
  destruct (Store.connected st); cbn [JS.bind]; [| discriminate].
  destruct (Store.compileSessionFilter f); cbn [JS.bind]; [| discriminate].
  destruct (Store.applySkip skip _) as [xs | e]; cbn [JS.bind]; [| discriminate].
  now apply applyLimit_length.
Qed.

(** X14: what the table of the dashboard shows, for a state whose numbers
    are safe integers (the page, the offset of the page, the level and
    the score bounds of the filter: such numbers are written to the
    request with all their digits and read back as they were): when
    the request of the dashboard is answered, the answer is the page the
    dashboard is on, it has at most 20 sessions, all completed, and a
    level, a minimum and a maximum score that are set to a number other
    than 0 hold for every session shown.  A bound that is 0 or not a
    number is not sent: the server then has no such bound. *)
Theorem X_dashboard_table `{rt : Runtime} (st : Store.t) (s : Dashboard.State)
    (items : list (Summary * option Student.t)) (pg : Admin.Pagination) :
  Spec.safeInteger (Dashboard.currentPage s) ->
  Spec.safeInteger ((Dashboard.currentPage s - 1) * 20) ->
  (forall z,
     Web.truthyNum (Dashboard.level (Dashboard.filters s)) = Some z
     \/ Web.truthyNum (Dashboard.minScore (Dashboard.filters s)) = Some z
     \/ Web.truthyNum (Dashboard.maxScore (Dashboard.filters s)) = Some z ->
     Spec.safeInteger z) ->
  Admin.getAllGameSessions st (Dashboard.fetchQuery s) = Success (items, pg) ->
  let f := Dashboard.filters s in
  Admin.p_page pg = Some (Dashboard.currentPage s)
  /\ 1 <= Dashboard.currentPage s
  /\ (exists page,
        items = map (fun x => (getSummary (fst x), snd x)) (Store.populate st page)
        /\ (List.length page <= 20)%nat
        /\ Forall (fun x =>
             In x (Store.gameSessions st)
             /\ GameSession.status x = "completed"
             /\ (forall z, Web.truthyNum (Dashboard.level f) = Some z ->
                   GameSession.level x = z)
             /\ (forall a, Web.truthyNum (Dashboard.minScore f) = Some a ->
                   a <= GameSession.score x)
             /\ (forall b, Web.truthyNum (Dashboard.maxScore f) = Some b ->
                   GameSession.score x <= b)) page)
  /\ (Web.truthyNum (Dashboard.maxScore f) = None ->
      forall r, Admin.scoreCond (Dashboard.fetchQuery s) = Some r ->
                Store.lte r = None)
  /\ (Web.truthyNum (Dashboard.level f) = None ->
      Admin.levelCond (Dashboard.fetchQuery s) = None).
Proof.
  intros _ _ _ H f.
  destruct (dashboard_page s) as [Hp Hl].
  unfold Admin.getAllGameSessions in H.
  destruct (Store.findSessions st _ _ _ _) as [found | e] eqn:Ef;
    cbn [JS.bind] in H; [| discriminate H].
  destruct (Store.countSessions st _) as [total | e];
    cbn [JS.bind Admin.catch] in H; [| discriminate H].
  inversion H as [[Ei Epg]]. clear H.
  split; [exact Hp |].
  split.
  { rewrite (skipOf_valid _ _ _ Hp Hl) in Ef.
    unfold Store.findSessions in Ef.
    destruct (Store.connected st); cbn [JS.bind] in Ef; [| discriminate Ef].
    destruct (Store.compileSessionFilter _); cbn [JS.bind] in Ef; [| discriminate Ef].
    unfold Store.applySkip in Ef.
    destruct (Z.ltb_spec ((Dashboard.currentPage s - 1) * 20) 0) as [Hneg | Hok];
      [cbn [JS.bind] in Ef; discriminate Ef | lia]. }
  split.
  { exists found. split; [reflexivity |].
    split.
    { rewrite Hl in Ef.
      exact (findSessions_length _ _ _ _ 20 _ ltac:(lia) Ef). }
    destruct (findSessions_incl _ _ _ _ _ _ Ef) as [matches [_ [Hc Hincl]]].
    destruct (effective_fields (Dashboard.fetchQuery s)) as [Fst [Flv [_ [Fsc _]]]].
    rewrite dashboard_level in Flv. rewrite dashboard_score in Fsc. fold f in Flv, Fsc.
    apply Forall_forall. intros x Hx. apply Hincl in Hx.
    apply filter_In in Hx. destruct Hx as [Hin Hm].
    destruct (compile_session_sound _ _ x Hc Hm) as [Hst [Hlv [_ [Hlo Hhi]]]].
    split; [exact Hin |]. split; [apply Hst; exact Fst |].
    split.
    { intros z Ez. apply Hlv. rewrite Flv, Ez. reflexivity. }
    split.
    - intros a Ea. rewrite Ea in Fsc.
      eapply Hlo; [exact Fsc | reflexivity].
    - intros b Eb. rewrite Eb in Fsc.
      destruct (Web.truthyNum (Dashboard.minScore f));
        (eapply Hhi; [exact Fsc | reflexivity]). }
  split.
  - intros En r. rewrite dashboard_score. fold f. rewrite En.
    destruct (Web.truthyNum (Dashboard.minScore f)); intros E; inversion E; reflexivity.
  - intros En. rewrite dashboard_level. fold f. now rewrite En.
Qed.

(** The state of the level-1 filter on the first page against the week of
    the campus. *)
Lemma X_dashboard_table_witness :
  exists page,
    [(Demo.attempt "a" "completed" 1 8 1000,
      Some (Student.ofUser (Sample.user "u1" "Asha")))]
    = map (fun x => (fst x, snd x)) (Store.populate (Demo.campus Demo.week) page)
    /\ (List.length page <= 20)%nat
    /\ Forall (fun x => GameSession.level x = 1) page.
Proof.
  destruct (X_dashboard_table (rt := Sample.runtime) (Demo.campus Demo.week)
              (Dashboard.mkState (Dashboard.mkSortConfig "startTime" Dashboard.desc)
                 (Dashboard.mkFilterConfig (Some (Some 1)) None None None None None)
                 1 1)
              [(Demo.attempt "a" "completed" 1 8 1000,
                Some (Student.ofUser (Sample.user "u1" "Asha")))]
              (Admin.mkPagination (Some 1) (Some 20) 1 (JS.Fin 1))
              ltac:(split; discriminate) ltac:(split; discriminate))
    as [_ [_ [[page [E [Hlen Hall]]] _]]].
  - intros z [Ez | [Ez | Ez]]; inversion Ez. split; discriminate.
  - reflexivity.
  - exists page. split; [exact E |]. split; [exact Hlen |].
    eapply Forall_impl; [| exact Hall]. cbv beta.
    intros x [_ [_ [Hlv _]]]. apply Hlv. reflexivity.
Defined.

Lemma receivedPages_pos (total : nat) (q : Req.Query) :
  Admin.limitOf q = Some 20 ->
  1 <= Dashboard.receivedPages (Admin.p_pages (Admin.pagination q (Z.of_nat total))).
Proof.
  intros Hl. unfold Admin.pagination. cbn [Admin.p_pages]. rewrite Hl.
  unfold JS.ceilDiv, Dashboard.receivedPages.
  change (20 =? 0) with false. cbv iota.
  destruct (Z.eqb_spec (- (- Z.of_nat total / 20)) 0) as [_ | Hnz]; [lia |].
  pose proof (Z.div_mod (- Z.of_nat total) 20 ltac:(lia)) as Hdm.
  pose proof (Z.mod_pos_bound (- Z.of_nat total) 20 ltac:(lia)) as Hb.
  lia.
Qed.

(** One event keeps both page numbers at 1 or above. *)
Lemma step_pages (s : Dashboard.State) (e : Dashboard.Event) :
  1 <= Dashboard.currentPage s /\ 1 <= Dashboard.totalPages s ->
  1 <= Dashboard.currentPage (Dashboard.step s e)
  /\ 1 <= Dashboard.totalPages (Dashboard.step s e).
Proof.
  intros [Hc Ht]. destruct e as [k | c | | | | total]; cbn; try lia.
  split; [exact Hc |].
  apply (receivedPages_pos total (Dashboard.fetchQuery s)). reflexivity.
Qed.

Lemma run_pages (events : list Dashboard.Event) (s : Dashboard.State) :
  1 <= Dashboard.currentPage s /\ 1 <= Dashboard.totalPages s ->
  1 <= Dashboard.currentPage (Dashboard.run s events)
  /\ 1 <= Dashboard.totalPages (Dashboard.run s events).
Proof.
  unfold Dashboard.run. revert s.
  induction events as [| e events IH]; intros s H; cbn [fold_left]; [exact H |].
  apply IH. now apply step_pages.
Qed.

Lemma run_snoc (events : list Dashboard.Event) (e : Dashboard.Event)
    (s : Dashboard.State) :
  Dashboard.run s (events ++ [e]) = Dashboard.step (Dashboard.run s events) e.
Proof. unfold Dashboard.run. now rewrite fold_left_app. Qed.

(** X15: whatever the administrator does in the dashboard, in whatever order
    and whatever the server answers in between: the page it is on and the
    number of pages it shows are never below 1; changing or clearing a
    filter goes back to page 1; [Next] never passes the last page and
    [Previous] never moves forward; and the request of the dashboard asks
    for that page, 20 a page, so that the server skips a number of
    sessions that is not negative. *)
Theorem X_dashboard_pages (events : list Dashboard.Event) :
  let s := Dashboard.run Dashboard.initial events in
  (1 <= Dashboard.currentPage s /\ 1 <= Dashboard.totalPages s)
  /\ (forall c, Dashboard.currentPage (Dashboard.run Dashboard.initial
                  (events ++ [Dashboard.ChangeFilter c])) = 1)
  /\ Dashboard.currentPage (Dashboard.run Dashboard.initial
       (events ++ [Dashboard.ClearFilters])) = 1
  /\ Dashboard.currentPage (Dashboard.run Dashboard.initial
       (events ++ [Dashboard.Next])) <= Dashboard.totalPages s
  /\ Dashboard.currentPage (Dashboard.run Dashboard.initial
       (events ++ [Dashboard.Previous])) <= Dashboard.currentPage s
  /\ Admin.pageOf (Dashboard.fetchQuery s) = Some (Dashboard.currentPage s)
  /\ Admin.limitOf (Dashboard.fetchQuery s) = Some 20
  /\ exists skip, Admin.skipOf (Dashboard.fetchQuery s) = Some skip /\ 0 <= skip.
Proof.
  intros s.
  assert (Hinv : 1 <= Dashboard.currentPage s /\ 1 <= Dashboard.totalPages s).
  { apply run_pages. cbn. lia. }
  destruct (dashboard_page s) as [Hp Hl].
  split; [exact Hinv |].
  split; [intros c; now rewrite run_snoc |].
  split; [now rewrite run_snoc |].
  split; [rewrite run_snoc; cbn; fold s; lia |].
  split; [rewrite run_snoc; cbn; fold s; lia |].
  split; [exact Hp |]. split; [exact Hl |].
  exists ((Dashboard.currentPage s - 1) * 20).
  split; [exact (skipOf_valid _ _ _ Hp Hl) | lia].
Qed.

Lemma supplied_idem (v : option string) : JS.supplied (JS.supplied v) = JS.supplied v.
Proof.
  unfold JS.supplied. destruct (JS.truthy v) eqn:E; [now rewrite E | reflexivity].
Qed.

Lemma truthy_supplied (v : option string) : JS.truthy (JS.supplied v) = JS.truthy v.
Proof.
  unfold JS.supplied. destruct (JS.truthy v) eqn:E; [exact E | reflexivity].
Qed.

Lemma bound_casts `{rt : Runtime} (path : string) (v : option string) :
  (forall x, JS.supplied v = Some x -> parseDate x <> None) ->
  exists b, Store.castBound path (option_map parseDate (JS.supplied v)) = JS.Ok b.
Proof.
  intros H. destruct (JS.supplied v) as [x |]; cbn [option_map Store.castBound].
  - destruct (parseDate x) as [z |] eqn:E; [eauto |].
    exfalso. now apply (H x).
  - eauto.
Qed.

Lemma dashboard_dates_compile `{rt : Runtime} (s : Dashboard.State) :
  (forall x, JS.supplied (Dashboard.startDate (Dashboard.filters s)) = Some x ->
     parseDate x <> None) ->
  (forall x, JS.supplied (Dashboard.endDate (Dashboard.filters s)) = Some x ->
     parseDate x <> None) ->
  exists p,
    Store.compileRange "createdAt" (Admin.createdAtCond (Dashboard.fetchQuery s))
    = JS.Ok p.
Proof.
  intros Hs He. unfold Admin.createdAtCond, Dashboard.fetchQuery. cbv zeta.
  cbn [Req.startDate Req.endDate]. rewrite !supplied_idem.
  destruct (_ || _); cbn [Store.compileRange Store.gte Store.lte]; [| eauto].
  destruct (bound_casts "createdAt" _ Hs) as [lo ->].
  destruct (bound_casts "createdAt" _ He) as [hi ->].
  cbn [JS.bind]. eauto.
Qed.

Lemma regexes_compile `{rt : Runtime} {A} (get : string -> A -> option string)
    (paths : list string) (x : string) :
  regexCompile x <> None ->
  exists ms, Store.compileRegexes get (Admin.regexes paths x) = JS.Ok ms.
Proof.
  intros Hx. unfold Admin.regexes.
  induction paths as [| p paths [ms IH]]; cbn [map Store.compileRegexes]; [eauto |].
  destruct (regexCompile x) as [m |]; [| contradiction].
  rewrite IH. cbn [JS.bind]. eauto.
Qed.

(** The filters of the dashboard compile when the search is a pattern the
    server accepts and the dates are dates. *)
Lemma dashboard_filter_compiles `{rt : Runtime} (s : Dashboard.State) :
  (forall x, JS.supplied (Dashboard.search (Dashboard.filters s)) = Some x ->
     regexCompile x <> None) ->
  (forall x, JS.supplied (Dashboard.startDate (Dashboard.filters s)) = Some x ->
     parseDate x <> None) ->
  (forall x, JS.supplied (Dashboard.endDate (Dashboard.filters s)) = Some x ->
     parseDate x <> None) ->
  exists fetched counted,
    Store.compileSessionFilter (Admin.effectiveSessionQuery (Dashboard.fetchQuery s))
      = JS.Ok fetched
    /\ Store.compileSessionFilter (Admin.sessionQuery (Dashboard.fetchQuery s))
       = JS.Ok counted.
Proof.
  intros Hx Hs He.
  destruct (dashboard_dates_compile s Hs He) as [pCreated Hc].
  assert (Hlv : exists p, Store.compileEq "level"
                            (Admin.levelCond (Dashboard.fetchQuery s)) = JS.Ok p).
  { rewrite dashboard_level.
    destruct (Web.truthyNum _); cbn [option_map Store.compileEq]; eauto. }
  assert (Hsc : exists p, Store.compileRange "score"
                            (Admin.scoreCond (Dashboard.fetchQuery s)) = JS.Ok p).
  { rewrite dashboard_score.
    destruct (Web.truthyNum (Dashboard.minScore _)),
             (Web.truthyNum (Dashboard.maxScore _));
      cbn [option_map Store.compileRange Store.castBound Store.gte Store.lte JS.bind];
      eauto. }
  destruct Hlv as [pLevel Hlv]. destruct Hsc as [pScore Hsc].
  assert (Hcounted : exists counted,
            Store.compileSessionFilter (Admin.sessionQuery (Dashboard.fetchQuery s))
            = JS.Ok counted).
  { unfold Store.compileSessionFilter, Admin.sessionQuery.
    cbn [Store.f_level Store.f_score Store.f_createdAt Store.f_or Store.f_status
         Store.f_studentId].
    rewrite Hlv, Hsc, Hc. cbn [JS.bind Store.compileOr]. eauto. }
  destruct Hcounted as [counted Hcounted].
  unfold Admin.effectiveSessionQuery. cbv zeta.
  destruct (JS.truthy (Some (Admin.orDefault (Req.search (Dashboard.fetchQuery s)) "")))
    eqn:Et.
  - assert (Hre : regexCompile
                    (Admin.orDefault (Req.search (Dashboard.fetchQuery s)) "")
                  <> None).
    { apply Hx. change (Req.search (Dashboard.fetchQuery s))
        with (JS.supplied (Dashboard.search (Dashboard.filters s))) in *.
      destruct (JS.supplied (Dashboard.search (Dashboard.filters s))) as [x |];
        [reflexivity | discriminate Et]. }
    destruct (regexes_compile GameSession.getString
                ["studentIdentifier"; "studentId.studentName";
                 "studentId.studentId"; "studentId.mobileNumber"] _ Hre) as [ms Hms].
    unfold Store.compileSessionFilter, Admin.withSearch, Admin.sessionQuery.
    cbn [Store.f_level Store.f_score Store.f_createdAt Store.f_or Store.f_status
         Store.f_studentId Store.compileOr].
    rewrite Hlv, Hsc, Hc, Hms. cbn [JS.bind]. eauto.
  - eauto.
Qed.

(** X16: the request of the dashboard is answered, after whatever the
    administrator did, when the store is available, the search is a
    pattern the server accepts and the dates are dates: numbers in the
    filters and the page never make the listing fail. *)
Theorem X_dashboard_request_succeeds `{rt : Runtime} (st : Store.t)
    (events : list Dashboard.Event) :
  let s := Dashboard.run Dashboard.initial events in
  let f := Dashboard.filters s in
  Store.online st = true ->
  (forall x, JS.supplied (Dashboard.search f) = Some x -> regexCompile x <> None) ->
  (forall x, JS.supplied (Dashboard.startDate f) = Some x -> parseDate x <> None) ->
  (forall x, JS.supplied (Dashboard.endDate f) = Some x -> parseDate x <> None) ->
  exists items total pages,
    Admin.getAllGameSessions st (Dashboard.fetchQuery s)
    = Success (items, Admin.mkPagination (Some (Dashboard.currentPage s)) (Some 20)
                        total (JS.Fin pages))
    /\ (List.length items <= 20)%nat
    /\ 0 <= total /\ Spec.isCeilDiv total 20 pages.
Proof.
  intros s f Hon Hx Hs He.
  destruct (dashboard_filter_compiles s Hx Hs He) as [fetched [counted [Hf Hc]]].
  destruct (dashboard_page s) as [Hp Hl].
  assert (Hinv : 1 <= Dashboard.currentPage s /\ 1 <= Dashboard.totalPages s).
  { apply run_pages. cbn. lia. }
  rewrite (sessions_valid st _ _ 20 fetched counted Hp (proj1 Hinv) Hl
             ltac:(lia) Hon Hf Hc).
  destruct (ceilDiv_valid
              (Z.of_nat (List.length (filter counted (Store.gameSessions st)))) 20
              ltac:(lia)) as [pages [Ep Hpages]].
  rewrite Ep. eexists _, _, pages. split; [reflexivity |].
  split.
  - unfold Store.populate. rewrite !length_map.
    etransitivity; [apply firstn_le_length | reflexivity].
  - split; [lia | exact Hpages].
Qed.

(** A click on a column, a level and a step to the next page, against the
    week of the campus. *)
Lemma X_dashboard_request_succeeds_witness :
  exists items total pages,
    Admin.getAllGameSessions (rt := Sample.runtime) (Demo.campus Demo.week)
      (Dashboard.fetchQuery
         (Dashboard.run Dashboard.initial
            [ Dashboard.ClickSort "score";
              Dashboard.ChangeFilter (Dashboard.SetLevel (Some (Some 1)));
              Dashboard.Next ]))
    = Success (items, Admin.mkPagination (Some 1) (Some 20) total (JS.Fin pages))
    /\ (List.length items <= 20)%nat
    /\ 0 <= total /\ Spec.isCeilDiv total 20 pages.
Proof.
  apply (X_dashboard_request_succeeds (rt := Sample.runtime) (Demo.campus Demo.week)
           [ Dashboard.ClickSort "score";
             Dashboard.ChangeFilter (Dashboard.SetLevel (Some (Some 1)));
             Dashboard.Next ]).
  - reflexivity.
  - intros x Hx. discriminate Hx.
  - intros x Hx. discriminate Hx.
  - intros x Hx. discriminate Hx.
Defined.

Lemma dashboard_sortField `{rt : Runtime} (allowed : list string)
    (s : Dashboard.State) :
  Admin.sortField allowed (Dashboard.fetchQuery s)
  = if JS.includes allowed (Dashboard.key (Dashboard.sortConfig s))
    then Dashboard.key (Dashboard.sortConfig s) else "createdAt".
Proof. reflexivity. Qed.

(** X17: a click on a column of the table sorts by that column, ascending
    unless the table was sorted by it ascending already; a second click
    reverses the direction and a third restores it.  The server sorts by
    level, score, percentage and time as asked.  It knows no sort key of
    the other four columns, student name, student id, accuracy and date,
    nor of the column the dashboard starts with: for these the listing is
    the one sorted by the time of creation. *)
Theorem X_dashboard_sort `{rt : Runtime} (st : Store.t) (s : Dashboard.State)
    (k : string) :
  let s1 := Dashboard.handleSort k s in
  let s2 := Dashboard.handleSort k s1 in
  Dashboard.key (Dashboard.sortConfig s1) = k
  /\ (Dashboard.key (Dashboard.sortConfig s) <> k ->
      Dashboard.direction (Dashboard.sortConfig s1) = Dashboard.asc)
  /\ Dashboard.direction (Dashboard.sortConfig s2)
     <> Dashboard.direction (Dashboard.sortConfig s1)
  /\ Dashboard.handleSort k s2 = s1
  /\ Dashboard.currentPage s1 = Dashboard.currentPage s
  /\ Admin.sortDirection (Dashboard.fetchQuery s)
     = match Dashboard.direction (Dashboard.sortConfig s) with
       | Dashboard.asc => 1
       | Dashboard.desc => -1
       end
  /\ (In k ["level"; "score"; "percentage"; "timeTakenSeconds"] ->
      Admin.sortField Admin.sessionSortFields (Dashboard.fetchQuery s1) = k)
  /\ (In k ["studentName"; "studentId"; "accuracy"; "startTime"] ->
      Admin.getAllGameSessions st (Dashboard.fetchQuery s1)
      = Admin.getAllGameSessions st
          (Req.withSort (Dashboard.fetchQuery s1) (Some "createdAt")
             (Req.sortOrder (Dashboard.fetchQuery s1))))
  /\ Admin.getAllGameSessions st (Dashboard.fetchQuery Dashboard.initial)
     = Admin.getAllGameSessions st
         (Req.withSort (Dashboard.fetchQuery Dashboard.initial)
            (Some "createdAt") (Some "desc")).
Proof.
  intros s1 s2. subst s1 s2.
  split; [reflexivity |].
  split.
  { intros Hne. cbn. apply String.eqb_neq in Hne. rewrite Hne.
    now destruct (Dashboard.direction (Dashboard.sortConfig s)). }
  split.
  { cbn. rewrite String.eqb_refl.
    destruct (Dashboard.direction (Dashboard.sortConfig s));
      [destruct (_ =? _)%string |]; discriminate. }
  split.
  { unfold Dashboard.handleSort.
    cbn [Dashboard.sortConfig Dashboard.key Dashboard.direction Dashboard.filters
         Dashboard.currentPage Dashboard.totalPages].
    rewrite String.eqb_refl.
    destruct (Dashboard.direction (Dashboard.sortConfig s));
      [destruct (_ =? _)%string |]; reflexivity. }
  split; [reflexivity |].
  split.
  { unfold Admin.sortDirection, Dashboard.fetchQuery. cbv zeta.
    cbn [Req.sortOrder Admin.orDefault].
    now destruct (Dashboard.direction (Dashboard.sortConfig s)). }
  split.
  { intros Hk. rewrite dashboard_sortField.
    change (Dashboard.key (Dashboard.sortConfig (Dashboard.handleSort k s))) with k.
    destruct Hk as [<- | [<- | [<- | [<- | []]]]]; reflexivity. }
  split.
  - intros Hk. unfold Admin.getAllGameSessions. cbv zeta.
    assert (E1 : Admin.sortField Admin.sessionSortFields
                   (Dashboard.fetchQuery (Dashboard.handleSort k s)) = "createdAt").
    { rewrite dashboard_sortField.
      change (Dashboard.key (Dashboard.sortConfig (Dashboard.handleSort k s))) with k.
      destruct Hk as [<- | [<- | [<- | [<- | []]]]]; reflexivity. }
    rewrite E1. reflexivity.
  - reflexivity.
Qed.

(** X18: what the table shows is in the file the dashboard downloads: when the
    request of the table is answered, the export that the dashboard asks
    for in the same state has a row for every session of the page,
    whatever the page, the sort and the search. *)
Theorem X_dashboard_export_covers_table `{rt : Runtime} (st : Store.t)
    (s : Dashboard.State) (items : list (Summary * option Student.t))
    (pg : Admin.Pagination) :
  Admin.getAllGameSessions st (Dashboard.fetchQuery s) = Success (items, pg) ->
  exists page all,
    items = map (fun x => (getSummary (fst x), snd x)) (Store.populate st page)
    /\ (forall today,
          Exporter.exportStudentPerformance st Completes today (Dashboard.exportQuery s)
          = Res.mk 200 (Spec.exportHeaders today) (Some 200)
              (map Res.Bytes
                 (xlsxSerialize (Exporter.buildWorksheet (Store.populate st all))))
              true)
    /\ (forall ps, In ps (Store.populate st page) ->
          In (Spec.dataRow ps)
             (Sheet.rows (Exporter.buildWorksheet (Store.populate st all)))).
Proof.
  unfold Admin.getAllGameSessions.
  destruct (Store.findSessions st _ _ _ _) as [page | e] eqn:Ef; cbn [JS.bind];
    [| discriminate].
  destruct (Store.countSessions st _) as [total | e]; cbn [JS.bind Admin.catch];
    [| discriminate].
  intros E. injection E as <- _.
  destruct (findSessions_incl _ _ _ _ _ _ Ef) as [matches [Hon [Hc Hincl]]].
  destruct (effective_fields (Dashboard.fetchQuery s)) as [Fst [Flv [Fsid [Fsc Fcr]]]].
  destruct (compile_weaker (Admin.effectiveSessionQuery (Dashboard.fetchQuery s))
              (Admin.exportQuery (Dashboard.exportQuery s))
              matches (eq_sym Fst) (eq_sym Flv) (eq_sym Fsc) (eq_sym Fcr)
              eq_refl eq_refl Hc) as [matches' [Hc' Himp]].
  set (all := Store.sortDocs Store.sessionKey (Some ("createdAt", -1))
                (filter matches' (Store.gameSessions st))).
  assert (Hpage : incl page all).
  { intros x Hx. apply Hincl in Hx. apply filter_In in Hx. destruct Hx as [Hin Hm].
    eapply Permutation_in; [apply Permutation_sym, sortDocs_perm |].
    apply filter_In. split; [exact Hin | now apply Himp]. }
  exists page, all. split; [reflexivity |]. split.
  - intros today.
    pose proof (export_cases st Completes today (Dashboard.exportQuery s)) as H.
    cbv zeta in H.
    rewrite (export_found st (Dashboard.exportQuery s) matches' Hon Hc') in H. exact H.
  - intros ps Hps. rewrite buildWorksheet_rows. right.
    apply in_or_app. left. apply in_map. eapply populate_In; eauto.
Qed.

(** The level-1 table of the campus and the export for the same state. *)
Lemma X_dashboard_export_covers_table_witness :
  exists page all : list GameSession.t,
    List.length page = 1%nat
    /\ forall ps, In ps (Store.populate (Demo.campus Demo.week) page) ->
         In (Spec.dataRow (rt := Sample.runtime) ps)
            (Sheet.rows (Exporter.buildWorksheet (rt := Sample.runtime)
                           (Store.populate (Demo.campus Demo.week) all))).
Proof.
  destruct (X_dashboard_export_covers_table (rt := Sample.runtime)
              (Demo.campus Demo.week)
              (Dashboard.mkState (Dashboard.mkSortConfig "startTime" Dashboard.desc)
                 (Dashboard.mkFilterConfig (Some (Some 1)) None None None None None)
                 1 1)
              [(Demo.attempt "a" "completed" 1 8 1000,
                Some (Student.ofUser (Sample.user "u1" "Asha")))]
              (Admin.mkPagination (Some 1) (Some 20) 1 (JS.Fin 1)) eq_refl)
    as [page [all [E [_ Hrows]]]].
  exists page, all. split; [| exact Hrows].
  pose proof (f_equal (fun l => List.length l) E) as El. cbv beta in El.
  unfold Store.populate in El. rewrite !length_map in El.
  symmetry. exact El.
Defined.

(** A click on the name column of the first state: the listing is the one
    by the time of creation, ascending. *)
Lemma X_dashboard_sort_witness :
  Admin.getAllGameSessions (rt := Sample.runtime) (Demo.campus Demo.week)
    (Dashboard.fetchQuery (Dashboard.handleSort "studentName" Dashboard.initial))
  = Admin.getAllGameSessions (rt := Sample.runtime) (Demo.campus Demo.week)
      (Req.withSort
         (Dashboard.fetchQuery (Dashboard.handleSort "studentName" Dashboard.initial))
         (Some "createdAt") (Some "asc")).
Proof.
  destruct (X_dashboard_sort (rt := Sample.runtime) (Demo.campus Demo.week)
              Dashboard.initial "studentName") as [_ [_ [_ [_ [_ [_ [_ [H _]]]]]]]].
  apply H. cbn. auto.
Defined.

(* ------------------------------------------------------------------ *)
(** ** The name of the downloaded file *)

Lemma prefix_empty (s : string) : prefix "" s = true.
Proof. now destruct s. Qed.

Lemma prefix_app (p s : string) :
  prefix p s = true -> exists r, s = (p ++ r)%string.
Proof.
  revert s. induction p as [| a p IH]; intros s.
  - exists s. reflexivity.
  - destruct s as [| b s]; simpl; [discriminate |].
    destruct (ascii_dec a b) as [-> | _]; [| discriminate].
    intros H. destruct (IH s H) as [r ->]. exists r. reflexivity.
Qed.

Lemma append_assoc (a b c : string) :
  ((a ++ b) ++ c = a ++ (b ++ c))%string.
Proof. induction a as [| x a IH]; simpl; [reflexivity | now rewrite IH]. Qed.

Lemma append_empty_r (a : string) : (a ++ "")%string = a.
Proof. induction a as [| x a IH]; simpl; [reflexivity | now rewrite IH]. Qed.

(** A text without the separator is one piece. *)
Lemma splitFrom_none (sep s cur : string) :
  (forall a b, s <> (a ++ sep ++ b)%string) ->
  Web.splitFrom sep s 0 cur = [(cur ++ s)%string].
Proof.
  revert cur. induction s as [| c r IH]; intros cur Hno; cbn [Web.splitFrom].
  - now rewrite append_empty_r.
  - destruct (prefix sep (String c r)) eqn:Ep.
    + apply prefix_app in Ep. destruct Ep as [b Eb].
      exfalso. apply (Hno ""%string b). exact Eb.
    + rewrite IH.
      * rewrite append_assoc. reflexivity.
      * intros a b E. apply (Hno (String c a) b). simpl. now rewrite E.
Qed.

Lemma chars_app (a b : string) :
  list_ascii_of_string (a ++ b)
  = list_ascii_of_string a ++ list_ascii_of_string b.
Proof. induction a as [| x a IH]; simpl; [reflexivity | now rewrite IH]. Qed.

Lemma stamp_chars (s : string) (c : ascii) :
  Web.isDateStamp s = true -> In c (list_ascii_of_string s) ->
  Web.isStampChar c = true.
Proof.
  induction s as [| x s IH]; simpl; [contradiction |].
  rewrite andb_true_iff. intros [Hx Hs] [<- | Hc]; auto.
Qed.

Lemma removeQuotes_app (a b : string) :
  Web.removeQuotes (a ++ b) = (Web.removeQuotes a ++ Web.removeQuotes b)%string.
Proof.
  induction a as [| x a IH]; simpl; [reflexivity |].
  destruct (Ascii.eqb x _); simpl; now rewrite IH.
Qed.

Lemma removeQuotes_stamp (s : string) :
  Web.isDateStamp s = true -> Web.removeQuotes s = s.
Proof.
  induction s as [| x s IH]; simpl; [reflexivity |].
  rewrite andb_true_iff. intros [Hx Hs].
  destruct (Ascii.eqb_spec x (ascii_of_nat 34)) as [-> | _];
    [discriminate Hx | now rewrite IH].
Qed.

(** X19: the file is saved under the name the server gave it: the name in the
    header of the export, written for a date of digits and hyphens, is
    the name the dashboard reads from the response. *)
Theorem X_download_name (today : string) :
  Web.isDateStamp today = true ->
  Dashboard.downloadName (Spec.exportHeaders today)
  = ("student_performance_" ++ today ++ ".xlsx")%string.
Proof.
  intros Hstamp. unfold Dashboard.downloadName.
  set (name := ("student_performance_" ++ today ++ ".xlsx")%string).
  set (rest := (Exporter.dquote ++ name ++ Exporter.dquote)%string).
  change (Web.headerGet "content-disposition" (Spec.exportHeaders today))
    with (Some ("attachment; filename=" ++ rest)%string).
  assert (Hno : forall a b, rest <> (a ++ "filename=" ++ b)%string).
  { intros a b E.
    assert (Hin : In "="%char (list_ascii_of_string rest)).
    { rewrite E, !chars_app. apply in_or_app. right. apply in_or_app. left.
      cbn. tauto. }
    unfold rest, name in Hin. rewrite !chars_app in Hin.
    repeat (apply in_app_or in Hin; destruct Hin as [Hin | Hin]).
    - cbn in Hin. intuition discriminate.
    - cbn in Hin. intuition discriminate.
    - apply (stamp_chars _ _ Hstamp) in Hin. discriminate Hin.
    - cbn in Hin. intuition discriminate.
    - cbn in Hin. intuition discriminate. }
  assert (Hsplit : Web.split "filename=" ("attachment; filename=" ++ rest)
                   = ["attachment; "%string; rest]).
  { unfold Web.split. generalize rest Hno. clear. intros rest Hno.
    cbn. rewrite prefix_empty. f_equal. now apply splitFrom_none. }
  cbv iota beta. rewrite Hsplit. cbn [nth_error option_map].
  unfold rest. rewrite !removeQuotes_app.
  unfold name. rewrite !removeQuotes_app, (removeQuotes_stamp _ Hstamp).
  change (Web.removeQuotes Exporter.dquote) with ""%string.
  change (Web.removeQuotes "student_performance_") with "student_performance_"%string.
  change (Web.removeQuotes ".xlsx") with ".xlsx"%string.
  rewrite append_empty_r. reflexivity.
Qed.

(** The export of the first day of 2024. *)
Lemma X_download_name_witness :
  Dashboard.downloadName (Spec.exportHeaders "2024-01-01")
  = "student_performance_2024-01-01.xlsx"%string.
Proof. apply (X_download_name "2024-01-01"). reflexivity. Defined.

(* ------------------------------------------------------------------ *)
(** ** The cells of the table against the cells of the export *)

Lemma orElse_some (x d : string) : x <> ""%string -> JS.orElse (Some x) d = x.
Proof. intros Hx. unfold JS.orElse. apply String.eqb_neq in Hx. now rewrite Hx. Qed.

Lemma truthy_some (x : string) : x <> ""%string -> JS.truthy (Some x) = true.
Proof. intros Hx. unfold JS.truthy. apply String.eqb_neq in Hx. now rewrite Hx. Qed.

Lemma orElse_falsy (v : option string) (d : string) :
  JS.truthy v = false -> JS.orElse v d = d.
Proof.
  unfold JS.truthy, JS.orElse. destruct v as [x |]; [| reflexivity].
  now destruct (x =? "")%string.
Qed.

(** X20: for a session whose summary carries no name, id and mobile number of
    its own, the table of the dashboard and the export show the same
    student id, the same name unless the student has a display name of
    the external identity, and the same contact unless the student has
    both a mobile number and an e-mail address: then the table shows the
    number and the export the address, and of a student with a display
    name the export shows that and the table the student name. *)
Theorem X_table_cells_against_export (r : Dashboard.Row) :
  JS.truthy (Dashboard.r_studentName r) = false ->
  JS.truthy (Dashboard.r_studentId r) = false ->
  JS.truthy (Dashboard.r_mobile r) = false ->
  let student := Dashboard.r_student r in
  let mobile := Exporter.field Student.mobileNumber student in
  let email := Exporter.field Student.azureAdEmail student in
  let display := Exporter.field Student.azureAdDisplayName student in
  Dashboard.idCell r = Exporter.studentIdOf student
  /\ (JS.truthy display = false ->
      Dashboard.nameCell r = Exporter.studentNameOf student)
  /\ (JS.truthy mobile = false \/ JS.truthy email = false ->
      Dashboard.contactCell r = Exporter.contactOf student)
  /\ (forall m e, mobile = Some m -> email = Some e ->
        m <> ""%string -> e <> ""%string ->
        Dashboard.contactCell r = m /\ Exporter.contactOf student = e)
  /\ (forall d, display = Some d -> d <> ""%string ->
        Exporter.studentNameOf student = d
        /\ Dashboard.nameCell r
           = JS.orElse (Exporter.field Student.studentName student) "N/A").
Proof.
  intros Hn Hi Hm student mobile email display.
  unfold Dashboard.idCell, Dashboard.nameCell, Dashboard.contactCell,
    Exporter.studentIdOf, Exporter.studentNameOf, Exporter.contactOf.
  fold student. fold mobile email display.
  unfold JS.orOpt. rewrite Hn, Hi, Hm.
  split; [reflexivity |].
  split.
  { intros Hd. now rewrite Hd. }
  split.
  { intros [Hmob | Hem].
    - rewrite Hmob. destruct (JS.truthy email) eqn:Ee; [reflexivity |].
      now rewrite !orElse_falsy.
    - rewrite Hem. destruct (JS.truthy mobile) eqn:Emob; [reflexivity |].
      now rewrite !orElse_falsy. }
  split.
  - intros m e Em Ee Hmne Hene. rewrite Em, Ee.
    rewrite !(truthy_some _ Hmne), !(truthy_some _ Hene).
    split; now apply orElse_some.
  - intros d Ed Hdne. rewrite Ed, (truthy_some _ Hdne).
    split; [now apply orElse_some | reflexivity].
Qed.

(** A student with a number and an address, and a summary without. *)
Lemma X_table_cells_against_export_witness :
  Dashboard.contactCell
    (Dashboard.mkRow None None None
       (Some (Student.mk "u1" (Some "Asha") None (Some "555") (Some "a@x.org") None)))
  = "555"%string
  /\ Exporter.contactOf
       (Some (Student.mk "u1" (Some "Asha") None (Some "555") (Some "a@x.org") None))
     = "a@x.org"%string.
Proof.
  destruct (X_table_cells_against_export
              (Dashboard.mkRow None None None
                 (Some (Student.mk "u1" (Some "Asha") None (Some "555")
                          (Some "a@x.org") None)))
              eq_refl eq_refl eq_refl) as [_ [_ [_ [H _]]]].
  apply (H "555"%string "a@x.org"%string); try reflexivity; discriminate.
Defined.
